(** * Gasoradar: the submission-admission gate

    A shallow embedding of [app/services/protection_service.py] together
    with the parts of [app/config.py] and [app/database.py] it relies on:
    reCAPTCHA verification, the two in-memory sliding-window rate
    limiters, the price validator with its static fallback table, and
    the two admission pipelines. Around them: the methods of the models
    in [app/models] and the form dictionaries the endpoints of [app/api]
    hand to the pipelines.

    Conventions of the embedding.
    - Python [float]s (prices, timestamps, tolerances) are exact
      rationals [Q]; [int]s are [Z]; [str] is [string], holding the
      text in UTF-8: [len] and [strip] go by characters, [lower] maps
      the ASCII letters.
    - [datetime] values are seconds since the epoch.
    - The instance state ([self]) is threaded by the program monad
      [Prog]; the clock, the reCAPTCHA endpoint and the database are the
      environment, and every interaction with them is an event of the
      monad that the interpreter [run] records in a trace.
    - [logger] calls are not modelled. *)

From Stdlib Require Import ZArith QArith Qround Lqa List String Ascii DecimalString Sorted.
From stdpp Require Import gmap strings.

Set Warnings "-register-all".
Local Open Scope Z_scope.
Local Open Scope string_scope.

(** ** Python values and built-ins *)

Module Py.

(** The values a form dictionary or a diagnostics dictionary can hold. *)
Inductive pyval : Type :=
| PyNone
| PyBool (b : bool)
| PyInt (z : Z)
| PyFloat (q : Q)
| PyStr (s : string)
| PyDict (kvs : list (string * pyval)).

(** The exception classes that occur in the service. *)
Inductive exn : Type :=
| TypeError
| ValueError
| AttributeError
| StatisticsError
| ClientError
| SQLAlchemyError.

(** [bool(v)]. *)
Definition truthy (v : pyval) : bool :=
  match v with
  | PyNone => false
  | PyBool b => b
  | PyInt z => negb (z =? 0)%Z
  | PyFloat q => negb (Qeq_bool q 0)
  | PyStr s => negb (String.eqb s "")
  | PyDict kvs => match kvs with [] => false | _ => true end
  end.

(** [d.get(k)] on a dictionary kept as an association list. *)
Fixpoint dict_get (k : string) (kvs : list (string * pyval)) : option pyval :=
  match kvs with
  | [] => None
  | (k', v) :: rest => if String.eqb k k' then Some v else dict_get k rest
  end.

Definition Qltb (a b : Q) : bool := negb (Qle_bool b a).

(** [str.lower()] *)
Definition lower_char (c : ascii) : ascii :=
  let n := nat_of_ascii c in
  if ((65 <=? n) && (n <=? 90))%nat then ascii_of_nat (n + 32) else c.

Fixpoint lower (s : string) : string :=
  match s with
  | EmptyString => EmptyString
  | String c rest => String (lower_char c) (lower rest)
  end.

(** A [str] is held in UTF-8. Its characters: a character is a byte
    that is not a continuation byte (10xxxxxx) together with the
    continuation bytes that follow it. *)
Definition is_continuation (c : ascii) : bool :=
  let n := nat_of_ascii c in
  ((128 <=? n) && (n <=? 191))%nat.

Fixpoint chars (s : string) : list string :=
  match s with
  | EmptyString => []
  | String c rest =>
      let continues :=
        match rest with
        | String c' _ => is_continuation c'
        | EmptyString => false
        end in
      match chars rest with
      | ch :: chs =>
          if continues then String c ch :: chs else String c EmptyString :: ch :: chs
      | [] => [String c EmptyString]
      end
  end.

(** [len(s)] *)
Definition len (s : string) : nat := length (chars s).

(** The character with the given UTF-8 bytes. *)
Definition utf8 (bytes : list nat) : string :=
  fold_right (fun n s => String (ascii_of_nat n) s) EmptyString bytes.

(** [str.isspace] for one character: U+0009 to U+000D, U+001C to
    U+0020, U+0085, U+00A0, U+1680, U+2000 to U+200A, U+2028, U+2029,
    U+202F, U+205F and U+3000. *)
Definition whitespace : list string :=
  map utf8
    [[9]; [10]; [11]; [12]; [13]; [28]; [29]; [30]; [31]; [32];
     [194; 133]; [194; 160]; [225; 154; 128];
     [226; 128; 128]; [226; 128; 129]; [226; 128; 130]; [226; 128; 131];
     [226; 128; 132]; [226; 128; 133]; [226; 128; 134]; [226; 128; 135];
     [226; 128; 136]; [226; 128; 137]; [226; 128; 138];
     [226; 128; 168]; [226; 128; 169]; [226; 128; 175];
     [226; 129; 159]; [227; 128; 128]]%nat.

Definition isspace (ch : string) : bool := existsb (String.eqb ch) whitespace.

(** [str.strip()], on the characters. *)
Fixpoint lstrip (chs : list string) : list string :=
  match chs with
  | [] => []
  | ch :: rest => if isspace ch then lstrip rest else chs
  end.

Definition rstrip (chs : list string) : list string := rev (lstrip (rev chs)).

Definition strip (s : string) : string :=
  fold_right String.append EmptyString (rstrip (lstrip (chars s))).

(** [str(n)] for an [int]. *)
Definition str_int (z : Z) : string := NilZero.string_of_int (Z.to_int z).

(** [statistics.mean]: raises [StatisticsError] on an empty list. *)
Definition Qsum (l : list Q) : Q := fold_right Qplus 0%Q l.

Definition mean (l : list Q) : option Q :=
  match l with
  | [] => None
  | _ => Some (Qsum l / inject_Z (Z.of_nat (length l)))%Q
  end.

(** Rounding to the nearest integer, ties to even, as [round] and the
    [.2f] format do. *)
Definition round_half_even (q : Q) : Z :=
  let f := Qfloor q in
  let r := (q - inject_Z f)%Q in
  if Qltb r (1 # 2) then f
  else if Qltb (1 # 2) r then f + 1
  else if Z.even f then f else f + 1.

(** [round(q, 2)] *)
Definition round2 (q : Q) : Q := (inject_Z (round_half_even (q * 100)) / 100)%Q.

(** [f"{q:.2f}"] *)
Definition format_2f (q : Q) : string :=
  let n := Z.abs (round_half_even (q * 100)) in
  let cents := n mod 100 in
  (if Qltb q 0 then "-" else "")
  ++ str_int (n / 100) ++ "."
  ++ (if (cents <? 10)%Z then "0" else "") ++ str_int cents.

(** What the interpreter provides and rationals cannot express:
    [repr] of a float, and the parsers behind [float(s)] and [int(s)]
    ([None] stands for [ValueError]). *)
Class Runtime : Type := {
  float_repr : Q -> string;
  float_of_str : string -> option Q;
  int_of_str : string -> option Z
}.

Section Conversions.
Context `{rt : Runtime}.

(** [float(v)] *)
Definition py_float (v : pyval) : exn + Q :=
  match v with
  | PyBool b => inr (if b then 1 else 0)%Q
  | PyInt z => inr (inject_Z z)
  | PyFloat q => inr q
  | PyStr s => match float_of_str s with Some q => inr q | None => inl ValueError end
  | PyNone | PyDict _ => inl TypeError
  end.

(** [int(v)]: a float is truncated towards zero. *)
Definition py_int (v : pyval) : exn + Z :=
  match v with
  | PyBool b => inr (if b then 1 else 0)
  | PyInt z => inr z
  | PyFloat q => inr (Z.quot (Qnum q) (Z.pos (Qden q)))
  | PyStr s => match int_of_str s with Some z => inr z | None => inl ValueError end
  | PyNone | PyDict _ => inl TypeError
  end.
End Conversions.

End Py.

Import Py.

(** ** Configuration ([app/config.py]) *)

Record PriceRange : Type := {
  range_min : Q;
  range_max : Q
}.

Record Settings : Type := {
  recaptcha_secret_key : string;
  price_reports_per_hour : Z;
  reviews_per_day : Z;
  price_tolerance_percent : Q;
  min_samples_for_validation : Z;
  price_data_freshness_days : Z;
  fallback_price_ranges : gmap string PriceRange
}.

(** The defaults of [class Settings]. *)
Definition default_settings : Settings := {|
  recaptcha_secret_key := "";
  price_reports_per_hour := 3;
  reviews_per_day := 2;
  price_tolerance_percent := 15;
  min_samples_for_validation := 5;
  price_data_freshness_days := 30;
  fallback_price_ranges :=
    <["magna" := {| range_min := 15; range_max := 35 |}]>
    (<["premium" := {| range_min := 18; range_max := 40 |}]>
    (<["diesel" := {| range_min := 16; range_max := 38 |}]> ∅))
|}.

(** ** The service instance ([ProtectionService.__init__]) *)

Record ProtectionService : Type := {
  _price_reports : gmap string (list Q);
  _reviews : gmap string (list Q);
  recaptcha_secret : string;
  recaptcha_verify_url : string;
  price_tolerance : Q;
  min_samples : Z;
  freshness_days : Z;
  fallback_ranges : gmap string PriceRange
}.

Definition init (settings : Settings) : ProtectionService := {|
  _price_reports := ∅;
  _reviews := ∅;
  recaptcha_secret := recaptcha_secret_key settings;
  recaptcha_verify_url := "https://www.google.com/recaptcha/api/siteverify";
  price_tolerance := (price_tolerance_percent settings / 100)%Q;
  min_samples := min_samples_for_validation settings;
  freshness_days := price_data_freshness_days settings;
  fallback_ranges := fallback_price_ranges settings
|}.

Definition set_price_reports (self : ProtectionService) (m : gmap string (list Q))
  : ProtectionService :=
  {| _price_reports := m;
     _reviews := _reviews self;
     recaptcha_secret := recaptcha_secret self;
     recaptcha_verify_url := recaptcha_verify_url self;
     price_tolerance := price_tolerance self;
     min_samples := min_samples self;
     freshness_days := freshness_days self;
     fallback_ranges := fallback_ranges self |}.

Definition set_reviews (self : ProtectionService) (m : gmap string (list Q))
  : ProtectionService :=
  {| _price_reports := _price_reports self;
     _reviews := m;
     recaptcha_secret := recaptcha_secret self;
     recaptcha_verify_url := recaptcha_verify_url self;
     price_tolerance := price_tolerance self;
     min_samples := min_samples self;
     freshness_days := freshness_days self;
     fallback_ranges := fallback_ranges self |}.

(** ** The environment and the program monad *)

(** The reply of the reCAPTCHA endpoint as [verify_recaptcha] reads it:
    [result.get("success", False)] and [result.get("score")]. *)
Record RecaptchaResult : Type := {
  success : bool;
  score : option Q
}.

(** What [session.post] followed by [response.json()] can do: raise, or
    deliver a status and, for status 200, the decoded body ([None] when
    decoding raises). *)
Inductive HttpOutcome : Type :=
| HttpRaised
| HttpResponse (status : Z) (json : option RecaptchaResult).

(** The query built by [validate_price_dynamically]. *)
Record PriceQuery : Type := {
  q_fuel_type : string;
  q_created_since : Q;
  q_state_ilike : option string
}.

Inductive DbOutcome : Type :=
| DbRaised
| DbRows (prices : list Q).

Module Effects.

Inductive Prog (R : Type) : Type :=
| Ret (r : R)
| Raise (e : exn)
| GetSelf (k : ProtectionService -> Prog R)
| PutSelf (s : ProtectionService) (k : Prog R)
| UtcNow (k : Q -> Prog R)
| HttpPost (url : string) (data : list (string * pyval)) (k : HttpOutcome -> Prog R)
| Execute (q : PriceQuery) (k : DbOutcome -> Prog R).

Arguments Ret {R} r.
Arguments Raise {R} e.
Arguments GetSelf {R} k.
Arguments PutSelf {R} s k.
Arguments UtcNow {R} k.
Arguments HttpPost {R} url data k.
Arguments Execute {R} q k.

Fixpoint bind {A B : Type} (p : Prog A) (f : A -> Prog B) : Prog B :=
  match p with
  | Ret a => f a
  | Raise e => Raise e
  | GetSelf k => GetSelf (fun s => bind (k s) f)
  | PutSelf s k => PutSelf s (bind k f)
  | UtcNow k => UtcNow (fun t => bind (k t) f)
  | HttpPost url data k => HttpPost url data (fun r => bind (k r) f)
  | Execute q k => Execute q (fun r => bind (k r) f)
  end.

(** [try: p  except Exception as e: h e] *)
Fixpoint try_except {A : Type} (p : Prog A) (h : exn -> Prog A) : Prog A :=
  match p with
  | Ret a => Ret a
  | Raise e => h e
  | GetSelf k => GetSelf (fun s => try_except (k s) h)
  | PutSelf s k => PutSelf s (try_except k h)
  | UtcNow k => UtcNow (fun t => try_except (k t) h)
  | HttpPost url data k => HttpPost url data (fun r => try_except (k r) h)
  | Execute q k => Execute q (fun r => try_except (k r) h)
  end.

Definition get_self : Prog ProtectionService := GetSelf Ret.
Definition put_self (s : ProtectionService) : Prog unit := PutSelf s (Ret tt).
Definition utcnow : Prog Q := UtcNow Ret.
Definition http_post (url : string) (data : list (string * pyval)) : Prog HttpOutcome :=
  HttpPost url data Ret.
Definition execute (q : PriceQuery) : Prog DbOutcome := Execute q Ret.

(** Lifting the result of a built-in that may raise. *)
Definition lift {A : Type} (r : exn + A) : Prog A :=
  match r with inl e => Raise e | inr a => Ret a end.

Declare Scope prog_scope.
Delimit Scope prog_scope with prog.
Notation "x <- p ;; q" := (bind p (fun x => q))
  (at level 100, p at next level, right associativity) : prog_scope.
Notation "p ;;; q" := (bind p (fun _ => q))
  (at level 100, right associativity) : prog_scope.

(** The environment of one run: the successive readings of the clock,
    the reCAPTCHA endpoint and the database. *)
Record Env : Type := {
  clock : nat -> Q;
  recaptcha_endpoint : string -> list (string * pyval) -> HttpOutcome;
  database : PriceQuery -> DbOutcome
}.

(** The interactions with the environment, in the order they happen. *)
Inductive Action : Type :=
| ActUtcNow
| ActHttpPost (url : string) (data : list (string * pyval))
| ActExecute (q : PriceQuery).

Inductive Outcome (R : Type) : Type :=
| Returned (r : R)
| Raised (e : exn).
Arguments Returned {R} r.
Arguments Raised {R} e.

Record Final (R : Type) : Type := {
  outcome : Outcome R;
  final_self : ProtectionService;
  ticks : nat;
  trace : list Action
}.
Arguments outcome {R} f.
Arguments final_self {R} f.
Arguments ticks {R} f.
Arguments trace {R} f.

(** [run env p self n acts] runs [p] on the instance [self]; [n] clock
    readings were made before, and [acts] is the trace so far, newest
    action first. *)
Fixpoint run_from {R : Type} (env : Env) (p : Prog R)
    (self : ProtectionService) (n : nat) (acts : list Action) : Final R :=
  match p with
  | Ret r => {| outcome := Returned r; final_self := self; ticks := n; trace := rev acts |}
  | Raise e => {| outcome := Raised e; final_self := self; ticks := n; trace := rev acts |}
  | GetSelf k => run_from env (k self) self n acts
  | PutSelf s k => run_from env k s n acts
  | UtcNow k => run_from env (k (clock env n)) self (S n) (ActUtcNow :: acts)
  | HttpPost url data k =>
      run_from env (k (recaptcha_endpoint env url data)) self n (ActHttpPost url data :: acts)
  | Execute q k => run_from env (k (database env q)) self n (ActExecute q :: acts)
  end.

Definition run {R : Type} (env : Env) (p : Prog R) (self : ProtectionService) : Final R :=
  run_from env p self 0%nat [].

End Effects.

Import Effects.
Local Open Scope prog_scope.

(** ** Database sessions ([app/database.py]) *)

Module Database.

(** What the operand of an [async with] statement can be: an object
    with [__aenter__] and [__aexit__] that hands out a session, or an
    asynchronous generator, which has neither method. *)
Inductive AsyncObject : Type :=
| AsyncContextManager
| AsyncGenerator.

(** [get_async_session] is an [async def] whose body contains [yield]
    and which carries no decorator: a call creates an asynchronous
    generator. *)
Definition get_async_session (_ : unit) : AsyncObject := AsyncGenerator.

(** [async with obj as session: body]. The statement raises [TypeError]
    before the body when [obj] does not support the asynchronous context
    manager protocol. *)
Definition async_with {A : Type} (obj : AsyncObject) (body : unit -> Prog A) : Prog A :=
  match obj with
  | AsyncContextManager => body tt
  | AsyncGenerator => Raise TypeError
  end.

End Database.

Import Database.

(** ** The protection service ([app/services/protection_service.py]) *)

(** The loop [while dq and dq[0] < cutoff: dq.popleft()]. *)
Fixpoint popleft_while_older (cutoff : Q) (dq : list Q) : list Q :=
  match dq with
  | [] => []
  | t :: rest => if Qltb t cutoff then popleft_while_older cutoff rest else dq
  end.

(** [d[ip]] on a [defaultdict(deque)]. *)
Definition window_of (d : gmap string (list Q)) (ip : string) : list Q :=
  default [] (d !! ip).

Definition Diagnostics : Type := list (string * pyval).

Section Service.
Context `{rt : Runtime}.
Variable settings : Settings.

Definition verify_recaptcha (token : pyval) (user_ip : option string)
  : Prog (bool * string) :=
  self <- get_self ;;
  if negb (truthy token) then Ret (false, "Token CAPTCHA requerido")
  else if negb (truthy (PyStr (recaptcha_secret self))) then
    Ret (true, "Bypassed in development")
  else
    let payload :=
      ([("secret", PyStr (recaptcha_secret self)); ("response", token)]
       ++ match user_ip with
          | Some ip => if truthy (PyStr ip) then [("remoteip", PyStr ip)] else []
          | None => []
          end)%list in
    try_except
      (response <- http_post (recaptcha_verify_url self) payload ;;
       match response with
       | HttpRaised => Raise ClientError
       | HttpResponse status json =>
           if (status =? 200)%Z then
             match json with
             | None => Raise ValueError
             | Some result =>
                 if success result then
                   match score result with
                   | Some sc =>
                       if Qltb sc (1 # 2) then Ret (false, "Score CAPTCHA muy bajo")
                       else Ret (true, "CAPTCHA verificado")
                   | None => Ret (true, "CAPTCHA verificado")
                   end
                 else Ret (false, "CAPTCHA inválido")
             end
           else Ret (false, "Error verificando CAPTCHA")
       end)
      (fun _ => Ret (false, "Error verificando CAPTCHA")).

Definition check_price_report_rate_limit (ip : string) : Prog (bool * string) :=
  now <- utcnow ;;
  let cutoff := (now - 3600)%Q in
  self <- get_self ;;
  let window := popleft_while_older cutoff (window_of (_price_reports self) ip) in
  let self := set_price_reports self (<[ip := window]> (_price_reports self)) in
  put_self self ;;;
  let current_count := Z.of_nat (length window) in
  if (price_reports_per_hour settings <=? current_count)%Z then
    Ret (false, "Límite excedido: " ++ str_int current_count ++ "/"
                ++ str_int (price_reports_per_hour settings) ++ " reportes por hora")
  else
    put_self (set_price_reports self (<[ip := (window ++ [now])%list]> (_price_reports self))) ;;;
    Ret (true, "Rate limit OK").

Definition check_review_rate_limit (ip : string) : Prog (bool * string) :=
  now <- utcnow ;;
  let cutoff := (now - 86400)%Q in
  self <- get_self ;;
  let window := popleft_while_older cutoff (window_of (_reviews self) ip) in
  let self := set_reviews self (<[ip := window]> (_reviews self)) in
  put_self self ;;;
  let current_count := Z.of_nat (length window) in
  if (reviews_per_day settings <=? current_count)%Z then
    Ret (false, "Límite excedido: " ++ str_int current_count ++ "/"
                ++ str_int (reviews_per_day settings) ++ " reseñas por día")
  else
    put_self (set_reviews self (<[ip := (window ++ [now])%list]> (_reviews self))) ;;;
    Ret (true, "Rate limit OK").

Definition _validate_with_fallback (self : ProtectionService)
    (fuel_type : string) (reported_price : Q) : bool * string * Diagnostics :=
  match fallback_ranges self !! lower fuel_type with
  | None => (true, "No hay límites definidos para este combustible", [])
  | Some ranges =>
      let min_price := range_min ranges in
      let max_price := range_max ranges in
      let is_valid := Qle_bool min_price reported_price && Qle_bool reported_price max_price in
      let validation_info :=
        [("fallback_mode", PyBool true);
         ("valid_range", PyDict [("min", PyFloat min_price); ("max", PyFloat max_price)]);
         ("reported_price", PyFloat reported_price)] in
      if is_valid then (true, "Precio válido (modo fallback)", validation_info)
      else
        (false,
         "Precio fuera del rango fallback ($" ++ float_repr min_price
           ++ " - $" ++ float_repr max_price ++ ")",
         validation_info)
  end.

(** The body of [validate_price_dynamically] from the sample-count
    test on, given the [prices] the query returned. *)
Definition validate_against_samples (self : ProtectionService)
    (fuel_type : string) (reported_price : Q) (prices : list Q)
  : Prog (bool * string * Diagnostics) :=
  if (Z.of_nat (length prices) <? min_samples self)%Z then
    Ret (_validate_with_fallback self fuel_type reported_price)
  else
    market_avg <- lift (match mean prices with
                        | Some m => inr m
                        | None => inl StatisticsError
                        end) ;;
    let tolerance := price_tolerance self in
    let min_valid := (market_avg * (1 - tolerance))%Q in
    let max_valid := (market_avg * (1 + tolerance))%Q in
    let is_valid := Qle_bool min_valid reported_price && Qle_bool reported_price max_valid in
    let validation_info :=
      [("market_average", PyFloat (round2 market_avg));
       ("tolerance_percent", PyFloat (price_tolerance self * 100)%Q);
       ("valid_range",
        PyDict [("min", PyFloat (round2 min_valid)); ("max", PyFloat (round2 max_valid))]);
       ("samples_count", PyInt (Z.of_nat (length prices)));
       ("reported_price", PyFloat reported_price)] in
    if is_valid then Ret (true, "Precio dentro del rango de mercado", validation_info)
    else
      Ret (false,
           "Precio fuera del rango válido ($" ++ format_2f min_valid
             ++ " - $" ++ format_2f max_valid ++ ")",
           validation_info).

Definition validate_price_dynamically (fuel_type : string) (reported_price : Q)
    (region : option string) : Prog (bool * string * Diagnostics) :=
  self <- get_self ;;
  try_except
    (async_with (get_async_session tt) (fun session =>
       now <- utcnow ;;
       let cutoff_date := (now - inject_Z (freshness_days self) * 86400)%Q in
       let query :=
         {| q_fuel_type := lower fuel_type;
            q_created_since := cutoff_date;
            q_state_ilike :=
              match region with
              | Some r => if truthy (PyStr r) then Some ("%" ++ r ++ "%") else None
              | None => None
              end |} in
       result <- execute query ;;
       match result with
       | DbRaised => Raise SQLAlchemyError
       | DbRows prices => validate_against_samples self fuel_type reported_price prices
       end))
    (fun e => Ret (_validate_with_fallback self fuel_type reported_price)).

(** [fuel_type.lower()] on a form value: a value that is not a [str]
    has no such method, and the [AttributeError] raised by the
    fallback call in the handler leaves the method. *)
Definition validate_price_of_form_value (fuel_type : pyval) (price : Q)
  : Prog (bool * string * Diagnostics) :=
  match fuel_type with
  | PyStr s => validate_price_dynamically s price None
  | _ => Raise AttributeError
  end.

Definition validate_price_report (form_data : gmap string pyval) (request_ip : string)
  : Prog (bool * string) :=
  let captcha_token := default PyNone (form_data !! "g-recaptcha-response") in
  captcha <- verify_recaptcha captcha_token (Some request_ip) ;;
  let '(captcha_valid, captcha_msg) := captcha in
  if negb captcha_valid then Ret (false, "CAPTCHA: " ++ captcha_msg)
  else
    rate <- check_price_report_rate_limit request_ip ;;
    let '(rate_limit_ok, rate_msg) := rate in
    if negb rate_limit_ok then Ret (false, "Rate limit: " ++ rate_msg)
    else
      let fuel_type := default (PyStr "") (form_data !! "fuel_type") in
      match py_float (default (PyInt 0) (form_data !! "reported_price")) with
      | inl _ => Ret (false, "Precio inválido")
      | inr price =>
          verdict <- validate_price_of_form_value fuel_type price ;;
          let '(price_valid, price_msg, _) := verdict in
          if negb price_valid then Ret (false, "Precio: " ++ price_msg)
          else Ret (true, "Todas las validaciones pasaron")
      end.

(** [v.strip()] on a form value. *)
Definition py_strip (v : pyval) : exn + string :=
  match v with
  | PyStr s => inr (strip s)
  | _ => inl AttributeError
  end.

Definition validate_review (form_data : gmap string pyval) (request_ip : string)
  : Prog (bool * string) :=
  let captcha_token := default PyNone (form_data !! "g-recaptcha-response") in
  captcha <- verify_recaptcha captcha_token (Some request_ip) ;;
  let '(captcha_valid, captcha_msg) := captcha in
  if negb captcha_valid then Ret (false, "CAPTCHA: " ++ captcha_msg)
  else
    rate <- check_review_rate_limit request_ip ;;
    let '(rate_limit_ok, rate_msg) := rate in
    if negb rate_limit_ok then Ret (false, "Rate limit: " ++ rate_msg)
    else
      name <- lift (py_strip (default (PyStr "") (form_data !! "name"))) ;;
      comment <- lift (py_strip (default (PyStr "") (form_data !! "comment"))) ;;
      let rating := default PyNone (form_data !! "rating") in
      if (len name <? 2)%nat then
        Ret (false, "Nombre muy corto (mínimo 2 caracteres)")
      else if (len comment <? 10)%nat then
        Ret (false, "Comentario muy corto (mínimo 10 caracteres)")
      else
        match py_int rating with
        | inl _ => Ret (false, "Calificación inválida")
        | inr rating_int =>
            if negb ((1 <=? rating_int)%Z && (rating_int <=? 5)%Z) then
              Ret (false, "Calificación debe estar entre 1 y 5")
            else Ret (true, "Todas las validaciones pasaron")
        end.
End Service.

(** ** A runtime for the examples

    Decimal numerals only: [repr] prints a rational with the fewest
    decimals that represent it (sixteen at most, one at least), and the
    parsers read an optional sign, digits and, for [float], an optional
    fraction, after stripping white space. *)

Module DecimalRuntime.

Fixpoint pad_left (n : nat) (s : string) : string :=
  match n with
  | O => s
  | S n' => if (String.length s <=? n')%nat then pad_left n' ("0" ++ s) else s
  end.

Definition print_scaled (neg : bool) (n : Z) (k : nat) : string :=
  let p := (10 ^ Z.of_nat k)%Z in
  (if neg then "-" else "") ++ str_int (n / p) ++ "." ++ pad_left k (str_int (n mod p)).

Fixpoint repr_from (fuel k : nat) (q : Q) : string :=
  let scaled := (q * inject_Z (10 ^ Z.of_nat k))%Q in
  match fuel with
  | O => print_scaled (Qltb q 0) (Z.abs (round_half_even scaled)) k
  | S fuel' =>
      if Qeq_bool scaled (inject_Z (Qfloor scaled))
      then print_scaled (Qltb q 0) (Z.abs (Qfloor scaled)) k
      else repr_from fuel' (S k) q
  end.

Definition decimal_repr (q : Q) : string := repr_from 15 1 q.

Definition digit_of (c : ascii) : option Z :=
  let n := nat_of_ascii c in
  if ((48 <=? n) && (n <=? 57))%nat then Some (Z.of_nat (n - 48)) else None.

(** The digits of [s] read after the accumulator [acc]; [None] when a
    character is not a digit. *)
Fixpoint digits_from (acc : Z) (s : string) : option Z :=
  match s with
  | EmptyString => Some acc
  | String c rest =>
      match digit_of c with
      | Some d => digits_from (10 * acc + d) rest
      | None => None
      end
  end.

Definition natural (s : string) : option Z :=
  match s with
  | EmptyString => None
  | _ => digits_from 0 s
  end.

Definition signed {A : Type} (parse : string -> option A) (opp : A -> A) (s : string)
  : option A :=
  match s with
  | String "-" rest => option_map opp (parse rest)
  | String "+" rest => parse rest
  | _ => parse s
  end.

Definition parse_int (s : string) : option Z := signed natural Z.opp (strip s).

Fixpoint split_at_dot (s : string) : string * option string :=
  match s with
  | EmptyString => (EmptyString, None)
  | String "." rest => (EmptyString, Some rest)
  | String c rest => let '(a, b) := split_at_dot rest in (String c a, b)
  end.

Definition unsigned_decimal (s : string) : option Q :=
  match split_at_dot s with
  | (whole, None) => option_map inject_Z (natural whole)
  | (whole, Some frac) =>
      match natural whole, natural frac with
      | Some w, Some f =>
          Some (inject_Z w + inject_Z f / inject_Z (10 ^ Z.of_nat (String.length frac)))%Q
      | _, _ => None
      end
  end.

Definition parse_float (s : string) : option Q := signed unsigned_decimal Qopp (strip s).

#[export] Instance runtime : Runtime := {|
  float_repr := decimal_repr;
  float_of_str := parse_float;
  int_of_str := parse_int
|}.

End DecimalRuntime.

(** ** Notions used by the statements *)

(** [n] successive calls of one check, with their results in order. *)
Fixpoint calls {A : Type} (n : nat) (check : Prog A) : Prog (list A) :=
  match n with
  | O => Ret []
  | S n' => r <- check ;; rs <- calls n' check ;; Ret (r :: rs)
  end.

(** A call at time [now] consumed a slot of a window of the given
    duration: the window after it is the pruned window before it with
    [now] appended. *)
Definition slot_consumed (duration now : Q) (before after : list Q) : Prop :=
  after = (popleft_while_older (now - duration) before ++ [now])%list.

(** The attestation gate admits the submission. *)
Definition passes_attestation (env : Env) (self : ProtectionService)
    (form_data : gmap string pyval) (request_ip : string) : Prop :=
  exists msg,
    outcome (run env (verify_recaptcha
                        (default PyNone (form_data !! "g-recaptcha-response"))
                        (Some request_ip)) self)
    = Returned (true, msg).

(** The rate-limit gate admits a call at time [now]: fewer than
    [limit] entries remain after pruning. *)
Definition under_limit (duration : Q) (limit : Z) (now : Q) (window : list Q) : Prop :=
  (Z.of_nat (length (popleft_while_older (now - duration) window)) < limit)%Z.

(** What the diagnostics are said to report. *)
Definition reports_bounds (info : Diagnostics) : Prop :=
  exists lo hi, dict_get "valid_range" info = Some (PyDict [("min", PyFloat lo); ("max", PyFloat hi)]).

Definition reports_sample_count (info : Diagnostics) : Prop :=
  exists n, dict_get "samples_count" info = Some (PyInt n).

Definition reports_basis (info : Diagnostics) : Prop :=
  dict_get "fallback_mode" info = Some (PyBool true)
  \/ exists avg, dict_get "market_average" info = Some (PyFloat avg).

Definition diagnostics_complete (info : Diagnostics) : Prop :=
  reports_bounds info /\ reports_basis info /\ reports_sample_count info.

(** An environment for the examples: the clock advances by one minute
    per reading from a fixed instant, the reCAPTCHA endpoint answers
    with a success without score, and every query finds five validated
    prices of 10.00. *)
Definition sample_env : Env := {|
  clock := fun n => (1700000000 + 60 * inject_Z (Z.of_nat n))%Q;
  recaptcha_endpoint := fun _ _ => HttpResponse 200 (Some {| success := true; score := None |});
  database := fun _ => DbRows [10; 10; 10; 10; 10]%Q
|}.

(** The rejection message of a rate limiter. *)
Definition limit_message (count limit : Z) (unit : string) : string :=
  "Límite excedido: " ++ str_int count ++ "/" ++ str_int limit ++ unit.

(** The readings [n], ..., [n + m - 1] of the clock. *)
Definition readings (env : Env) (n m : nat) : list Q := map (clock env) (seq n m).

(** The oldest entry of the window [w], or the reading [n] when [w] is
    empty, is within [duration] of the reading [j]. *)
Definition head_fresh_at (env : Env) (duration : Q) (w : list Q) (n j : nat) : Prop :=
  match w with
  | [] => (clock env j - duration <= clock env n)%Q
  | t :: _ => (clock env j - duration <= t)%Q
  end.

(** The window of [ip] for price reports, before and after a run. *)
Definition price_window (self : ProtectionService) (ip : string) : list Q :=
  window_of (_price_reports self) ip.

(** C5 as stated, for the attestation gate of the price-report
    pipeline: the pipeline's reason is the gate's message. *)
Definition surfaces_attestation_message_verbatim `{rt : Runtime} (settings : Settings)
    (env : Env) (self : ProtectionService) (form_data : gmap string pyval)
    (request_ip : string) : Prop :=
  forall msg,
    outcome (run env (verify_recaptcha
                        (default PyNone (form_data !! "g-recaptcha-response"))
                        (Some request_ip)) self)
    = Returned (false, msg) ->
    outcome (run env (validate_price_report settings form_data request_ip) self)
    = Returned (false, msg).

(** C4 as stated: a slot is consumed exactly when the attestation gate
    admits the submission. *)
Definition slot_consumed_iff_attested `{rt : Runtime} (settings : Settings)
    (env : Env) (self : ProtectionService) (form_data : gmap string pyval)
    (request_ip : string) : Prop :=
  slot_consumed 3600 (clock env 0) (price_window self request_ip)
    (price_window
       (final_self (run env (validate_price_report settings form_data request_ip) self))
       request_ip)
  <-> passes_attestation env self form_data request_ip.

(** An instance whose window for 1.2.3.4 holds three recent reports. *)
Definition busy_service : ProtectionService :=
  set_price_reports (init default_settings)
    {[ "1.2.3.4" := [1699999000; 1699999100; 1699999200]%Q ]}.

Definition sample_form : gmap string pyval :=
  <["g-recaptcha-response" := PyStr "token"]>
  (<["fuel_type" := PyStr "Magna"]>
  (<["reported_price" := PyFloat 40]> ∅)).

(** An instance whose window for 1.2.3.4 is full and starts with a
    report made more than an hour before the first reading of
    [sample_env]. *)
Definition stale_service : ProtectionService :=
  set_price_reports (init default_settings)
    {[ "1.2.3.4" := [1699990000; 1699999100; 1699999200]%Q ]}.

(** The request [verify_recaptcha] sends when it has a token and a
    secret. *)
Definition recaptcha_payload (self : ProtectionService) (token : pyval)
    (user_ip : option string) : list (string * pyval) :=
  ([("secret", PyStr (recaptcha_secret self)); ("response", token)]
   ++ match user_ip with
      | Some ip => if truthy (PyStr ip) then [("remoteip", PyStr ip)] else []
      | None => []
      end)%list.

(** The reply confirms a human: status 200, a decoded body, [success]
    true and no score below 0.5. *)
Definition confirms_human (reply : HttpOutcome) : Prop :=
  exists result,
    reply = HttpResponse 200 (Some result)
    /\ success result = true
    /\ match score result with
       | Some sc => (1 # 2 <= sc)%Q
       | None => True
       end.

(** An instance with a configured secret, and an environment whose
    endpoint reports a success with the score 0.3. *)
Definition guarded_service : ProtectionService :=
  init {| recaptcha_secret_key := "s3cret";
          price_reports_per_hour := 3;
          reviews_per_day := 2;
          price_tolerance_percent := 15;
          min_samples_for_validation := 5;
          price_data_freshness_days := 30;
          fallback_price_ranges := fallback_price_ranges default_settings |}.

Definition low_score_env : Env := {|
  clock := clock sample_env;
  recaptcha_endpoint :=
    fun _ _ => HttpResponse 200 (Some {| success := true; score := Some (3 # 10) |});
  database := database sample_env
|}.

(** The window of [ip] for reviews. *)
Definition review_window (self : ProtectionService) (ip : string) : list Q :=
  window_of (_reviews self) ip.

(** The content of a review form is acceptable: a name of at least two
    characters and a comment of at least ten, both after stripping, and
    a rating that converts to an integer from 1 to 5. *)
Definition review_content_ok `{rt : Runtime} (form_data : gmap string pyval) : Prop :=
  exists name comment v rating,
    form_data !! "name" = Some (PyStr name)
    /\ form_data !! "comment" = Some (PyStr comment)
    /\ form_data !! "rating" = Some v
    /\ py_int v = inr rating
    /\ (2 <= len (strip name))%nat
    /\ (10 <= len (strip comment))%nat
    /\ (1 <= rating <= 5)%Z.

Definition sample_review : gmap string pyval :=
  <["g-recaptcha-response" := PyStr "token"]>
  (<["name" := PyStr " Ana "]>
  (<["comment" := PyStr "Buen servicio y precios"]>
  (<["rating" := PyInt 5]> ∅))).

(** ** The models ([app/models]) and the forms the endpoints build

    A model instance is a record of the columns its methods read or its
    constructors set. A column that a constructor call leaves out, and
    whose default is filled in only when the row is written, is [None]
    until then. The reading of [datetime.utcnow()] a method takes is its
    argument [now]. *)

(** [value or None] for a string. *)
Definition or_none (s : string) : option string :=
  if truthy (PyStr s) then Some s else None.

(** [v.lower()] on a form value. *)
Definition py_lower (v : pyval) : exn + string :=
  match v with
  | PyStr s => inr (lower s)
  | _ => inl AttributeError
  end.

(** A keyword argument that may have been left out. *)
Definition optional {A : Type} (inj : A -> pyval) (v : option A) : pyval :=
  match v with
  | Some a => inj a
  | None => PyNone
  end.

Module GasPrice.

Record t : Type := {
  gas_station_id : pyval;
  fuel_type : string;
  price : Q;
  source : string;
  reported_by : option string;
  confidence_score : option Q;
  validation_status : option string;
  notes : option string;
  pump_number : pyval;
  is_current : option bool;
  created_at : option Q
}.

(** [datetime - None] is a [TypeError]. *)
Definition calculate_age_hours (now : Q) (self : t) : exn + Q :=
  match created_at self with
  | Some created => inr ((now - created) / 3600)%Q
  | None => inl TypeError
  end.

Definition get_freshness_score (now : Q) (self : t) : exn + Q :=
  match calculate_age_hours now self with
  | inl e => inl e
  | inr age_hours =>
      inr (if Qle_bool age_hours 1 then 1
           else if Qle_bool age_hours 6 then 9 # 10
           else if Qle_bool age_hours 24 then 7 # 10
           else if Qle_bool age_hours 48 then 5 # 10
           else if Qle_bool age_hours 168 then 3 # 10
           else 1 # 10)%Q
  end.

Definition is_fresh (now : Q) (self : t) : exn + bool :=
  match calculate_age_hours now self with
  | inl e => inl e
  | inr age_hours => inr (Qle_bool age_hours 24)
  end.

Definition create_from_user_report (gas_station_id : pyval) (fuel_type : string)
    (price : Q) (reporter_ip : string) (notes : option string) (pump_number : pyval) : t :=
  {| gas_station_id := gas_station_id;
     fuel_type := lower fuel_type;
     price := price;
     source := "user";
     reported_by := Some reporter_ip;
     confidence_score := Some (8 # 10)%Q;
     validation_status := Some "validated";
     notes := notes;
     pump_number := pump_number;
     is_current := None;
     created_at := None |}.

End GasPrice.

Module GasStation.

Record t : Type := {
  has_magna : bool;
  has_premium : bool;
  has_diesel : bool;
  prices : list GasPrice.t
}.

Section CurrentPrices.
(** [datetime.isoformat] *)
Variable isoformat : Q -> string.

(** The dictionary [get_current_prices] stores for one price. *)
Definition price_entry (price : GasPrice.t) (created : Q) : pyval :=
  PyDict [("price", PyFloat (GasPrice.price price));
          ("source", PyStr (GasPrice.source price));
          ("updated_at", PyStr (isoformat created));
          ("confidence", optional PyFloat (GasPrice.confidence_score price))].

(** The loop of [get_current_prices]; [None.isoformat()] is an
    [AttributeError]. *)
Fixpoint collect_current (prices : list GasPrice.t) (current_prices : gmap string pyval)
  : exn + gmap string pyval :=
  match prices with
  | [] => inr current_prices
  | price :: rest =>
      if default false (GasPrice.is_current price) then
        match GasPrice.created_at price with
        | Some created =>
            collect_current rest
              (<[GasPrice.fuel_type price := price_entry price created]> current_prices)
        | None => inl AttributeError
        end
      else collect_current rest current_prices
  end.

Definition get_current_prices (self : t) : exn + gmap string pyval :=
  collect_current (prices self) ∅.
End CurrentPrices.

Definition has_fuel_type (self : t) (fuel_type : string) : bool :=
  let fuel_mapping : gmap string bool :=
    <["magna" := has_magna self]>
    (<["premium" := has_premium self]>
    (<["diesel" := has_diesel self]> ∅)) in
  default false (fuel_mapping !! lower fuel_type).

End GasStation.

Module UserPriceReport.

Record t : Type := {
  gas_station_id : pyval;
  fuel_type : string;
  reported_price : Q;
  reporter_ip : option string;
  reporter_name : option string;
  comments : option string;
  pump_number : pyval;
  status : option string;
  processed_at : option Q
}.

(** [str(self.reporter_ip)] *)
Definition str_ip (ip : option string) : string := default "None" ip.

Definition process_report (now : Q) (self : t) : bool * t :=
  if negb match status self with
          | Some s => String.eqb s "pending"
          | None => false
          end
  then (false, self)
  else
    let new_price :=
      GasPrice.create_from_user_report (gas_station_id self) (fuel_type self)
        (reported_price self) (str_ip (reporter_ip self)) (comments self)
        (pump_number self) in
    (true,
     {| gas_station_id := gas_station_id self;
        fuel_type := fuel_type self;
        reported_price := reported_price self;
        reporter_ip := reporter_ip self;
        reporter_name := reporter_name self;
        comments := comments self;
        pump_number := pump_number self;
        status := Some "processed";
        processed_at := Some now |}).

Definition create_from_form_data `{rt : Runtime} (form_data : gmap string pyval)
    (request_info : gmap string string) : Prog t :=
  let gas_station_id := default PyNone (form_data !! "gas_station_id") in
  fuel_type <- lift (py_lower (default (PyStr "") (form_data !! "fuel_type"))) ;;
  reported_price <- lift (py_float (default (PyInt 0) (form_data !! "reported_price"))) ;;
  let reporter_ip := request_info !! "ip" in
  reporter_name <- lift (py_strip (default (PyStr "") (form_data !! "reporter_name"))) ;;
  comments <- lift (py_strip (default (PyStr "") (form_data !! "comments"))) ;;
  Ret {| gas_station_id := gas_station_id;
         fuel_type := fuel_type;
         reported_price := reported_price;
         reporter_ip := reporter_ip;
         reporter_name := or_none reporter_name;
         comments := or_none comments;
         pump_number := default PyNone (form_data !! "pump_number");
         status := None;
         processed_at := None |}.

End UserPriceReport.

Module GasStationReview.

Record t : Type := {
  gas_station_id : pyval;
  reviewer_name : string;
  reviewer_ip : option string;
  rating : Z;
  title : option string;
  comment : string;
  status : option string;
  created_at : option Q
}.

(** [timedelta.days]: the whole days of the difference, rounded down. *)
Definition calculate_age_days (now : Q) (self : t) : exn + Z :=
  match created_at self with
  | Some created => inr (Qfloor ((now - created) / 86400))
  | None => inl TypeError
  end.

Definition is_recent (now : Q) (self : t) : exn + bool :=
  match calculate_age_days now self with
  | inl e => inl e
  | inr age_days => inr (age_days <=? 30)%Z
  end.

Definition create_from_form_data `{rt : Runtime} (form_data : gmap string pyval)
    (request_info : gmap string string) : Prog t :=
  let gas_station_id := default PyNone (form_data !! "gas_station_id") in
  reviewer_name <- lift (py_strip (default (PyStr "") (form_data !! "name"))) ;;
  let reviewer_ip := request_info !! "ip" in
  rating <- lift (py_int (default (PyInt 1) (form_data !! "rating"))) ;;
  title <- lift (py_strip (default (PyStr "") (form_data !! "title"))) ;;
  comment <- lift (py_strip (default (PyStr "") (form_data !! "comment"))) ;;
  Ret {| gas_station_id := gas_station_id;
         reviewer_name := reviewer_name;
         reviewer_ip := reviewer_ip;
         rating := rating;
         title := or_none title;
         comment := comment;
         status := Some "approved";
         created_at := None |}.

End GasStationReview.

(** The dictionary [report_price] builds from its form parameters
    ([app/api/prices.py]); an optional parameter left out is [None]. *)
Definition report_price_form_data (gas_station_id fuel_type : string) (reported_price : Q)
    (comments : option string) (pump_number : option Z)
    (reporter_name captcha_token : option string) : gmap string pyval :=
  <["gas_station_id" := PyStr gas_station_id]>
  (<["fuel_type" := PyStr fuel_type]>
  (<["reported_price" := PyFloat reported_price]>
  (<["comments" := optional PyStr comments]>
  (<["pump_number" := optional PyInt pump_number]>
  (<["reporter_name" := optional PyStr reporter_name]>
  (<["g-recaptcha-response" := optional PyStr captcha_token]> ∅)))))).

(** The dictionary [create_review] builds ([app/api/reviews.py]). *)
Definition create_review_form_data (gas_station_id name : string) (rating : Z)
    (comment : string) (title captcha_token : option string) : gmap string pyval :=
  <["gas_station_id" := PyStr gas_station_id]>
  (<["name" := PyStr name]>
  (<["rating" := PyInt rating]>
  (<["comment" := PyStr comment]>
  (<["title" := optional PyStr title]>
  (<["g-recaptcha-response" := optional PyStr captcha_token]> ∅))))).

(** A price row created half an hour before 1700000000, and a pending
    report. *)
Definition recent_price : GasPrice.t :=
  {| GasPrice.gas_station_id := PyStr "station-1";
     GasPrice.fuel_type := "magna";
     GasPrice.price := 23;
     GasPrice.source := "user";
     GasPrice.reported_by := Some "1.2.3.4";
     GasPrice.confidence_score := Some (8 # 10)%Q;
     GasPrice.validation_status := Some "validated";
     GasPrice.notes := None;
     GasPrice.pump_number := PyNone;
     GasPrice.is_current := Some true;
     GasPrice.created_at := Some 1699998200%Q |}.

Definition pending_report : UserPriceReport.t :=
  {| UserPriceReport.gas_station_id := PyStr "station-1";
     UserPriceReport.fuel_type := "magna";
     UserPriceReport.reported_price := 23;
     UserPriceReport.reporter_ip := Some "1.2.3.4";
     UserPriceReport.reporter_name := None;
     UserPriceReport.comments := None;
     UserPriceReport.pump_number := PyNone;
     UserPriceReport.status := Some "pending";
     UserPriceReport.processed_at := None |}.

(** The latest price a station lists for a fuel type: the last current
    one of that type in the order of [prices]. *)
Definition last_current (fuel_type : string) (prices : list GasPrice.t) : option GasPrice.t :=
  find (fun p => default false (GasPrice.is_current p)
                 && String.eqb (GasPrice.fuel_type p) fuel_type)
       (rev prices).

(** A station that lists two current magna prices. *)
Definition official_price : GasPrice.t :=
  {| GasPrice.gas_station_id := PyStr "station-1";
     GasPrice.fuel_type := "magna";
     GasPrice.price := 24;
     GasPrice.source := "cre";
     GasPrice.reported_by := Some "cre_system";
     GasPrice.confidence_score := Some 1%Q;
     GasPrice.validation_status := Some "validated";
     GasPrice.notes := None;
     GasPrice.pump_number := PyNone;
     GasPrice.is_current := Some true;
     GasPrice.created_at := Some 1699999000%Q |}.

Definition sample_station : GasStation.t :=
  {| GasStation.has_magna := true;
     GasStation.has_premium := true;
     GasStation.has_diesel := false;
     GasStation.prices := [recent_price; official_price] |}.

(** An instance whose review window for 1.2.3.4 holds two recent
    reviews, and one that tolerates 5 % where the default is 15 %. *)
Definition busy_reviewer : ProtectionService :=
  set_reviews (init default_settings)
    {[ "1.2.3.4" := [1699999000; 1699999100]%Q ]}.

Definition narrow_service : ProtectionService :=
  init {| recaptcha_secret_key := "";
          price_reports_per_hour := 3;
          reviews_per_day := 2;
          price_tolerance_percent := 5;
          min_samples_for_validation := 5;
          price_data_freshness_days := 30;
          fallback_price_ranges := fallback_price_ranges default_settings |}.

(** ** Sample evaluations *)

Example lower_sample : lower "Magna" = "magna".
Proof. reflexivity. Qed.

Example strip_sample : strip "  Ana  " = "Ana".
Proof. reflexivity. Qed.

Example strip_no_break_space_sample :
  strip (utf8 [194; 160]%nat ++ "Ana" ++ utf8 [226; 128; 137]%nat) = "Ana".
Proof. reflexivity. Qed.

Example len_sample : len "Está bien" = 9%nat /\ len "mínimo" = 6%nat /\ len "" = 0%nat.
Proof. repeat split; reflexivity. Qed.

Example format_2f_sample : format_2f (23 # 2) = "11.50" /\ format_2f (17 # 2) = "8.50".
Proof. split; vm_compute; reflexivity. Qed.

Example decimal_repr_sample :
  DecimalRuntime.decimal_repr 15 = "15.0" /\ DecimalRuntime.decimal_repr (57 # 5) = "11.4".
Proof. split; vm_compute; reflexivity. Qed.

Example parse_float_sample :
  DecimalRuntime.parse_float "23.5" = Some (23 + 5 / 10)%Q
  /\ DecimalRuntime.parse_float "abc" = None.
Proof. split; vm_compute; reflexivity. Qed.

Example mean_sample : mean [10; 10; 10; 10; 10]%Q = Some (50 / 5)%Q.
Proof. vm_compute. reflexivity. Qed.

(** ** Strings *)

Lemma lower_char_idempotent (c : ascii) : lower_char (lower_char c) = lower_char c.
Proof. destruct c as [[] [] [] [] [] [] [] []]; reflexivity. Qed.

Lemma lower_idempotent (s : string) : lower (lower s) = lower s.
Proof.
  induction s as [|c s IH]; simpl.
  - reflexivity.
  - rewrite lower_char_idempotent, IH. reflexivity.
Qed.

(** ** Running programs *)

Section RunLemmas.
Variable env : Env.

Lemma run_from_bind {A B : Type} (p : Prog A) (f : A -> Prog B) :
  forall self n acts,
    run_from env (bind p f) self n acts =
    let r := run_from env p self n acts in
    match outcome r with
    | Returned a => run_from env (f a) (final_self r) (ticks r) (rev (trace r))
    | Raised e =>
        {| outcome := Raised e; final_self := final_self r;
           ticks := ticks r; trace := trace r |}
    end.
Proof.
  induction p as [a|e|k IH|s k IH|k IH|url data k IH|q k IH]; intros self n acts; simpl.
  - rewrite rev_involutive. reflexivity.
  - reflexivity.
  - apply IH.
  - apply IH.
  - apply IH.
  - apply IH.
  - apply IH.
Qed.

(** The trace only grows: a run from [acts] produces the reversal of
    [acts] followed by the actions of the run from the empty trace. *)
Lemma run_from_trace {A : Type} (p : Prog A) :
  forall self n acts,
    run_from env p self n acts =
    let r := run_from env p self n [] in
    {| outcome := outcome r; final_self := final_self r;
       ticks := ticks r; trace := (rev acts ++ trace r)%list |}.
Proof.
  induction p as [a|e|k IH|s k IH|k IH|url data k IH|q k IH]; intros self n acts; simpl.
  - rewrite app_nil_r. reflexivity.
  - rewrite app_nil_r. reflexivity.
  - apply IH.
  - apply IH.
  - rewrite IH. rewrite (IH _ _ _ [ActUtcNow]). simpl. rewrite <- app_assoc. reflexivity.
  - rewrite IH. rewrite (IH _ _ _ [ActHttpPost url data]). simpl.
    rewrite <- app_assoc. reflexivity.
  - rewrite IH. rewrite (IH _ _ _ [ActExecute q]). simpl. rewrite <- app_assoc. reflexivity.
Qed.
End RunLemmas.

(** ** The price validator *)

Section PriceValidator.
Context `{rt : Runtime}.

(** The session object is an asynchronous generator, so the [try]
    block of [validate_price_dynamically] raises at its first
    statement and the handler answers: the method is the fallback
    validation, and it reads neither the clock nor the database. *)
Lemma validate_price_dynamically_run (env : Env) (self : ProtectionService)
    (fuel_type : string) (reported_price : Q) (region : option string)
    (n : nat) (acts : list Action) :
  run_from env (validate_price_dynamically fuel_type reported_price region) self n acts
  = {| outcome := Returned (_validate_with_fallback self fuel_type reported_price);
       final_self := self; ticks := n; trace := rev acts |}.
Proof. reflexivity. Qed.

Lemma fallback_lower (self : ProtectionService) (fuel_type : string) (price : Q) :
  _validate_with_fallback self (lower fuel_type) price
  = _validate_with_fallback self fuel_type price.
Proof. unfold _validate_with_fallback. rewrite lower_idempotent. reflexivity. Qed.

Lemma fallback_verdict (self : ProtectionService) (fuel_type : string) (price : Q) :
  match fallback_ranges self !! lower fuel_type with
  | None => (_validate_with_fallback self fuel_type price).1.1 = true
  | Some r =>
      (_validate_with_fallback self fuel_type price).1.1 = true
      <-> (range_min r <= price /\ price <= range_max r)%Q
  end.
Proof.
  unfold _validate_with_fallback.
  destruct (fallback_ranges self !! lower fuel_type) as [r|]; [|reflexivity].
  destruct (Qle_bool (range_min r) price) eqn:Hlo;
    destruct (Qle_bool price (range_max r)) eqn:Hhi; simpl.
  - split; [intros _|reflexivity]. split; apply Qle_bool_iff; assumption.
  - split; [discriminate|]. intros [_ H]. apply Qle_bool_iff in H. congruence.
  - split; [discriminate|]. intros [H _]. apply Qle_bool_iff in H. congruence.
  - split; [discriminate|]. intros [H _]. apply Qle_bool_iff in H. congruence.
Qed.

(** The market-band computation on a non-empty list of at least
    [min_samples] prices accepts exactly the prices of the band. *)
Lemma market_band_verdict (self : ProtectionService) (fuel_type : string)
    (price : Q) (prices : list Q) :
  (min_samples self <= Z.of_nat (length prices))%Z ->
  prices <> [] ->
  exists (m : Q) (msg : string) (info : Diagnostics) (valid : bool),
    mean prices = Some m
    /\ validate_against_samples self fuel_type price prices = Ret (valid, msg, info)
    /\ (valid = true <->
        (m * (1 - price_tolerance self) <= price
         /\ price <= m * (1 + price_tolerance self))%Q).
Proof.
  intros Hlen Hne. unfold validate_against_samples.
  destruct (Z.ltb_spec (Z.of_nat (length prices)) (min_samples self)) as [Hlt|_]; [lia|].
  destruct prices as [|p ps]; [congruence|].
  set (m := (Qsum (p :: ps) / inject_Z (Z.of_nat (length (p :: ps))))%Q).
  change (mean (p :: ps)) with (Some m). cbn [lift bind].
  destruct (Qle_bool (m * (1 - price_tolerance self)) price) eqn:Hlo;
    destruct (Qle_bool price (m * (1 + price_tolerance self))) eqn:Hhi;
    cbn [andb]; eexists m, _, _, _; (split; [reflexivity|]); (split; [reflexivity|]).
  - split; [intros _|reflexivity]. split; apply Qle_bool_iff; assumption.
  - split; [discriminate|]. intros [_ H]. apply Qle_bool_iff in H. congruence.
  - split; [discriminate|]. intros [H _]. apply Qle_bool_iff in H. congruence.
  - split; [discriminate|]. intros [H _]. apply Qle_bool_iff in H. congruence.
Qed.
End PriceValidator.

(** C1. With five validated samples of 10.00 and the default tolerance
    of 15 %, the band is [8.50, 11.50] and the market computation
    accepts 11.40 and rejects 12.00; [validate_price_dynamically]
    itself never queries the samples and rejects 11.40 for "magna"
    against the static range [15.0, 35.0]. *)
Theorem market_band_bypassed_by_session_error :
  let rt := DecimalRuntime.runtime in
  let self := init default_settings in
  let prices := [10; 10; 10; 10; 10]%Q in
  database sample_env
    {| q_fuel_type := "magna"; q_created_since := 0; q_state_ilike := None |}
  = DbRows prices
  /\ (exists info,
        validate_against_samples self "magna" (57 # 5) prices
        = Ret (true, "Precio dentro del rango de mercado", info))
  /\ (exists info,
        validate_against_samples self "magna" 12 prices
        = Ret (false, "Precio fuera del rango válido ($8.50 - $11.50)", info))
  /\ (exists info,
        run sample_env (validate_price_dynamically "magna" (57 # 5) None) self
        = {| outcome :=
               Returned (false, "Precio fuera del rango fallback ($15.0 - $35.0)", info);
             final_self := self; ticks := 0; trace := [] |}).
Proof.
  cbv zeta. split; [reflexivity|].
  split; [eexists; vm_compute; reflexivity|].
  split; [eexists; vm_compute; reflexivity|].
  eexists. vm_compute. reflexivity.
Qed.

(** C3. With fewer than [min_samples] samples the validator answers from
    the static table, whatever the samples are: a fuel type without a
    configured range is accepted, and one with a range is accepted
    exactly when the price lies between its bounds, both included. *)
Theorem fallback_on_insufficient_samples `{rt : Runtime}
    (env : Env) (self : ProtectionService) (fuel_type : string) (price : Q)
    (region : option string) (prices : list Q) :
  (Z.of_nat (length prices) < min_samples self)%Z ->
  let verdict := _validate_with_fallback self fuel_type price in
  validate_against_samples self fuel_type price prices = Ret verdict
  /\ outcome (run env (validate_price_dynamically fuel_type price region) self)
     = Returned verdict
  /\ match fallback_ranges self !! lower fuel_type with
     | None => verdict.1.1 = true
     | Some r =>
         verdict.1.1 = true <-> (range_min r <= price /\ price <= range_max r)%Q
     end.
Proof.
  intros Hfew verdict. split; [|split].
  - unfold validate_against_samples.
    destruct (Z.ltb_spec (Z.of_nat (length prices)) (min_samples self)); [reflexivity|lia].
  - reflexivity.
  - apply fallback_verdict.
Qed.

Lemma fallback_on_insufficient_samples_witness :
  let rt := DecimalRuntime.runtime in
  let self := init default_settings in
  (Z.of_nat (length [22; 23; 24]%Q) < min_samples self)%Z
  /\ fallback_ranges self !! lower "magna" = Some {| range_min := 15; range_max := 35 |}
  /\ (_validate_with_fallback self "magna" 16).1.1 = true
  /\ (_validate_with_fallback self "magna" 40).1.1 = false
  /\ validate_against_samples self "magna" 16 [22; 23; 24]%Q
     = Ret (_validate_with_fallback self "magna" 16)
  /\ validate_against_samples self "magna" 40 [22; 23; 24]%Q
     = Ret (_validate_with_fallback self "magna" 40).
Proof.
  cbv zeta.
  split; [vm_compute; reflexivity|].
  split; [vm_compute; reflexivity|].
  split; [vm_compute; reflexivity|].
  split; [vm_compute; reflexivity|].
  split.
  - apply (fallback_on_insufficient_samples (rt := DecimalRuntime.runtime) sample_env
             (init default_settings) "magna" 16 None [22; 23; 24]%Q).
    vm_compute. reflexivity.
  - apply (fallback_on_insufficient_samples (rt := DecimalRuntime.runtime) sample_env
             (init default_settings) "magna" 40 None [22; 23; 24]%Q).
    vm_compute. reflexivity.
Defined.

(** C6, as stated, fails: the diagnostics of the fallback-range path
    carry no sample count, and those of the path for a fuel type without
    a range are empty. *)
Lemma diagnostics_not_always_complete :
  let rt := DecimalRuntime.runtime in
  let self := init default_settings in
  (exists valid msg info,
      outcome (run sample_env (validate_price_dynamically "magna" 16 None) self)
      = Returned (valid, msg, info)
      /\ ~ diagnostics_complete info)
  /\ (exists valid msg,
        outcome (run sample_env (validate_price_dynamically "gas lp" 16 None) self)
        = Returned (valid, msg, [])
        /\ ~ diagnostics_complete []).
Proof.
  cbv zeta. split.
  - eexists _, _, _. split; [vm_compute; reflexivity|].
    intros (_ & _ & n & Hn). vm_compute in Hn. discriminate.
  - eexists _, _. split; [vm_compute; reflexivity|].
    intros (_ & _ & n & Hn). discriminate.
Qed.

(** C6, amended. The diagnostics depend on the path. Without a
    configured range they are empty. On the fallback-range path they
    hold [fallback_mode = True], the configured bounds and the reported
    price, and no sample count. The market computation reports the
    rounded average, the tolerance in percent, the rounded bounds, the
    sample count and the reported price, and no [fallback_mode]. *)
Theorem diagnostics_by_path `{rt : Runtime} (self : ProtectionService)
    (fuel_type : string) (price : Q) :
  match fallback_ranges self !! lower fuel_type with
  | None => (_validate_with_fallback self fuel_type price).2 = []
  | Some r =>
      (_validate_with_fallback self fuel_type price).2
      = [("fallback_mode", PyBool true);
         ("valid_range",
          PyDict [("min", PyFloat (range_min r)); ("max", PyFloat (range_max r))]);
         ("reported_price", PyFloat price)]
      /\ dict_get "samples_count" (_validate_with_fallback self fuel_type price).2 = None
  end
  /\ forall (prices : list Q) (m : Q),
       mean prices = Some m ->
       (min_samples self <= Z.of_nat (length prices))%Z ->
       exists valid msg info,
         validate_against_samples self fuel_type price prices = Ret (valid, msg, info)
         /\ info
            = [("market_average", PyFloat (round2 m));
               ("tolerance_percent", PyFloat (price_tolerance self * 100)%Q);
               ("valid_range",
                PyDict [("min", PyFloat (round2 (m * (1 - price_tolerance self))%Q));
                        ("max", PyFloat (round2 (m * (1 + price_tolerance self))%Q))]);
               ("samples_count", PyInt (Z.of_nat (length prices)));
               ("reported_price", PyFloat price)]
         /\ dict_get "fallback_mode" info = None.
Proof.
  split.
  - unfold _validate_with_fallback.
    destruct (fallback_ranges self !! lower fuel_type) as [r|]; [|reflexivity].
    destruct (Qle_bool (range_min r) price && Qle_bool price (range_max r));
      split; reflexivity.
  - intros prices m Hm Hlen. unfold validate_against_samples.
    destruct (Z.ltb_spec (Z.of_nat (length prices)) (min_samples self)) as [Hlt|_]; [lia|].
    rewrite Hm. cbn [lift bind].
    destruct (Qle_bool (m * (1 - price_tolerance self)) price
              && Qle_bool price (m * (1 + price_tolerance self)));
      eexists _, _, _; (split; [reflexivity|]); split; reflexivity.
Qed.

Lemma diagnostics_by_path_witness :
  let rt := DecimalRuntime.runtime in
  let self := init default_settings in
  mean [10; 10; 10; 10; 10]%Q = Some (50 / 5)%Q
  /\ (min_samples self <= Z.of_nat (length [10; 10; 10; 10; 10]%Q))%Z
  /\ exists valid msg info,
       validate_against_samples self "magna" 12 [10; 10; 10; 10; 10]%Q
       = Ret (valid, msg, info)
       /\ dict_get "samples_count" info = Some (PyInt 5)
       /\ dict_get "fallback_mode" info = None.
Proof.
  cbv zeta.
  split; [vm_compute; reflexivity|].
  split; [vm_compute; discriminate|].
  destruct (diagnostics_by_path (rt := DecimalRuntime.runtime)
              (init default_settings) "magna" 12) as [_ Hmarket].
  destruct (Hmarket [10; 10; 10; 10; 10]%Q (50 / 5)%Q) as (valid & msg & info & Hrun & Hinfo & Hmode).
  - vm_compute. reflexivity.
  - vm_compute. discriminate.
  - exists valid, msg, info. split; [exact Hrun|]. split; [|exact Hmode].
    rewrite Hinfo. reflexivity.
Defined.

(** C9. Validation does not depend on the case of the fuel type: the
    method and the computation on the samples give the same result for
    a fuel type and for its lowercase form. *)
Theorem validation_ignores_fuel_type_case `{rt : Runtime}
    (env : Env) (self : ProtectionService) (fuel_type : string) (price : Q)
    (region : option string) :
  run env (validate_price_dynamically (lower fuel_type) price region) self
  = run env (validate_price_dynamically fuel_type price region) self
  /\ _validate_with_fallback self (lower fuel_type) price
     = _validate_with_fallback self fuel_type price
  /\ forall prices : list Q,
       validate_against_samples self (lower fuel_type) price prices
       = validate_against_samples self fuel_type price prices.
Proof.
  split; [|split].
  - unfold run. rewrite !validate_price_dynamically_run, fallback_lower. reflexivity.
  - apply fallback_lower.
  - intros prices. unfold validate_against_samples. rewrite fallback_lower. reflexivity.
Qed.

(** ** The rate limiter *)

Lemma popleft_fresh_head (cutoff : Q) (dq : list Q) :
  match dq with
  | [] => True
  | t :: _ => (cutoff <= t)%Q
  end ->
  popleft_while_older cutoff dq = dq.
Proof.
  destruct dq as [|t rest]; [reflexivity|]. intros Hle. simpl. unfold Qltb.
  apply Qle_bool_iff in Hle. rewrite Hle. reflexivity.
Qed.

Lemma popleft_length (cutoff : Q) (dq : list Q) :
  (length (popleft_while_older cutoff dq) <= length dq)%nat.
Proof.
  induction dq as [|t rest IH]; simpl; [lia|].
  destruct (Qltb t cutoff); simpl; lia.
Qed.

(** After pruning, the window is empty or starts with an entry that is
    not older than the cutoff. *)
Lemma popleft_head (cutoff : Q) (dq : list Q) :
  match popleft_while_older cutoff dq with
  | [] => True
  | t :: _ => (cutoff <= t)%Q
  end.
Proof.
  induction dq as [|t rest IH]; simpl; [exact I|].
  unfold Qltb. destruct (Qle_bool cutoff t) eqn:Hle; simpl; [|exact IH].
  apply Qle_bool_iff. exact Hle.
Qed.

Section RateLimiterRuns.
Variable settings : Settings.
Variable env : Env.

Lemma check_price_report_rate_limit_run (ip : string) (self : ProtectionService)
    (n : nat) (acts : list Action) :
  let now := clock env n in
  let window := popleft_while_older (now - 3600) (window_of (_price_reports self) ip) in
  let current_count := Z.of_nat (length window) in
  run_from env (check_price_report_rate_limit settings ip) self n acts
  = if (price_reports_per_hour settings <=? current_count)%Z then
      {| outcome :=
           Returned (false,
                     "Límite excedido: " ++ str_int current_count ++ "/"
                       ++ str_int (price_reports_per_hour settings)
                       ++ " reportes por hora");
         final_self := set_price_reports self (<[ip := window]> (_price_reports self));
         ticks := S n; trace := rev (ActUtcNow :: acts) |}
    else
      {| outcome := Returned (true, "Rate limit OK");
         final_self :=
           set_price_reports self
             (<[ip := (window ++ [now])%list]> (_price_reports self));
         ticks := S n; trace := rev (ActUtcNow :: acts) |}.
Proof.
  intros now window current_count.
  unfold check_price_report_rate_limit. cbn -[popleft_while_older str_int rev].
  fold now. fold window. fold current_count.
  destruct (price_reports_per_hour settings <=? current_count)%Z;
    cbn -[popleft_while_older str_int rev]; [reflexivity|].
  unfold set_price_reports; cbn. rewrite insert_insert_eq. reflexivity.
Qed.

Lemma check_review_rate_limit_run (ip : string) (self : ProtectionService)
    (n : nat) (acts : list Action) :
  let now := clock env n in
  let window := popleft_while_older (now - 86400) (window_of (_reviews self) ip) in
  let current_count := Z.of_nat (length window) in
  run_from env (check_review_rate_limit settings ip) self n acts
  = if (reviews_per_day settings <=? current_count)%Z then
      {| outcome :=
           Returned (false,
                     "Límite excedido: " ++ str_int current_count ++ "/"
                       ++ str_int (reviews_per_day settings) ++ " reseñas por día");
         final_self := set_reviews self (<[ip := window]> (_reviews self));
         ticks := S n; trace := rev (ActUtcNow :: acts) |}
    else
      {| outcome := Returned (true, "Rate limit OK");
         final_self :=
           set_reviews self (<[ip := (window ++ [now])%list]> (_reviews self));
         ticks := S n; trace := rev (ActUtcNow :: acts) |}.
Proof.
  intros now window current_count.
  unfold check_review_rate_limit. cbn -[popleft_while_older str_int rev].
  fold now. fold window. fold current_count.
  destruct (reviews_per_day settings <=? current_count)%Z;
    cbn -[popleft_while_older str_int rev]; [reflexivity|].
  unfold set_reviews; cbn. rewrite insert_insert_eq. reflexivity.
Qed.
End RateLimiterRuns.

(** Window accounting, for any check that prunes, compares and records
    the way the two rate limiters do. *)
Section WindowAccounting.
Variable env : Env.
Variable check : Prog (bool * string).
Variable window : ProtectionService -> list Q.
Variable duration : Q.
Variable limit : Z.
Variable unit : string.

Hypothesis check_run : forall self n acts,
  let now := clock env n in
  let w := popleft_while_older (now - duration) (window self) in
  let r := run_from env check self n acts in
  ticks r = S n
  /\ if (limit <=? Z.of_nat (length w))%Z
     then outcome r = Returned (false, limit_message (Z.of_nat (length w)) limit unit)
          /\ window (final_self r) = w
     else outcome r = Returned (true, "Rate limit OK")
          /\ window (final_self r) = (w ++ [now])%list.

Lemma calls_until_rejection (m : nat) :
  forall self n acts,
    Z.of_nat (length (window self) + m) = limit ->
    (forall j, (n <= j <= n + m)%nat -> head_fresh_at env duration (window self) n j) ->
    let r := run_from env (calls (S m) check) self n acts in
    outcome r
    = Returned (repeat (true, "Rate limit OK") m ++ [(false, limit_message limit limit unit)])%list
    /\ window (final_self r) = (window self ++ readings env n m)%list.
Proof.
  induction m as [|m IH]; intros self n acts Hlen Hfresh.
  - cbn [calls repeat app readings seq map]. rewrite run_from_bind.
    destruct (check_run self n acts) as [_ Hcheck]. cbv zeta in Hcheck |- *.
    rewrite popleft_fresh_head in Hcheck.
    2:{ specialize (Hfresh n ltac:(lia)). unfold head_fresh_at in Hfresh.
        destruct (window self); [exact I|exact Hfresh]. }
    replace (Z.of_nat (length (window self))) with limit in Hcheck by lia.
    rewrite Z.leb_refl in Hcheck. destruct Hcheck as [Hout Hwin].
    rewrite Hout. cbn. rewrite app_nil_r. split; [reflexivity|exact Hwin].
  - change (calls (S (S m)) check)
      with (bind check (fun r => bind (calls (S m) check) (fun rs => Ret (r :: rs)))).
    rewrite run_from_bind.
    destruct (check_run self n acts) as [Hticks Hcheck]. cbv zeta in Hticks, Hcheck |- *.
    rewrite popleft_fresh_head in Hcheck.
    2:{ specialize (Hfresh n ltac:(lia)). unfold head_fresh_at in Hfresh.
        destruct (window self); [exact I|exact Hfresh]. }
    destruct (Z.leb_spec limit (Z.of_nat (length (window self)))) as [Hge|_]; [lia|].
    destruct Hcheck as [Hout Hwin]. rewrite Hout, Hticks.
    rewrite run_from_bind.
    specialize (IH (final_self (run_from env check self n acts)) (S n)
                   (rev (trace (run_from env check self n acts)))).
    cbv zeta in IH. rewrite Hwin in IH.
    destruct IH as [IHout IHwin].
    + rewrite length_app. simpl. lia.
    + intros j Hj. specialize (Hfresh j ltac:(lia)). unfold head_fresh_at in *.
      destruct (window self); exact Hfresh.
    + cbv zeta. rewrite IHout. cbn [run_from outcome final_self].
      split; [reflexivity|]. rewrite IHwin, <- app_assoc. reflexivity.
Qed.
End WindowAccounting.

(** C2. From an empty window, when each of [L + 1] successive calls
    happens no later than the window duration after the first, the first
    [L] calls are admitted and the next one is rejected with a message
    that reports [L/L] ([limit_message L L unit] is
    "Límite excedido: L/L" followed by the unit); for price reports
    (one hour) and for reviews (one day). *)
Theorem first_calls_admitted_next_rejected (settings : Settings) (env : Env)
    (self : ProtectionService) (ip : string) :
  (let L := price_reports_per_hour settings in
   window_of (_price_reports self) ip = [] ->
   (0 <= L)%Z ->
   (forall j, (j <= Z.to_nat L)%nat -> (clock env j - 3600 <= clock env 0)%Q) ->
   outcome (run env (calls (S (Z.to_nat L)) (check_price_report_rate_limit settings ip)) self)
   = Returned
       (repeat (true, "Rate limit OK") (Z.to_nat L)
        ++ [(false, limit_message L L " reportes por hora")])%list)
  /\ (let L := reviews_per_day settings in
      window_of (_reviews self) ip = [] ->
      (0 <= L)%Z ->
      (forall j, (j <= Z.to_nat L)%nat -> (clock env j - 86400 <= clock env 0)%Q) ->
      outcome (run env (calls (S (Z.to_nat L)) (check_review_rate_limit settings ip)) self)
      = Returned
          (repeat (true, "Rate limit OK") (Z.to_nat L)
           ++ [(false, limit_message L L " reseñas por día")])%list).
Proof.
  split; intros L Hempty Hpos Hwithin; unfold run.
  - apply (calls_until_rejection env (check_price_report_rate_limit settings ip)
             (fun s => window_of (_price_reports s) ip) 3600 L " reportes por hora").
    + intros s n acts. cbv zeta. rewrite check_price_report_rate_limit_run. cbv zeta.
      subst L.
      destruct (price_reports_per_hour settings <=? _)%Z;
        cbn [ticks outcome final_self set_price_reports _price_reports];
        (split; [reflexivity|]); (split; [reflexivity|]);
        unfold window_of at 1; rewrite lookup_insert_eq; reflexivity.
    + rewrite Hempty. simpl. lia.
    + intros j Hj. rewrite Hempty. simpl. apply Hwithin. lia.
  - apply (calls_until_rejection env (check_review_rate_limit settings ip)
             (fun s => window_of (_reviews s) ip) 86400 L " reseñas por día").
    + intros s n acts. cbv zeta. rewrite check_review_rate_limit_run. cbv zeta.
      subst L.
      destruct (reviews_per_day settings <=? _)%Z;
        cbn [ticks outcome final_self set_reviews _reviews];
        (split; [reflexivity|]); (split; [reflexivity|]);
        unfold window_of at 1; rewrite lookup_insert_eq; reflexivity.
    + rewrite Hempty. simpl. lia.
    + intros j Hj. rewrite Hempty. simpl. apply Hwithin. lia.
Qed.

Lemma first_calls_admitted_next_rejected_witness :
  let self := init default_settings in
  window_of (_price_reports self) "1.2.3.4" = []
  /\ (0 <= price_reports_per_hour default_settings)%Z
  /\ (forall j, (j <= 3)%nat -> (clock sample_env j - 3600 <= clock sample_env 0)%Q)
  /\ outcome (run sample_env
                (calls 4 (check_price_report_rate_limit default_settings "1.2.3.4")) self)
     = Returned [(true, "Rate limit OK"); (true, "Rate limit OK"); (true, "Rate limit OK");
                 (false, "Límite excedido: 3/3 reportes por hora")]
  /\ outcome (run sample_env
                (calls 3 (check_review_rate_limit default_settings "1.2.3.4")) self)
     = Returned [(true, "Rate limit OK"); (true, "Rate limit OK");
                 (false, "Límite excedido: 2/2 reseñas por día")].
Proof.
  assert (Hhour : forall j, (j <= 3)%nat ->
                    (clock sample_env j - 3600 <= clock sample_env 0)%Q).
  { intros j Hj. do 4 (destruct j as [|j]; [vm_compute; discriminate|]). lia. }
  assert (Hday : forall j, (j <= 2)%nat ->
                   (clock sample_env j - 86400 <= clock sample_env 0)%Q).
  { intros j Hj. do 3 (destruct j as [|j]; [vm_compute; discriminate|]). lia. }
  cbv zeta. split; [reflexivity|]. split; [vm_compute; discriminate|].
  split; [exact Hhour|].
  destruct (first_calls_admitted_next_rejected default_settings sample_env
              (init default_settings) "1.2.3.4") as [Hreports Hreviews].
  split.
  - apply Hreports; [reflexivity|vm_compute; discriminate|exact Hhour].
  - apply Hreviews; [reflexivity|vm_compute; discriminate|exact Hday].
Defined.

(** ** Attestation *)

(** [verify_recaptcha] always returns, leaves the instance and the clock
    alone, and contacts the endpoint at most once. *)
Lemma verify_recaptcha_frame (env : Env) (token : pyval) (user_ip : option string)
    (self : ProtectionService) (n : nat) (acts : list Action) :
  exists (verdict : bool * string) (posts : list Action),
    run_from env (verify_recaptcha token user_ip) self n acts
    = {| outcome := Returned verdict; final_self := self; ticks := n;
         trace := (rev acts ++ posts)%list |}
    /\ (posts = [] \/ exists url data, posts = [ActHttpPost url data]).
Proof.
  unfold verify_recaptcha. cbn [get_self bind run_from].
  destruct (truthy token); cbn [negb].
  2:{ eexists _, []. rewrite app_nil_r. split; [reflexivity|left; reflexivity]. }
  destruct (truthy (PyStr (recaptcha_secret self))); cbn [negb].
  2:{ eexists _, []. rewrite app_nil_r. split; [reflexivity|left; reflexivity]. }
  cbn [http_post bind try_except run_from].
  set (payload := (_ ++ _)%list).
  destruct (recaptcha_endpoint env (recaptcha_verify_url self) payload)
    as [|status [result|]]; cbn [bind try_except run_from].
  - eexists _, [_]. split; [reflexivity|right; eauto].
  - destruct (status =? 200)%Z; [destruct (success result); [destruct (score result) as [sc|];
      [destruct (Qltb sc (1 # 2))|]|]|];
      cbn [bind try_except run_from]; eexists _, [_]; (split; [reflexivity|right; eauto]).
  - destruct (status =? 200)%Z; cbn [bind try_except run_from];
      eexists _, [_]; (split; [reflexivity|right; eauto]).
Qed.

(** C7. An empty or missing token is rejected at once: whatever the
    instance state and the environment, [verify_recaptcha] returns
    (False, "Token CAPTCHA requerido") and the run contains no
    interaction with the environment, hence no call to the endpoint. *)
Theorem empty_token_rejected_without_call (env : Env) (self : ProtectionService)
    (token : pyval) (user_ip : option string) :
  token = PyNone \/ token = PyStr "" ->
  run env (verify_recaptcha token user_ip) self
  = {| outcome := Returned (false, "Token CAPTCHA requerido");
       final_self := self; ticks := 0; trace := [] |}.
Proof. intros [-> | ->]; reflexivity. Qed.

Lemma empty_token_rejected_without_call_witness :
  (PyStr "" = PyNone \/ PyStr "" = PyStr "")
  /\ run sample_env (verify_recaptcha (PyStr "") (Some "1.2.3.4")) (init default_settings)
     = {| outcome := Returned (false, "Token CAPTCHA requerido");
          final_self := init default_settings; ticks := 0; trace := [] |}.
Proof.
  split; [right; reflexivity|].
  apply (empty_token_rejected_without_call sample_env (init default_settings)
           (PyStr "") (Some "1.2.3.4")).
  right; reflexivity.
Defined.

(** ** The pipelines, gate by gate *)

Section Pipelines.
Context `{rt : Runtime}.
Variable settings : Settings.
Variable env : Env.

(** A run of [validate_price_report] is the run of the attestation
    gate, then, if it admits, of the rate limiter from the state it
    leaves, then, if that admits and the price converts, of the price
    validator; the first rejection ends the run with the state, the
    clock and the trace of the gate that rejected. *)
Lemma validate_price_report_run (form_data : gmap string pyval) (request_ip : string)
    (self : ProtectionService) (n : nat) (acts : list Action) :
  run_from env (validate_price_report settings form_data request_ip) self n acts
  = let token := default PyNone (form_data !! "g-recaptcha-response") in
    let v := run_from env (verify_recaptcha token (Some request_ip)) self n acts in
    match outcome v with
    | Raised e =>
        {| outcome := Raised e; final_self := final_self v;
           ticks := ticks v; trace := trace v |}
    | Returned (false, captcha_msg) =>
        {| outcome := Returned (false, "CAPTCHA: " ++ captcha_msg);
           final_self := final_self v; ticks := ticks v; trace := trace v |}
    | Returned (true, _) =>
        let l := run_from env (check_price_report_rate_limit settings request_ip)
                   (final_self v) (ticks v) (rev (trace v)) in
        match outcome l with
        | Raised e =>
            {| outcome := Raised e; final_self := final_self l;
               ticks := ticks l; trace := trace l |}
        | Returned (false, rate_msg) =>
            {| outcome := Returned (false, "Rate limit: " ++ rate_msg);
               final_self := final_self l; ticks := ticks l; trace := trace l |}
        | Returned (true, _) =>
            match py_float (default (PyInt 0) (form_data !! "reported_price")) with
            | inl _ =>
                {| outcome := Returned (false, "Precio inválido");
                   final_self := final_self l; ticks := ticks l; trace := trace l |}
            | inr price =>
                let p := run_from env
                           (validate_price_of_form_value
                              (default (PyStr "") (form_data !! "fuel_type")) price)
                           (final_self l) (ticks l) (rev (trace l)) in
                match outcome p with
                | Raised e =>
                    {| outcome := Raised e; final_self := final_self p;
                       ticks := ticks p; trace := trace p |}
                | Returned (false, price_msg, _) =>
                    {| outcome := Returned (false, "Precio: " ++ price_msg);
                       final_self := final_self p; ticks := ticks p; trace := trace p |}
                | Returned (true, _, _) =>
                    {| outcome := Returned (true, "Todas las validaciones pasaron");
                       final_self := final_self p; ticks := ticks p; trace := trace p |}
                end
            end
        end
    end.
Proof.
  unfold validate_price_report. cbv zeta. rewrite run_from_bind. cbv zeta.
  destruct (outcome (run_from env (verify_recaptcha _ _) self n acts))
    as [[[|] captcha_msg]|e]; cbn [negb run_from]; try (rewrite rev_involutive; reflexivity).
  2: reflexivity.
  rewrite run_from_bind. cbv zeta.
  destruct (outcome (run_from env (check_price_report_rate_limit _ _) _ _ _))
    as [[[|] rate_msg]|e]; cbn [negb run_from]; try (rewrite rev_involutive; reflexivity).
  2: reflexivity.
  destruct (py_float _) as [e|price]; cbn [run_from]; [rewrite rev_involutive; reflexivity|].
  rewrite run_from_bind. cbv zeta.
  destruct (outcome (run_from env (validate_price_of_form_value _ _) _ _ _))
    as [[[[|] price_msg] info]|e]; cbn [negb run_from];
    try (rewrite rev_involutive; reflexivity).
  reflexivity.
Qed.

(** The same for [validate_review]; its content checks involve neither
    the instance state nor the environment. *)
Lemma validate_review_run (form_data : gmap string pyval) (request_ip : string)
    (self : ProtectionService) (n : nat) (acts : list Action) :
  run_from env (validate_review settings form_data request_ip) self n acts
  = let token := default PyNone (form_data !! "g-recaptcha-response") in
    let v := run_from env (verify_recaptcha token (Some request_ip)) self n acts in
    match outcome v with
    | Raised e =>
        {| outcome := Raised e; final_self := final_self v;
           ticks := ticks v; trace := trace v |}
    | Returned (false, captcha_msg) =>
        {| outcome := Returned (false, "CAPTCHA: " ++ captcha_msg);
           final_self := final_self v; ticks := ticks v; trace := trace v |}
    | Returned (true, _) =>
        let l := run_from env (check_review_rate_limit settings request_ip)
                   (final_self v) (ticks v) (rev (trace v)) in
        match outcome l with
        | Raised e =>
            {| outcome := Raised e; final_self := final_self l;
               ticks := ticks l; trace := trace l |}
        | Returned (false, rate_msg) =>
            {| outcome := Returned (false, "Rate limit: " ++ rate_msg);
               final_self := final_self l; ticks := ticks l; trace := trace l |}
        | Returned (true, _) =>
            {| outcome :=
                 match py_strip (default (PyStr "") (form_data !! "name")),
                       py_strip (default (PyStr "") (form_data !! "comment")) with
                 | inl e, _ => Raised e
                 | inr _, inl e => Raised e
                 | inr name, inr comment =>
                     if (len name <? 2)%nat then
                       Returned (false, "Nombre muy corto (mínimo 2 caracteres)")
                     else if (len comment <? 10)%nat then
                       Returned (false, "Comentario muy corto (mínimo 10 caracteres)")
                     else
                       match py_int (default PyNone (form_data !! "rating")) with
                       | inl _ => Returned (false, "Calificación inválida")
                       | inr rating_int =>
                           if negb ((1 <=? rating_int)%Z && (rating_int <=? 5)%Z) then
                             Returned (false, "Calificación debe estar entre 1 y 5")
                           else Returned (true, "Todas las validaciones pasaron")
                       end
                 end;
               final_self := final_self l; ticks := ticks l; trace := trace l |}
        end
    end.
Proof.
  unfold validate_review. cbv zeta. rewrite run_from_bind. cbv zeta.
  destruct (outcome (run_from env (verify_recaptcha _ _) self n acts))
    as [[[|] captcha_msg]|e]; cbn [negb run_from]; try (rewrite rev_involutive; reflexivity).
  2: reflexivity.
  rewrite run_from_bind. cbv zeta.
  destruct (outcome (run_from env (check_review_rate_limit _ _) _ _ _))
    as [[[|] rate_msg]|e]; cbn [negb run_from]; try (rewrite rev_involutive; reflexivity).
  2: reflexivity.
  destruct (py_strip (default (PyStr "") (form_data !! "name"))) as [e|name];
    cbn [lift bind run_from]; [rewrite rev_involutive; reflexivity|].
  destruct (py_strip (default (PyStr "") (form_data !! "comment"))) as [e|comment];
    cbn [lift bind run_from]; [rewrite rev_involutive; reflexivity|].
  destruct (len name <? 2)%nat; cbn [run_from];
    [rewrite rev_involutive; reflexivity|].
  destruct (len comment <? 10)%nat; cbn [run_from];
    [rewrite rev_involutive; reflexivity|].
  destruct (py_int _) as [e|rating_int]; cbn [run_from];
    [rewrite rev_involutive; reflexivity|].
  destruct (negb _); cbn [run_from]; rewrite rev_involutive; reflexivity.
Qed.
End Pipelines.


(** The price stage of the pipeline returns or raises without touching
    the instance, the clock or the environment. *)
Lemma validate_price_of_form_value_frame `{rt : Runtime} (env : Env)
    (fuel_type : pyval) (price : Q) (self : ProtectionService) (n : nat)
    (acts : list Action) :
  exists result,
    run_from env (validate_price_of_form_value fuel_type price) self n acts
    = {| outcome := result; final_self := self; ticks := n; trace := rev acts |}.
Proof.
  destruct fuel_type; cbn [validate_price_of_form_value]; eexists; reflexivity.
Qed.



(** C5, as stated, fails: a submission without token is rejected by the
    attestation gate with "Token CAPTCHA requerido", and the pipeline's
    reason is that message behind the label "CAPTCHA: ". *)
Lemma attestation_message_not_verbatim :
  let rt := DecimalRuntime.runtime in
  outcome (run sample_env (verify_recaptcha PyNone (Some "1.2.3.4")) (init default_settings))
  = Returned (false, "Token CAPTCHA requerido")
  /\ outcome (run sample_env (validate_price_report default_settings ∅ "1.2.3.4")
                (init default_settings))
     = Returned (false, "CAPTCHA: Token CAPTCHA requerido")
  /\ ~ surfaces_attestation_message_verbatim default_settings sample_env
         (init default_settings) ∅ "1.2.3.4".
Proof.
  cbv zeta. split; [reflexivity|]. split; [reflexivity|].
  intros Hverbatim. specialize (Hverbatim "Token CAPTCHA requerido" eq_refl).
  vm_compute in Hverbatim. discriminate.
Qed.

(** C5, amended. Both pipelines run the attestation gate, then the rate
    limiter from the state the attestation gate leaves, then the content
    check from the state the limiter leaves. A rejection by a gate ends
    the run with the state, the clock and the trace of that gate, so no
    later gate runs. The reason of a rejection by the attestation gate,
    the rate limiter or the price validator is the gate's message behind
    the label of the gate: "CAPTCHA: ", "Rate limit: " or "Precio: ".
    The other rejections carry no label: a price that does not convert
    is rejected with "Precio inválido", and the content check of a
    review rejects with its own message, for the name, the comment or
    the rating. A pipeline returns no other reason with a rejection. *)
Theorem gates_in_order_with_labelled_reasons `{rt : Runtime} (settings : Settings)
    (env : Env) (self : ProtectionService) (form_data : gmap string pyval)
    (request_ip : string) :
  let token := default PyNone (form_data !! "g-recaptcha-response") in
  let v := run env (verify_recaptcha token (Some request_ip)) self in
  (let r := run env (validate_price_report settings form_data request_ip) self in
   let l := run_from env (check_price_report_rate_limit settings request_ip)
              (final_self v) (ticks v) (rev (trace v)) in
   (forall msg,
       outcome v = Returned (false, msg) ->
       r = {| outcome := Returned (false, "CAPTCHA: " ++ msg);
              final_self := final_self v; ticks := ticks v; trace := trace v |})
   /\ (forall m msg,
         outcome v = Returned (true, m) ->
         outcome l = Returned (false, msg) ->
         r = {| outcome := Returned (false, "Rate limit: " ++ msg);
                final_self := final_self l; ticks := ticks l; trace := trace l |})
   /\ (forall m m' price msg info,
         outcome v = Returned (true, m) ->
         outcome l = Returned (true, m') ->
         py_float (default (PyInt 0) (form_data !! "reported_price")) = inr price ->
         let p := run_from env
                    (validate_price_of_form_value
                       (default (PyStr "") (form_data !! "fuel_type")) price)
                    (final_self l) (ticks l) (rev (trace l)) in
         outcome p = Returned (false, msg, info) ->
         r = {| outcome := Returned (false, "Precio: " ++ msg);
                final_self := final_self p; ticks := ticks p; trace := trace p |})
   /\ (forall m m' e,
         outcome v = Returned (true, m) ->
         outcome l = Returned (true, m') ->
         py_float (default (PyInt 0) (form_data !! "reported_price")) = inl e ->
         r = {| outcome := Returned (false, "Precio inválido");
                final_self := final_self l; ticks := ticks l; trace := trace l |})
   /\ (forall reason,
         outcome r = Returned (false, reason) ->
         (exists msg, outcome v = Returned (false, msg) /\ reason = "CAPTCHA: " ++ msg)
         \/ (exists m msg,
               outcome v = Returned (true, m)
               /\ outcome l = Returned (false, msg)
               /\ reason = "Rate limit: " ++ msg)
         \/ reason = "Precio inválido"
         \/ (exists msg, reason = "Precio: " ++ msg)))
  /\ (let r := run env (validate_review settings form_data request_ip) self in
      let l := run_from env (check_review_rate_limit settings request_ip)
                 (final_self v) (ticks v) (rev (trace v)) in
      (forall msg,
          outcome v = Returned (false, msg) ->
          r = {| outcome := Returned (false, "CAPTCHA: " ++ msg);
                 final_self := final_self v; ticks := ticks v; trace := trace v |})
      /\ (forall m msg,
            outcome v = Returned (true, m) ->
            outcome l = Returned (false, msg) ->
            r = {| outcome := Returned (false, "Rate limit: " ++ msg);
                   final_self := final_self l; ticks := ticks l; trace := trace l |})
      /\ (forall m m',
            outcome v = Returned (true, m) ->
            outcome l = Returned (true, m') ->
            final_self r = final_self l /\ ticks r = ticks l /\ trace r = trace l)
      /\ (forall m m' name comment,
            outcome v = Returned (true, m) ->
            outcome l = Returned (true, m') ->
            py_strip (default (PyStr "") (form_data !! "name")) = inr name ->
            py_strip (default (PyStr "") (form_data !! "comment")) = inr comment ->
            outcome r
            = if (len name <? 2)%nat then
                Returned (false, "Nombre muy corto (mínimo 2 caracteres)")
              else if (len comment <? 10)%nat then
                Returned (false, "Comentario muy corto (mínimo 10 caracteres)")
              else
                match py_int (default PyNone (form_data !! "rating")) with
                | inl _ => Returned (false, "Calificación inválida")
                | inr rating_int =>
                    if negb ((1 <=? rating_int)%Z && (rating_int <=? 5)%Z) then
                      Returned (false, "Calificación debe estar entre 1 y 5")
                    else Returned (true, "Todas las validaciones pasaron")
                end)
      /\ (forall reason,
            outcome r = Returned (false, reason) ->
            (exists msg, outcome v = Returned (false, msg) /\ reason = "CAPTCHA: " ++ msg)
            \/ (exists m msg,
                  outcome v = Returned (true, m)
                  /\ outcome l = Returned (false, msg)
                  /\ reason = "Rate limit: " ++ msg)
            \/ In reason ["Nombre muy corto (mínimo 2 caracteres)";
                          "Comentario muy corto (mínimo 10 caracteres)";
                          "Calificación inválida";
                          "Calificación debe estar entre 1 y 5"])).
Proof.
  intros token v. split; intros r l; subst r; unfold run.
  - rewrite validate_price_report_run. cbv zeta. fold token.
    fold (run env (verify_recaptcha token (Some request_ip)) self). fold v. fold l.
    split; [|split; [|split; [|split]]].
    + intros msg ->. reflexivity.
    + intros m msg -> ->. reflexivity.
    + intros m m' price msg info -> -> -> Hp. rewrite Hp. reflexivity.
    + intros m m' e -> -> ->. reflexivity.
    + intros reason.
      destruct (outcome v) as [[[|] captcha_msg]|e]; cbn [outcome].
      * destruct (outcome l) as [[[|] rate_msg]|e]; cbn [outcome].
        -- destruct (py_float _) as [e|price]; cbn [outcome].
           ++ intros [= <-]. right; right; left. reflexivity.
           ++ destruct (outcome (run_from env (validate_price_of_form_value _ _) _ _ _))
                as [[[[|] price_msg] info]|e]; cbn [outcome]; intros [= <-].
              right; right; right. eexists. reflexivity.
        -- intros [= <-]. right; left. eexists _, _.
           split; [reflexivity|]. split; reflexivity.
        -- discriminate.
      * intros [= <-]. left. eexists. split; reflexivity.
      * discriminate.
  - rewrite validate_review_run. cbv zeta. fold token.
    fold (run env (verify_recaptcha token (Some request_ip)) self). fold v. fold l.
    split; [|split; [|split; [|split]]].
    + intros msg ->. reflexivity.
    + intros m msg -> ->. reflexivity.
    + intros m m' -> ->. repeat split.
    + intros m m' name comment -> -> -> ->. reflexivity.
    + intros reason.
      destruct (outcome v) as [[[|] captcha_msg]|e]; cbn [outcome].
      * destruct (outcome l) as [[[|] rate_msg]|e]; cbn [outcome].
        -- destruct (py_strip (default (PyStr "") (form_data !! "name"))) as [e|name];
             [discriminate|].
           destruct (py_strip (default (PyStr "") (form_data !! "comment")))
             as [e|comment]; [discriminate|].
           destruct (len name <? 2)%nat;
             [intros [= <-]; right; right; left; reflexivity|].
           destruct (len comment <? 10)%nat;
             [intros [= <-]; right; right; right; left; reflexivity|].
           destruct (py_int _) as [e|rating_int];
             [intros [= <-]; right; right; right; right; left; reflexivity|].
           destruct (negb _); intros [= <-].
           right; right; right; right; right; left. reflexivity.
        -- intros [= <-]. right; left. eexists _, _.
           split; [reflexivity|]. split; reflexivity.
        -- discriminate.
      * intros [= <-]. left. eexists. split; reflexivity.
      * discriminate.
Qed.

Lemma gates_in_order_with_labelled_reasons_witness :
  let rt := DecimalRuntime.runtime in
  let unconvertible := <["reported_price" := PyStr "abc"]> sample_form in
  let short := <["name" := PyStr "A"]> sample_review in
  run sample_env (validate_price_report default_settings ∅ "1.2.3.4") busy_service
  = {| outcome := Returned (false, "CAPTCHA: Token CAPTCHA requerido");
       final_self := busy_service; ticks := 0; trace := [] |}
  /\ outcome (run sample_env (validate_price_report default_settings sample_form "1.2.3.4")
                busy_service)
     = Returned (false, "Rate limit: Límite excedido: 3/3 reportes por hora")
  /\ outcome (run sample_env (validate_price_report default_settings sample_form "1.2.3.4")
                (init default_settings))
     = Returned (false, "Precio: Precio fuera del rango fallback ($15.0 - $35.0)")
  /\ outcome (run sample_env (validate_price_report default_settings unconvertible "1.2.3.4")
                (init default_settings))
     = Returned (false, "Precio inválido")
  /\ outcome (run sample_env (validate_review default_settings short "1.2.3.4")
                (init default_settings))
     = Returned (false, "Nombre muy corto (mínimo 2 caracteres)").
Proof.
  cbv zeta. split; [|split; [|split; [|split]]].
  - destruct (gates_in_order_with_labelled_reasons (rt := DecimalRuntime.runtime)
                default_settings sample_env busy_service ∅ "1.2.3.4")
      as [(Hcaptcha & _) _].
    apply (Hcaptcha "Token CAPTCHA requerido"). reflexivity.
  - destruct (gates_in_order_with_labelled_reasons (rt := DecimalRuntime.runtime)
                default_settings sample_env busy_service sample_form "1.2.3.4")
      as [(_ & Hrate & _) _].
    rewrite (Hrate "Bypassed in development" "Límite excedido: 3/3 reportes por hora");
      [reflexivity|reflexivity|vm_compute; reflexivity].
  - destruct (gates_in_order_with_labelled_reasons (rt := DecimalRuntime.runtime)
                default_settings sample_env (init default_settings) sample_form "1.2.3.4")
      as [(_ & _ & Hprice & _) _].
    rewrite (Hprice "Bypassed in development" "Rate limit OK" 40%Q
               "Precio fuera del rango fallback ($15.0 - $35.0)"
               [("fallback_mode", PyBool true);
                ("valid_range", PyDict [("min", PyFloat 15); ("max", PyFloat 35)]);
                ("reported_price", PyFloat 40)]);
      [reflexivity|reflexivity|vm_compute; reflexivity|reflexivity|vm_compute; reflexivity].
  - destruct (gates_in_order_with_labelled_reasons (rt := DecimalRuntime.runtime)
                default_settings sample_env (init default_settings)
                (<["reported_price" := PyStr "abc"]> sample_form) "1.2.3.4")
      as [(_ & _ & _ & Hconvert & _) _].
    rewrite (Hconvert "Bypassed in development" "Rate limit OK" ValueError);
      [reflexivity|reflexivity|vm_compute; reflexivity|vm_compute; reflexivity].
  - destruct (gates_in_order_with_labelled_reasons (rt := DecimalRuntime.runtime)
                default_settings sample_env (init default_settings)
                (<["name" := PyStr "A"]> sample_review) "1.2.3.4")
      as [_ (_ & _ & _ & Hcontent & _)].
    rewrite (Hcontent "Bypassed in development" "Rate limit OK" "A"
               "Buen servicio y precios");
      [reflexivity|reflexivity|vm_compute; reflexivity|reflexivity|reflexivity].
Defined.

(** ** Slot consumption *)

Lemma popleft_same_length (cutoff : Q) (dq : list Q) :
  length (popleft_while_older cutoff dq) = length dq ->
  popleft_while_older cutoff dq = dq.
Proof.
  destruct dq as [|t rest]; [reflexivity|]. simpl.
  destruct (Qltb t cutoff); [|reflexivity].
  intros Hlen. pose proof (popleft_length cutoff rest). lia.
Qed.

(** A window that a call leaves as it was has not been given a slot. *)
Lemma unchanged_not_consumed (duration now : Q) (w : list Q) :
  (0 < duration)%Q -> ~ slot_consumed duration now w w.
Proof.
  intros Hpos Hc. unfold slot_consumed in Hc.
  destruct w as [|t rest]; [destruct (popleft_while_older _ _); discriminate|].
  simpl in Hc. unfold Qltb in Hc.
  destruct (Qle_bool (now - duration) t) eqn:Hle; simpl in Hc.
  - apply (f_equal (@length Q)) in Hc. cbn [length] in Hc.
    rewrite length_app in Hc. cbn [length] in Hc. lia.
  - assert (Hlt : ~ (now - duration <= t)%Q).
    { intros H. apply Qle_bool_iff in H. congruence. }
    assert (Hsame : popleft_while_older (now - duration) rest = rest).
    { apply popleft_same_length. apply (f_equal (@length Q)) in Hc.
      rewrite length_app in Hc. simpl in Hc. lia. }
    rewrite Hsame in Hc.
    destruct rest as [|h rest'].
    + injection Hc as ->. apply Hlt. lra.
    + injection Hc as -> _. pose proof (popleft_head (now - duration) (h :: rest')) as Hh.
      rewrite Hsame in Hh. contradiction.
Qed.

(** Neither has a window that a call has only pruned. *)
Lemma pruned_not_consumed (duration now : Q) (w : list Q) :
  ~ slot_consumed duration now w (popleft_while_older (now - duration) w).
Proof.
  intros Hc. unfold slot_consumed in Hc.
  apply (f_equal (@length Q)) in Hc. rewrite length_app in Hc. simpl in Hc. lia.
Qed.

Section PriceReportCases.
Context `{rt : Runtime}.
Variable settings : Settings.
Variable env : Env.

(** The three ways a price report can go, with the window each leaves. *)
Lemma validate_price_report_cases (self : ProtectionService)
    (form_data : gmap string pyval) (request_ip : string) :
  let r := run env (validate_price_report settings form_data request_ip) self in
  let now := clock env 0 in
  let before := price_window self request_ip in
  let pruned := popleft_while_older (now - 3600) before in
  (~ passes_attestation env self form_data request_ip
   /\ final_self r = self
   /\ exists msg, outcome r = Returned (false, "CAPTCHA: " ++ msg))
  \/ (passes_attestation env self form_data request_ip
      /\ ~ under_limit 3600 (price_reports_per_hour settings) now before
      /\ price_window (final_self r) request_ip = pruned
      /\ exists msg, outcome r = Returned (false, "Rate limit: " ++ msg))
  \/ (passes_attestation env self form_data request_ip
      /\ under_limit 3600 (price_reports_per_hour settings) now before
      /\ price_window (final_self r) request_ip = (pruned ++ [now])%list
      /\ match py_float (default (PyInt 0) (form_data !! "reported_price")) with
         | inl _ => outcome r = Returned (false, "Precio inválido")
         | inr _ =>
             outcome r = Returned (true, "Todas las validaciones pasaron")
             \/ (exists msg, outcome r = Returned (false, "Precio: " ++ msg))
             \/ (exists e, outcome r = Raised e)
         end).
Proof.
  intros r now before pruned. subst r. unfold passes_attestation, run.
  rewrite validate_price_report_run. cbv zeta.
  destruct (verify_recaptcha_frame env
              (default PyNone (form_data !! "g-recaptcha-response"))
              (Some request_ip) self 0 []) as ([valid msg] & posts & -> & _).
  cbn [outcome final_self ticks trace].
  destruct valid.
  2:{ left. split; [intros [m [=]]|]. split; [reflexivity|]. eexists; reflexivity. }
  right. rewrite check_price_report_rate_limit_run. cbv zeta.
  fold (price_window self request_ip). fold before. fold now. fold pruned.
  unfold under_limit. fold pruned.
  destruct (Z.leb_spec (price_reports_per_hour settings) (Z.of_nat (length pruned)))
    as [Hfull|Hroom]; cbn [outcome final_self ticks trace].
  - left. split; [eexists; reflexivity|]. split; [lia|]. split.
    + unfold price_window, window_of. cbn [set_price_reports _price_reports].
      rewrite lookup_insert_eq. reflexivity.
    + eexists; reflexivity.
  - right. split; [eexists; reflexivity|]. split; [lia|].
    destruct (py_float _) as [e|price]; cbn [outcome final_self ticks trace].
    + split; [|reflexivity].
      unfold price_window, window_of. cbn [set_price_reports _price_reports].
      rewrite lookup_insert_eq. reflexivity.
    + match goal with
      | |- context [run_from env (validate_price_of_form_value ?f ?p) ?s ?n ?a] =>
          destruct (validate_price_of_form_value_frame env f p s n a) as [result ->]
      end.
      cbn [outcome final_self ticks trace]. split.
      * destruct result as [[[[|] price_msg] info]|e]; cbn [final_self];
          unfold price_window, window_of; cbn [set_price_reports _price_reports];
          rewrite lookup_insert_eq; reflexivity.
      * destruct result as [[[[|] price_msg] info]|e]; cbn [outcome]; eauto.
Qed.
End PriceReportCases.

(** The instance a price report leaves when the rate limiter rejects
    it: the window of the identity pruned, everything else as it was. *)
Lemma rate_limited_report_state `{rt : Runtime} (settings : Settings) (env : Env)
    (self : ProtectionService) (form_data : gmap string pyval) (request_ip : string) :
  passes_attestation env self form_data request_ip ->
  ~ under_limit 3600 (price_reports_per_hour settings) (clock env 0)
      (price_window self request_ip) ->
  final_self (run env (validate_price_report settings form_data request_ip) self)
  = set_price_reports self
      (<[request_ip := popleft_while_older (clock env 0 - 3600)
                         (price_window self request_ip)]> (_price_reports self)).
Proof.
  intros [m Hpass] Hfull. revert Hpass. unfold run.
  rewrite validate_price_report_run. cbv zeta.
  destruct (verify_recaptcha_frame env
              (default PyNone (form_data !! "g-recaptcha-response"))
              (Some request_ip) self 0 []) as ([valid msg] & posts & -> & _).
  cbn [outcome final_self ticks trace]. intros [= -> ->].
  rewrite check_price_report_rate_limit_run. cbv zeta.
  unfold under_limit, price_window in Hfull. unfold price_window.
  destruct (Z.leb_spec (price_reports_per_hour settings)
              (Z.of_nat (length (popleft_while_older (clock env 0 - 3600)
                                   (window_of (_price_reports self) request_ip)))))
    as [_|Hroom]; [|contradiction].
  reflexivity.
Qed.

(** C4, as stated, fails: with three recent reports in the window and a
    limit of three, a submission passes attestation and is rejected by
    the rate limiter, and no entry is appended to the window. *)
Lemma attested_submission_without_slot :
  let rt := DecimalRuntime.runtime in
  passes_attestation sample_env busy_service sample_form "1.2.3.4"
  /\ price_window
       (final_self (run sample_env
                      (validate_price_report default_settings sample_form "1.2.3.4")
                      busy_service)) "1.2.3.4"
     = price_window busy_service "1.2.3.4"
  /\ ~ slot_consumed_iff_attested default_settings sample_env busy_service
         sample_form "1.2.3.4".
Proof.
  cbv zeta.
  assert (Hpass : passes_attestation sample_env busy_service sample_form "1.2.3.4").
  { exists "Bypassed in development". reflexivity. }
  assert (Hsame : price_window
                    (final_self (run sample_env
                                   (validate_price_report (rt := DecimalRuntime.runtime)
                                      default_settings sample_form "1.2.3.4")
                                   busy_service)) "1.2.3.4"
                  = price_window busy_service "1.2.3.4").
  { vm_compute. reflexivity. }
  split; [exact Hpass|]. split; [exact Hsame|].
  intros [_ Hiff]. specialize (Hiff Hpass). rewrite Hsame in Hiff.
  revert Hiff. apply unchanged_not_consumed. reflexivity.
Qed.

(** C4, amended. A price report consumes a slot exactly when it passes
    attestation and the rate limiter admits it, that is, fewer entries
    than the limit remain in the window after pruning. A submission
    rejected at attestation leaves the whole instance unchanged; a
    submission rejected by the rate limiter leaves the window of its
    identity as the pruned window, with no entry appended, and the rest
    of the instance unchanged; and a submission rejected by the price
    validator has consumed a slot. *)
Theorem slot_consumed_iff_attested_and_admitted `{rt : Runtime} (settings : Settings)
    (env : Env) (self : ProtectionService) (form_data : gmap string pyval)
    (request_ip : string) :
  let r := run env (validate_price_report settings form_data request_ip) self in
  let now := clock env 0 in
  let before := price_window self request_ip in
  let after := price_window (final_self r) request_ip in
  (slot_consumed 3600 now before after
   <-> passes_attestation env self form_data request_ip
       /\ under_limit 3600 (price_reports_per_hour settings) now before)
  /\ (~ passes_attestation env self form_data request_ip -> final_self r = self)
  /\ (forall msg,
        outcome r = Returned (false, "Precio: " ++ msg) ->
        slot_consumed 3600 now before after)
  /\ (passes_attestation env self form_data request_ip ->
      ~ under_limit 3600 (price_reports_per_hour settings) now before ->
      final_self r
      = set_price_reports self
          (<[request_ip := popleft_while_older (now - 3600) before]> (_price_reports self))
      /\ after = popleft_while_older (now - 3600) before
      /\ (length after <= length before)%nat).
Proof.
  intros r now before after. subst r now before after.
  pose proof (validate_price_report_cases settings env self form_data request_ip) as Hcases.
  cbv zeta in Hcases.
  destruct Hcases
    as [(Hno & Hself & msg0 & Hout)
       |[(Hpass & Hfull & Hwin & msg0 & Hout)|(Hpass & Hroom & Hwin & Hout)]].
  - rewrite Hself. split; [|split; [|split]].
    + split; [|intros [Hpass _]; contradiction].
      intros Hc. exfalso. revert Hc. apply unchanged_not_consumed. reflexivity.
    + intros _. reflexivity.
    + intros msg Hmsg. rewrite Hout in Hmsg. discriminate.
    + intros Hpass. contradiction.
  - split; [|split; [|split]].
    + rewrite Hwin. split; [|intros [_ Hroom]; contradiction].
      intros Hc. exfalso. revert Hc. apply pruned_not_consumed.
    + intros Hno. contradiction.
    + intros msg Hmsg. rewrite Hout in Hmsg. discriminate.
    + intros _ _. split; [|split].
      * apply rate_limited_report_state; assumption.
      * exact Hwin.
      * rewrite Hwin. apply popleft_length.
  - split; [|split; [|split]].
    + rewrite Hwin. split; [intros _; split; assumption|intros _; reflexivity].
    + intros Hno. contradiction.
    + intros msg _. rewrite Hwin. reflexivity.
    + intros _ Hfull. contradiction.
Qed.

Lemma slot_consumed_iff_attested_and_admitted_witness :
  let rt := DecimalRuntime.runtime in
  let self := init default_settings in
  let r := run sample_env (validate_price_report default_settings sample_form "1.2.3.4") self in
  outcome r = Returned (false, "Precio: Precio fuera del rango fallback ($15.0 - $35.0)")
  /\ slot_consumed 3600 (clock sample_env 0) (price_window self "1.2.3.4")
       (price_window (final_self r) "1.2.3.4")
  /\ price_window (final_self r) "1.2.3.4" = [clock sample_env 0]
  /\ passes_attestation sample_env busy_service sample_form "1.2.3.4"
  /\ ~ under_limit 3600 (price_reports_per_hour default_settings) (clock sample_env 0)
        (price_window busy_service "1.2.3.4")
  /\ price_window
       (final_self (run sample_env
                      (validate_price_report default_settings sample_form "1.2.3.4")
                      busy_service)) "1.2.3.4"
     = popleft_while_older (clock sample_env 0 - 3600) (price_window busy_service "1.2.3.4").
Proof.
  cbv zeta.
  assert (Hout : outcome (run sample_env
                            (validate_price_report (rt := DecimalRuntime.runtime)
                               default_settings sample_form "1.2.3.4")
                            (init default_settings))
                 = Returned (false, "Precio: Precio fuera del rango fallback ($15.0 - $35.0)")).
  { vm_compute. reflexivity. }
  assert (Hpass : passes_attestation sample_env busy_service sample_form "1.2.3.4")
    by (exists "Bypassed in development"; reflexivity).
  assert (Hfull : ~ under_limit 3600 (price_reports_per_hour default_settings)
                      (clock sample_env 0) (price_window busy_service "1.2.3.4"))
    by (vm_compute; intros H; discriminate H).
  split; [exact Hout|]. split; [|split; [|split; [|split]]].
  - destruct (slot_consumed_iff_attested_and_admitted (rt := DecimalRuntime.runtime)
                default_settings sample_env (init default_settings) sample_form "1.2.3.4")
      as (_ & _ & Hprice & _).
    apply (Hprice "Precio fuera del rango fallback ($15.0 - $35.0)"). exact Hout.
  - reflexivity.
  - exact Hpass.
  - exact Hfull.
  - destruct (slot_consumed_iff_attested_and_admitted (rt := DecimalRuntime.runtime)
                default_settings sample_env busy_service sample_form "1.2.3.4")
      as (_ & _ & _ & Hlimited).
    exact (proj1 (proj2 (Hlimited Hpass Hfull))).
Defined.

(** C10. The price-report pipeline answers "Precio inválido" exactly
    when the submission passes attestation, is admitted by the rate
    limiter, and carries a [reported_price] that [float] cannot convert.
    A form without [reported_price] is never rejected as invalid: once
    past the two gates, with its slot consumed, the price validator runs
    on the price 0.0 and decides. *)
Theorem invalid_price_iff_present_and_unconvertible `{rt : Runtime} (settings : Settings)
    (env : Env) (self : ProtectionService) (form_data : gmap string pyval)
    (request_ip : string) :
  let r := run env (validate_price_report settings form_data request_ip) self in
  let now := clock env 0 in
  let before := price_window self request_ip in
  (outcome r = Returned (false, "Precio inválido")
   <-> passes_attestation env self form_data request_ip
       /\ under_limit 3600 (price_reports_per_hour settings) now before
       /\ exists v e, form_data !! "reported_price" = Some v /\ py_float v = inl e)
  /\ (form_data !! "reported_price" = None ->
      outcome r <> Returned (false, "Precio inválido")
      /\ (passes_attestation env self form_data request_ip ->
          under_limit 3600 (price_reports_per_hour settings) now before ->
          let v := run env (verify_recaptcha
                              (default PyNone (form_data !! "g-recaptcha-response"))
                              (Some request_ip)) self in
          let l := run_from env (check_price_report_rate_limit settings request_ip)
                     (final_self v) (ticks v) (rev (trace v)) in
          let p := run_from env
                     (validate_price_of_form_value
                        (default (PyStr "") (form_data !! "fuel_type")) 0)
                     (final_self l) (ticks l) (rev (trace l)) in
          slot_consumed 3600 now before (price_window (final_self r) request_ip)
          /\ r = {| outcome :=
                      match outcome p with
                      | Raised e => Raised e
                      | Returned (false, price_msg, _) =>
                          Returned (false, "Precio: " ++ price_msg)
                      | Returned (true, _, _) =>
                          Returned (true, "Todas las validaciones pasaron")
                      end;
                    final_self := final_self p; ticks := ticks p; trace := trace p |})).
Proof.
  intros r now before. subst r now before.
  pose proof (validate_price_report_cases settings env self form_data request_ip) as Hcases.
  cbv zeta in Hcases.
  assert (Hiff :
    outcome (run env (validate_price_report settings form_data request_ip) self)
    = Returned (false, "Precio inválido")
    <-> passes_attestation env self form_data request_ip
        /\ under_limit 3600 (price_reports_per_hour settings) (clock env 0)
             (price_window self request_ip)
        /\ exists v e, form_data !! "reported_price" = Some v /\ py_float v = inl e).
  { destruct Hcases
      as [(Hno & _ & msg0 & Hout)
         |[(Hpass & Hfull & _ & msg0 & Hout)|(Hpass & Hroom & _ & Hout)]].
    - rewrite Hout. split; [discriminate|]. intros [Hpass _]. contradiction.
    - rewrite Hout. split; [discriminate|]. intros (_ & Hroom & _). contradiction.
    - destruct (form_data !! "reported_price") as [v|] eqn:Hprice;
        cbn [default from_option id] in Hout.
      + destruct (py_float v) as [e|price] eqn:Hfloat.
        * split; [intros _|intros _; exact Hout]. eauto 6.
        * split.
          -- intros Hinv. destruct Hout as [Hout|[[msg Hout]|[e Hout]]];
               rewrite Hout in Hinv; discriminate.
          -- intros (_ & _ & v' & e & [= <-] & Hv'). congruence.
      + cbn [py_float] in Hout. split.
        * intros Hinv. destruct Hout as [Hout|[[msg Hout]|[e Hout]]];
            rewrite Hout in Hinv; discriminate.
        * intros (_ & _ & v' & e & [=] & _). }
  split; [exact Hiff|].
  intros Habsent. split.
  - intros Hinv. apply Hiff in Hinv. destruct Hinv as (_ & _ & v & e & Hv & _). congruence.
  - intros [m Hpass] Hroom v l p.
    assert (Hrun := validate_price_report_run settings env form_data request_ip self 0 []).
    cbv zeta in Hrun. fold (run env (validate_price_report settings form_data request_ip) self) in Hrun.
    fold (run env (verify_recaptcha (default PyNone (form_data !! "g-recaptcha-response"))
                     (Some request_ip)) self) in Hrun.
    fold v in Hrun. fold l in Hrun. subst v. rewrite Hpass in Hrun.
    destruct Hcases
      as [(Hno & _)|[(_ & Hfull & _)|(_ & _ & Hwin & _)]];
      [exfalso; apply Hno; eexists; exact Hpass|contradiction|].
    split; [exact Hwin|].
    assert (Hl : exists m', outcome l = Returned (true, m')).
    { subst l. destruct (verify_recaptcha_frame env
                (default PyNone (form_data !! "g-recaptcha-response"))
                (Some request_ip) self 0 []) as (verdict & posts & Hv & _).
      unfold run. rewrite Hv. cbn [final_self ticks trace].
      rewrite check_price_report_rate_limit_run. cbv zeta.
      unfold under_limit, price_window in Hroom.
      destruct (Z.leb_spec (price_reports_per_hour settings)
                  (Z.of_nat (length (popleft_while_older (clock env 0 - 3600)
                                       (window_of (_price_reports self) request_ip)))))
        as [Hfull|_]; [lia|].
      eexists; reflexivity. }
    destruct Hl as [m' Hl]. rewrite Hl in Hrun.
    rewrite Habsent in Hrun. cbn [default from_option id py_float] in Hrun.
    change (inject_Z 0) with 0%Q in Hrun. fold p in Hrun.
    rewrite Hrun. destruct (outcome p) as [[[[|] price_msg] info]|e]; reflexivity.
Qed.

Lemma invalid_price_iff_present_and_unconvertible_witness :
  let rt := DecimalRuntime.runtime in
  let self := init default_settings in
  let token := <["g-recaptcha-response" := PyStr "token"]> (∅ : gmap string pyval) in
  let garbled := <["reported_price" := PyStr "abc"]> token in
  outcome (run sample_env (validate_price_report default_settings garbled "1.2.3.4") self)
  = Returned (false, "Precio inválido")
  /\ token !! "reported_price" = None
  /\ outcome (run sample_env (validate_price_report default_settings token "1.2.3.4") self)
     <> Returned (false, "Precio inválido")
  /\ outcome (run sample_env (validate_price_report default_settings token "1.2.3.4") self)
     = Returned (true, "Todas las validaciones pasaron").
Proof.
  cbv zeta.
  split; [|split; [reflexivity|split]].
  - apply (invalid_price_iff_present_and_unconvertible (rt := DecimalRuntime.runtime)
             default_settings sample_env (init default_settings)
             (<["reported_price" := PyStr "abc"]>
                (<["g-recaptcha-response" := PyStr "token"]> ∅)) "1.2.3.4").
    split; [exists "Bypassed in development"; reflexivity|].
    split; [vm_compute; reflexivity|].
    exists (PyStr "abc"), ValueError. split; reflexivity.
  - apply (invalid_price_iff_present_and_unconvertible (rt := DecimalRuntime.runtime)
             default_settings sample_env (init default_settings)
             (<["g-recaptcha-response" := PyStr "token"]> ∅) "1.2.3.4").
    reflexivity.
  - vm_compute. reflexivity.
Defined.


(** * Further properties of the service *)

(** ** Window accounting over any sequence of calls *)

(** What a rate limiter does in one call, in the terms the lemmas on
    windows use. *)
Lemma price_report_check_step (settings : Settings) (env : Env) (ip : string)
    (self : ProtectionService) (n : nat) (acts : list Action) :
  let now := clock env n in
  let w := popleft_while_older (now - 3600) (price_window self ip) in
  let r := run_from env (check_price_report_rate_limit settings ip) self n acts in
  ticks r = S n
  /\ if (price_reports_per_hour settings <=? Z.of_nat (length w))%Z
     then outcome r
          = Returned (false, limit_message (Z.of_nat (length w))
                               (price_reports_per_hour settings) " reportes por hora")
          /\ price_window (final_self r) ip = w
     else outcome r = Returned (true, "Rate limit OK")
          /\ price_window (final_self r) ip = (w ++ [now])%list.
Proof.
  cbv zeta. rewrite check_price_report_rate_limit_run. cbv zeta.
  unfold price_window.
  destruct (price_reports_per_hour settings <=? _)%Z;
    cbn [ticks outcome final_self set_price_reports _price_reports];
    (split; [reflexivity|]); (split; [reflexivity|]);
    unfold window_of at 1; rewrite lookup_insert_eq; reflexivity.
Qed.

Lemma review_check_step (settings : Settings) (env : Env) (ip : string)
    (self : ProtectionService) (n : nat) (acts : list Action) :
  let now := clock env n in
  let w := popleft_while_older (now - 86400) (window_of (_reviews self) ip) in
  let r := run_from env (check_review_rate_limit settings ip) self n acts in
  ticks r = S n
  /\ if (reviews_per_day settings <=? Z.of_nat (length w))%Z
     then outcome r
          = Returned (false, limit_message (Z.of_nat (length w))
                               (reviews_per_day settings) " reseñas por día")
          /\ window_of (_reviews (final_self r)) ip = w
     else outcome r = Returned (true, "Rate limit OK")
          /\ window_of (_reviews (final_self r)) ip = (w ++ [now])%list.
Proof.
  cbv zeta. rewrite check_review_rate_limit_run. cbv zeta.
  destruct (reviews_per_day settings <=? _)%Z;
    cbn [ticks outcome final_self set_reviews _reviews];
    (split; [reflexivity|]); (split; [reflexivity|]);
    unfold window_of at 1; rewrite lookup_insert_eq; reflexivity.
Qed.

Lemma popleft_suffix (cutoff : Q) (dq : list Q) :
  exists expired, dq = (expired ++ popleft_while_older cutoff dq)%list
                  /\ Forall (fun t => (t < cutoff)%Q) expired.
Proof.
  induction dq as [|t rest (expired & Heq & Hold)]; [exists []; split; [reflexivity|constructor]|].
  simpl. unfold Qltb. destruct (Qle_bool cutoff t) eqn:Hle; simpl.
  - exists []. split; [reflexivity|constructor].
  - exists (t :: expired). split; [simpl; congruence|].
    constructor; [|exact Hold].
    apply Qnot_le_lt. intros H. apply Qle_bool_iff in H. congruence.
Qed.

Lemma popleft_sorted_fresh (cutoff : Q) (dq : list Q) :
  StronglySorted Qle dq ->
  Forall (fun t => (cutoff <= t)%Q) (popleft_while_older cutoff dq).
Proof.
  intros Hsorted.
  destruct (popleft_suffix cutoff dq) as (expired & Heq & _).
  pose proof (popleft_head cutoff dq) as Hhead.
  assert (Hs : StronglySorted Qle (popleft_while_older cutoff dq)).
  { rewrite Heq in Hsorted. clear Heq Hhead.
    induction expired as [|e expired IH]; [exact Hsorted|].
    apply IH. simpl in Hsorted. apply StronglySorted_inv in Hsorted. tauto. }
  destruct (popleft_while_older cutoff dq) as [|t rest]; [constructor|].
  apply StronglySorted_inv in Hs. destruct Hs as [_ Hall].
  constructor; [exact Hhead|].
  eapply Forall_impl; [exact Hall|]. intros x Hx. simpl in Hx.
  eapply Qle_trans; eassumption.
Qed.

Section WindowInvariants.
Variable env : Env.
Variable check : Prog (bool * string).
Variable window : ProtectionService -> list Q.
Variable duration : Q.
Variable limit : Z.
Variable unit : string.

Hypothesis check_run : forall self n acts,
  let now := clock env n in
  let w := popleft_while_older (now - duration) (window self) in
  let r := run_from env check self n acts in
  ticks r = S n
  /\ if (limit <=? Z.of_nat (length w))%Z
     then outcome r = Returned (false, limit_message (Z.of_nat (length w)) limit unit)
          /\ window (final_self r) = w
     else outcome r = Returned (true, "Rate limit OK")
          /\ window (final_self r) = (w ++ [now])%list.

(** One call, whatever its verdict. *)
Lemma check_step (self : ProtectionService) (n : nat) (acts : list Action) :
  let now := clock env n in
  let w := popleft_while_older (now - duration) (window self) in
  let r := run_from env check self n acts in
  exists (b : bool) (msg : string),
    outcome r = Returned (b, msg) /\ ticks r = S n
    /\ window (final_self r) = (if b then w ++ [now] else w)%list
    /\ (b = true <-> (Z.of_nat (length w) < limit)%Z).
Proof.
  cbv zeta. destruct (check_run self n acts) as [Hticks Hcheck]. cbv zeta in Hticks, Hcheck.
  destruct (Z.leb_spec limit
              (Z.of_nat (length (popleft_while_older (clock env n - duration) (window self)))))
    as [Hfull|Hroom]; destruct Hcheck as [Hout Hwin].
  - eexists false, _. split; [exact Hout|]. split; [exact Hticks|]. split; [exact Hwin|].
    split; [discriminate|lia].
  - eexists true, _. split; [exact Hout|]. split; [exact Hticks|]. split; [exact Hwin|].
    split; [intros _; exact Hroom|reflexivity].
Qed.

Lemma calls_return (m : nat) :
  forall self n acts,
    exists rs, outcome (run_from env (calls m check) self n acts) = Returned rs.
Proof.
  induction m as [|m IH]; intros self n acts; [exists []; reflexivity|].
  change (calls (S m) check)
    with (bind check (fun r => bind (calls m check) (fun rs => Ret (r :: rs)))).
  rewrite run_from_bind. cbv zeta.
  destruct (check_step self n acts) as (b & msg & Hout & _). cbv zeta in Hout.
  rewrite Hout. rewrite run_from_bind. cbv zeta.
  destruct (IH (final_self (run_from env check self n acts))
               (ticks (run_from env check self n acts))
               (rev (trace (run_from env check self n acts)))) as [rs Hrs].
  rewrite Hrs. eexists; reflexivity.
Qed.

Lemma calls_keep_bound (m : nat) :
  forall self n acts,
    (Z.of_nat (length (window self)) <= limit)%Z ->
    let r := run_from env (calls m check) self n acts in
    (exists rs, outcome r = Returned rs /\ length rs = m)
    /\ ticks r = (n + m)%nat
    /\ (Z.of_nat (length (window (final_self r))) <= limit)%Z.
Proof.
  induction m as [|m IH]; intros self n acts Hlen.
  - cbn. split; [exists []; split; reflexivity|]. split; [lia|exact Hlen].
  - change (calls (S m) check)
      with (bind check (fun r => bind (calls m check) (fun rs => Ret (r :: rs)))).
    cbv zeta. rewrite run_from_bind. cbv zeta.
    destruct (check_step self n acts) as (b & msg & Hout & Hticks & Hwin & Hb).
    cbv zeta in Hout, Hticks, Hwin, Hb. rewrite Hout, Hticks. rewrite run_from_bind. cbv zeta.
    specialize (IH (final_self (run_from env check self n acts)) (S n)
                   (rev (trace (run_from env check self n acts)))).
    cbv zeta in IH. destruct IH as ((rs & Hrs & Hlenrs) & IHticks & IHlen).
    + rewrite Hwin. pose proof (popleft_length (clock env n - duration) (window self)).
      destruct b; [rewrite length_app; simpl; apply proj1 in Hb; specialize (Hb eq_refl)|];
        lia.
    + rewrite Hrs. cbn [run_from outcome final_self ticks].
      split; [exists ((b, msg) :: rs); split; [reflexivity|simpl; lia]|].
      split; [lia|exact IHlen].
Qed.

Lemma calls_keep_chronological (m : nat) :
  forall self n acts,
    (0 <= duration)%Q ->
    (forall i j, (i <= j)%nat -> (clock env i <= clock env j)%Q) ->
    StronglySorted Qle (window self) ->
    Forall (fun t => (t <= clock env n)%Q) (window self) ->
    let r := run_from env (calls m check) self n acts in
    StronglySorted Qle (window (final_self r))
    /\ Forall (fun t => (t <= clock env (n + m))%Q) (window (final_self r))
    /\ ((1 <= m)%nat ->
        Forall (fun t => (clock env (n + m - 1) - duration <= t)%Q) (window (final_self r))).
Proof.
  induction m as [|m IH]; intros self n acts Hdur Hmono Hsorted Hpast.
  - cbn. rewrite Nat.add_0_r. split; [exact Hsorted|]. split; [exact Hpast|lia].
  - change (calls (S m) check)
      with (bind check (fun r => bind (calls m check) (fun rs => Ret (r :: rs)))).
    cbv zeta. rewrite run_from_bind. cbv zeta.
    destruct (check_step self n acts) as (b & msg & Hout & Hticks & Hwin & _).
    cbv zeta in Hout, Hticks, Hwin. rewrite Hout, Hticks. rewrite run_from_bind. cbv zeta.
    set (s1 := final_self (run_from env check self n acts)) in *.
    set (a1 := rev (trace (run_from env check self n acts))).
    set (now := clock env n) in *.
    set (w := popleft_while_older (now - duration) (window self)) in *.
    destruct (popleft_suffix (now - duration) (window self)) as (expired & Heq & _).
    fold w in Heq.
    assert (Hw_sorted : StronglySorted Qle w).
    { rewrite Heq in Hsorted. clear -Hsorted.
      induction expired as [|e expired IHe]; [exact Hsorted|].
      apply IHe. simpl in Hsorted. apply StronglySorted_inv in Hsorted. tauto. }
    assert (Hw_past : Forall (fun t => (t <= now)%Q) w).
    { rewrite Heq in Hpast. apply Forall_app in Hpast. tauto. }
    assert (Hw_fresh : Forall (fun t => (now - duration <= t)%Q) w).
    { apply popleft_sorted_fresh. exact Hsorted. }
    assert (H1_sorted : StronglySorted Qle (window s1)).
    { rewrite Hwin. destruct b; [|exact Hw_sorted].
      clear -Hw_sorted Hw_past. induction w as [|t w IHw]; simpl.
      - repeat constructor.
      - apply StronglySorted_inv in Hw_sorted. destruct Hw_sorted as [Hs Hall].
        apply Forall_cons_iff in Hw_past. destruct Hw_past as [Ht Hrest].
        constructor; [apply IHw; assumption|].
        apply Forall_app. split; [exact Hall|]. repeat constructor. exact Ht. }
    assert (H1_past : Forall (fun t => (t <= now)%Q) (window s1)).
    { rewrite Hwin. destruct b; [|exact Hw_past].
      apply Forall_app. split; [exact Hw_past|]. repeat constructor. apply Qle_refl. }
    assert (H1_fresh : Forall (fun t => (now - duration <= t)%Q) (window s1)).
    { rewrite Hwin. destruct b; [|exact Hw_fresh].
      apply Forall_app. split; [exact Hw_fresh|]. repeat constructor. lra. }
    specialize (IH s1 (S n) a1 Hdur Hmono H1_sorted). cbv zeta in IH.
    destruct IH as (IHsorted & IHpast & IHfresh).
    { eapply Forall_impl; [exact H1_past|]. intros t Ht. simpl in Ht.
      eapply Qle_trans; [exact Ht|]. apply Hmono. lia. }
    destruct (calls_return m s1 (S n) a1) as (rs & Hrs).
    rewrite Hrs. cbn [run_from outcome final_self].
    replace (n + S m)%nat with (S n + m)%nat by lia.
    split; [exact IHsorted|]. split; [exact IHpast|]. intros _.
    destruct m as [|m'].
    + cbn [calls run_from final_self] in *. replace (S n + 0 - 1)%nat with n by lia.
      exact H1_fresh.
    + replace (S n + S m' - 1)%nat with (S n + S m' - 1)%nat by reflexivity.
      apply IHfresh. lia.
Qed.
End WindowInvariants.

Lemma sample_clock_monotone (i j : nat) :
  (i <= j)%nat -> (clock sample_env i <= clock sample_env j)%Q.
Proof.
  intros Hij. cbn [clock sample_env].
  assert (H : (inject_Z (Z.of_nat i) <= inject_Z (Z.of_nat j))%Q)
    by (rewrite <- Zle_Qle; lia).
  lra.
Qed.

(** X1. Whatever the clock does and however many calls are made, a
    window that holds at most [limit] entries never comes to hold more:
    the limiters never over-fill a window. *)
Theorem windows_never_exceed_limit (settings : Settings) (env : Env)
    (self : ProtectionService) (ip : string) (m : nat) :
  ((Z.of_nat (length (price_window self ip)) <= price_reports_per_hour settings)%Z ->
   let r := run env (calls m (check_price_report_rate_limit settings ip)) self in
   (exists verdicts, outcome r = Returned verdicts /\ length verdicts = m)
   /\ (Z.of_nat (length (price_window (final_self r) ip))
       <= price_reports_per_hour settings)%Z)
  /\ ((Z.of_nat (length (window_of (_reviews self) ip)) <= reviews_per_day settings)%Z ->
      let r := run env (calls m (check_review_rate_limit settings ip)) self in
      (exists verdicts, outcome r = Returned verdicts /\ length verdicts = m)
      /\ (Z.of_nat (length (window_of (_reviews (final_self r)) ip))
          <= reviews_per_day settings)%Z).
Proof.
  split; intros Hlen r; subst r; unfold run.
  - destruct (calls_keep_bound env (check_price_report_rate_limit settings ip)
                (fun s => price_window s ip) 3600 (price_reports_per_hour settings)
                " reportes por hora"
                (price_report_check_step settings env ip) m self 0%nat [] Hlen)
      as (Hout & _ & Hbound).
    split; assumption.
  - destruct (calls_keep_bound env (check_review_rate_limit settings ip)
                (fun s => window_of (_reviews s) ip) 86400 (reviews_per_day settings)
                " reseñas por día"
                (review_check_step settings env ip) m self 0%nat [] Hlen)
      as (Hout & _ & Hbound).
    split; assumption.
Qed.

Lemma windows_never_exceed_limit_witness :
  (Z.of_nat (length (price_window busy_service "1.2.3.4"))
   <= price_reports_per_hour default_settings)%Z
  /\ (Z.of_nat
        (length
           (price_window
              (final_self
                 (run sample_env
                    (calls 7 (check_price_report_rate_limit default_settings "1.2.3.4"))
                    busy_service)) "1.2.3.4"))
      <= 3)%Z.
Proof.
  split; [vm_compute; discriminate|].
  apply (windows_never_exceed_limit default_settings sample_env busy_service "1.2.3.4" 7).
  vm_compute; discriminate.
Defined.

(** X2. With a clock that never runs backwards, a window that is in
    chronological order and holds no entry from the future stays in
    chronological order through any number of calls, and after the last
    call every entry it holds is at most the window duration older than
    that call: no expired entry survives an inspection. *)
Theorem windows_stay_chronological_and_fresh (settings : Settings) (env : Env)
    (self : ProtectionService) (ip : string) (m : nat) :
  (forall i j, (i <= j)%nat -> (clock env i <= clock env j)%Q) ->
  (1 <= m)%nat ->
  (StronglySorted Qle (price_window self ip) ->
   Forall (fun t => (t <= clock env 0)%Q) (price_window self ip) ->
   let r := run env (calls m (check_price_report_rate_limit settings ip)) self in
   StronglySorted Qle (price_window (final_self r) ip)
   /\ Forall (fun t => (clock env (m - 1) - 3600 <= t)%Q)
        (price_window (final_self r) ip))
  /\ (StronglySorted Qle (window_of (_reviews self) ip) ->
      Forall (fun t => (t <= clock env 0)%Q) (window_of (_reviews self) ip) ->
      let r := run env (calls m (check_review_rate_limit settings ip)) self in
      StronglySorted Qle (window_of (_reviews (final_self r)) ip)
      /\ Forall (fun t => (clock env (m - 1) - 86400 <= t)%Q)
           (window_of (_reviews (final_self r)) ip)).
Proof.
  intros Hmono Hm. split; intros Hsorted Hpast r; subst r; unfold run.
  - destruct (calls_keep_chronological env (check_price_report_rate_limit settings ip)
                (fun s => price_window s ip) 3600 (price_reports_per_hour settings)
                " reportes por hora"
                (price_report_check_step settings env ip) m self 0%nat []
                ltac:(lra) Hmono Hsorted Hpast) as (Hs & _ & Hf).
    split; [exact Hs|]. apply Hf. exact Hm.
  - destruct (calls_keep_chronological env (check_review_rate_limit settings ip)
                (fun s => window_of (_reviews s) ip) 86400 (reviews_per_day settings)
                " reseñas por día"
                (review_check_step settings env ip) m self 0%nat []
                ltac:(lra) Hmono Hsorted Hpast) as (Hs & _ & Hf).
    split; [exact Hs|]. apply Hf. exact Hm.
Qed.

Lemma windows_stay_chronological_and_fresh_witness :
  (forall i j, (i <= j)%nat -> (clock sample_env i <= clock sample_env j)%Q)
  /\ (1 <= 5)%nat
  /\ StronglySorted Qle (price_window busy_service "1.2.3.4")
  /\ Forall (fun t => (t <= clock sample_env 0)%Q) (price_window busy_service "1.2.3.4")
  /\ Forall (fun t => (clock sample_env 4 - 3600 <= t)%Q)
       (price_window
          (final_self
             (run sample_env
                (calls 5 (check_price_report_rate_limit default_settings "1.2.3.4"))
                busy_service)) "1.2.3.4").
Proof.
  assert (Hsorted : StronglySorted Qle (price_window busy_service "1.2.3.4")).
  { change (price_window busy_service "1.2.3.4")
      with [1699999000; 1699999100; 1699999200]%Q.
    repeat constructor; vm_compute; discriminate. }
  assert (Hpast : Forall (fun t => (t <= clock sample_env 0)%Q)
                    (price_window busy_service "1.2.3.4")).
  { change (price_window busy_service "1.2.3.4")
      with [1699999000; 1699999100; 1699999200]%Q.
    repeat constructor; vm_compute; discriminate. }
  split; [exact sample_clock_monotone|]. split; [lia|].
  split; [exact Hsorted|]. split; [exact Hpast|].
  apply (windows_stay_chronological_and_fresh default_settings sample_env busy_service
           "1.2.3.4" 5 sample_clock_monotone ltac:(lia)); assumption.
Defined.

Lemma filter_keeps_all (keep : Q -> bool) (l : list Q) :
  Forall (fun t => keep t = true) l -> List.filter keep l = l.
Proof.
  induction 1 as [|t l Ht _ IH]; simpl; [reflexivity|]. rewrite Ht, IH. reflexivity.
Qed.

(** X3. On a window in chronological order the eviction loop, which
    stops at the first entry that is not older than the cutoff, removes
    exactly the entries older than the cutoff. *)
Theorem eviction_removes_exactly_the_expired (cutoff : Q) (dq : list Q) :
  StronglySorted Qle dq ->
  popleft_while_older cutoff dq = List.filter (fun t => Qle_bool cutoff t) dq.
Proof.
  induction 1 as [|t rest Hsorted IH Hall]; [reflexivity|].
  simpl. unfold Qltb. destruct (Qle_bool cutoff t) eqn:Hle; simpl; [|exact IH].
  f_equal. symmetry. apply filter_keeps_all.
  eapply Forall_impl; [exact Hall|]. intros x Hx. simpl in Hx.
  apply Qle_bool_iff. apply Qle_bool_iff in Hle. eapply Qle_trans; eassumption.
Qed.

Lemma eviction_removes_exactly_the_expired_witness :
  StronglySorted Qle [10; 20; 30; 40]%Q
  /\ popleft_while_older 25 [10; 20; 30; 40]%Q = [30; 40]%Q.
Proof.
  assert (Hsorted : StronglySorted Qle [10; 20; 30; 40]%Q)
    by (repeat constructor; vm_compute; discriminate).
  split; [exact Hsorted|].
  rewrite (eviction_removes_exactly_the_expired 25 [10; 20; 30; 40]%Q Hsorted).
  reflexivity.
Defined.

(** X4. A slot is reclaimed once its entry has expired: when the window
    holds at most [limit] entries and its oldest entry is older than the
    window duration, the call is admitted; for both limiters. *)
Theorem expired_slot_is_reclaimed (settings : Settings) (env : Env)
    (self : ProtectionService) (ip : string) (oldest : Q) (rest : list Q) :
  (price_window self ip = oldest :: rest ->
   (Z.of_nat (length (oldest :: rest)) <= price_reports_per_hour settings)%Z ->
   (oldest < clock env 0 - 3600)%Q ->
   outcome (run env (check_price_report_rate_limit settings ip) self)
   = Returned (true, "Rate limit OK"))
  /\ (window_of (_reviews self) ip = oldest :: rest ->
      (Z.of_nat (length (oldest :: rest)) <= reviews_per_day settings)%Z ->
      (oldest < clock env 0 - 86400)%Q ->
      outcome (run env (check_review_rate_limit settings ip) self)
      = Returned (true, "Rate limit OK")).
Proof.
  split; intros Hwin Hlen Hold; unfold run.
  - destruct (price_report_check_step settings env ip self 0 []) as [_ Hstep].
    cbv zeta in Hstep. rewrite Hwin in Hstep. cbn [popleft_while_older] in Hstep.
    unfold Qltb in Hstep at 1.
    destruct (Qle_bool (clock env 0 - 3600) oldest) eqn:Hle;
      [apply Qle_bool_iff in Hle; lra|].
    cbn [negb] in Hstep.
    pose proof (popleft_length (clock env 0 - 3600) rest) as Hshort.
    cbn [length] in Hlen.
    destruct (Z.leb_spec (price_reports_per_hour settings)
                (Z.of_nat (length (popleft_while_older (clock env 0 - 3600) rest))))
      as [Hfull|_]; [lia|].
    apply Hstep.
  - destruct (review_check_step settings env ip self 0 []) as [_ Hstep].
    cbv zeta in Hstep. rewrite Hwin in Hstep. cbn [popleft_while_older] in Hstep.
    unfold Qltb in Hstep at 1.
    destruct (Qle_bool (clock env 0 - 86400) oldest) eqn:Hle;
      [apply Qle_bool_iff in Hle; lra|].
    cbn [negb] in Hstep.
    pose proof (popleft_length (clock env 0 - 86400) rest) as Hshort.
    cbn [length] in Hlen.
    destruct (Z.leb_spec (reviews_per_day settings)
                (Z.of_nat (length (popleft_while_older (clock env 0 - 86400) rest))))
      as [Hfull|_]; [lia|].
    apply Hstep.
Qed.

Lemma expired_slot_is_reclaimed_witness :
  price_window stale_service "1.2.3.4" = [1699990000; 1699999100; 1699999200]%Q
  /\ (Z.of_nat (length [1699990000; 1699999100; 1699999200]%Q)
      <= price_reports_per_hour default_settings)%Z
  /\ (1699990000 < clock sample_env 0 - 3600)%Q
  /\ outcome (run sample_env (check_price_report_rate_limit default_settings "1.2.3.4")
                stale_service)
     = Returned (true, "Rate limit OK").
Proof.
  split; [reflexivity|]. split; [vm_compute; discriminate|]. split; [reflexivity|].
  destruct (expired_slot_is_reclaimed default_settings sample_env stale_service "1.2.3.4"
              1699990000 [1699999100; 1699999200]%Q) as [Hreports _].
  apply Hreports.
  - reflexivity.
  - vm_compute; discriminate.
  - reflexivity.
Defined.

(** X5. A rate-limit check touches one window only: the check for price
    reports leaves the windows of every other identity, all review
    windows and every configuration field (secret, verification URL,
    tolerance, minimum of samples, freshness days, fallback ranges) as
    they were, and the check for reviews leaves the windows of every
    other identity, all price-report windows and every configuration
    field as they were. *)
Theorem rate_limit_checks_touch_one_window (settings : Settings) (env : Env)
    (self : ProtectionService) (ip : string) :
  (let s := final_self (run env (check_price_report_rate_limit settings ip) self) in
   (forall other, other <> ip -> _price_reports s !! other = _price_reports self !! other)
   /\ _reviews s = _reviews self
   /\ recaptcha_secret s = recaptcha_secret self
   /\ recaptcha_verify_url s = recaptcha_verify_url self
   /\ price_tolerance s = price_tolerance self
   /\ min_samples s = min_samples self
   /\ freshness_days s = freshness_days self
   /\ fallback_ranges s = fallback_ranges self)
  /\ (let s := final_self (run env (check_review_rate_limit settings ip) self) in
      (forall other, other <> ip -> _reviews s !! other = _reviews self !! other)
      /\ _price_reports s = _price_reports self
      /\ recaptcha_secret s = recaptcha_secret self
      /\ recaptcha_verify_url s = recaptcha_verify_url self
      /\ price_tolerance s = price_tolerance self
      /\ min_samples s = min_samples self
      /\ freshness_days s = freshness_days self
      /\ fallback_ranges s = fallback_ranges self).
Proof.
  split; cbv zeta; unfold run.
  - rewrite check_price_report_rate_limit_run. cbv zeta.
    destruct (price_reports_per_hour settings <=? _)%Z;
      cbn [final_self set_price_reports _price_reports _reviews recaptcha_secret
           recaptcha_verify_url price_tolerance min_samples freshness_days
           fallback_ranges];
      (split; [intros other Hother; apply lookup_insert_ne; congruence|]);
      repeat split.
  - rewrite check_review_rate_limit_run. cbv zeta.
    destruct (reviews_per_day settings <=? _)%Z;
      cbn [final_self set_reviews _price_reports _reviews recaptcha_secret
           recaptcha_verify_url price_tolerance min_samples freshness_days
           fallback_ranges];
      (split; [intros other Hother; apply lookup_insert_ne; congruence|]);
      repeat split.
Qed.

Lemma rate_limit_checks_touch_one_window_witness :
  "5.6.7.8" <> "1.2.3.4"
  /\ _price_reports
       (final_self (run sample_env (check_price_report_rate_limit default_settings "1.2.3.4")
                      busy_service)) !! "5.6.7.8"
     = _price_reports busy_service !! "5.6.7.8".
Proof.
  split; [discriminate|].
  destruct (rate_limit_checks_touch_one_window default_settings sample_env busy_service
              "1.2.3.4") as [(Hothers & _) _].
  apply Hothers. discriminate.
Defined.

(** ** Attestation with a configured secret *)

Lemma verify_recaptcha_posts (env : Env) (self : ProtectionService) (token : pyval)
    (user_ip : option string) (n : nat) (acts : list Action) :
  truthy token = true ->
  recaptcha_secret self <> "" ->
  let payload := recaptcha_payload self token user_ip in
  let reply := recaptcha_endpoint env (recaptcha_verify_url self) payload in
  exists verdict,
    run_from env (verify_recaptcha token user_ip) self n acts
    = {| outcome := Returned verdict; final_self := self; ticks := n;
         trace := rev (ActHttpPost (recaptcha_verify_url self) payload :: acts) |}
    /\ (verdict.1 = true <-> confirms_human reply)
    /\ (verdict.1 = false ->
        verdict.2 = "Error verificando CAPTCHA" \/ verdict.2 = "CAPTCHA inválido"
        \/ verdict.2 = "Score CAPTCHA muy bajo").
Proof.
  intros Htoken Hsecret. cbv zeta. unfold verify_recaptcha.
  cbn [get_self bind run_from]. rewrite Htoken. cbn [negb truthy].
  destruct (String.eqb_spec (recaptcha_secret self) "") as [|_]; [contradiction|].
  cbn [negb http_post bind try_except run_from].
  unfold confirms_human, recaptcha_payload.
  set (payload := (_ ++ _)%list).
  destruct (recaptcha_endpoint env (recaptcha_verify_url self) payload)
    as [|status [result|]]; cbn [bind try_except run_from].
  - eexists. split; [reflexivity|]. cbn. split; [|auto].
    split; [discriminate|]. intros (result & [=] & _).
  - destruct (Z.eqb_spec status 200) as [->|Hstatus].
    + destruct (success result) eqn:Hsuccess.
      * destruct (score result) as [sc|] eqn:Hscore.
        -- unfold Qltb. destruct (Qle_bool (1 # 2) sc) eqn:Hle;
             cbn [negb bind try_except run_from]; eexists; (split; [reflexivity|]); cbn.
           ++ split; [|discriminate]. split; [intros _|reflexivity].
              exists result. rewrite Hsuccess, Hscore.
              split; [reflexivity|]. split; [reflexivity|]. apply Qle_bool_iff. exact Hle.
           ++ split; [|auto]. split; [discriminate|].
              intros (result' & [= <-] & _ & Hsc). rewrite Hscore in Hsc.
              apply Qle_bool_iff in Hsc. congruence.
        -- cbn [bind try_except run_from]. eexists. split; [reflexivity|]. cbn.
           split; [|discriminate]. split; [intros _|reflexivity].
           exists result. rewrite Hsuccess, Hscore. auto.
      * cbn [bind try_except run_from]. eexists. split; [reflexivity|]. cbn.
        split; [|auto]. split; [discriminate|].
        intros (result' & [= <-] & Hs & _). congruence.
    + cbn [bind try_except run_from]. eexists. split; [reflexivity|]. cbn.
      split; [|auto]. split; [discriminate|].
      intros (result' & [= -> _] & _). contradiction.
  - destruct (status =? 200)%Z; cbn [bind try_except run_from];
      eexists; (split; [reflexivity|]); cbn; (split; [|auto]);
      (split; [discriminate|]); intros (result' & [=] & _).
Qed.

(** X6. With a token and a configured secret the verification fails
    closed: it always returns, leaves the instance alone, and accepts
    exactly when the endpoint answers with status 200, a body that
    decodes, [success] true and no score below 0.5. A transport error,
    another status, an undecodable body, [success] false or a low score
    all give a rejection. *)
Theorem attestation_accepts_only_confirmed_humans (env : Env) (self : ProtectionService)
    (token : pyval) (user_ip : option string) :
  truthy token = true ->
  recaptcha_secret self <> "" ->
  let reply := recaptcha_endpoint env (recaptcha_verify_url self)
                 (recaptcha_payload self token user_ip) in
  let r := run env (verify_recaptcha token user_ip) self in
  exists valid msg,
    outcome r = Returned (valid, msg)
    /\ final_self r = self
    /\ (valid = true <-> confirms_human reply).
Proof.
  intros Htoken Hsecret reply r. subst reply r. unfold run.
  destruct (verify_recaptcha_posts env self token user_ip 0 [] Htoken Hsecret)
    as ([valid msg] & -> & Hiff & _).
  exists valid, msg. split; [reflexivity|]. split; [reflexivity|exact Hiff].
Qed.

Lemma attestation_accepts_only_confirmed_humans_witness :
  truthy (PyStr "token") = true
  /\ recaptcha_secret guarded_service <> ""
  /\ outcome (run low_score_env (verify_recaptcha (PyStr "token") (Some "1.2.3.4"))
                guarded_service)
     = Returned (false, "Score CAPTCHA muy bajo")
  /\ ~ confirms_human
         (recaptcha_endpoint low_score_env (recaptcha_verify_url guarded_service)
            (recaptcha_payload guarded_service (PyStr "token") (Some "1.2.3.4"))).
Proof.
  split; [reflexivity|]. split; [discriminate|]. split; [reflexivity|].
  destruct (attestation_accepts_only_confirmed_humans low_score_env guarded_service
              (PyStr "token") (Some "1.2.3.4") eq_refl ltac:(discriminate))
    as (valid & msg & Hout & _ & Hiff).
  intros Hhuman. apply Hiff in Hhuman. subst valid. discriminate Hout.
Defined.

(** X7. With a token and a configured secret the verification makes
    exactly one request, to the configured URL; the request carries the
    secret and the token, and the client address exactly when one is
    given and is not empty. *)
Theorem attestation_posts_secret_token_and_address (env : Env)
    (self : ProtectionService) (token : pyval) (user_ip : option string) :
  truthy token = true ->
  recaptcha_secret self <> "" ->
  exists data,
    trace (run env (verify_recaptcha token user_ip) self)
    = [ActHttpPost (recaptcha_verify_url self) data]
    /\ dict_get "secret" data = Some (PyStr (recaptcha_secret self))
    /\ dict_get "response" data = Some token
    /\ dict_get "remoteip" data
       = match user_ip with
         | Some ip => if String.eqb ip "" then None else Some (PyStr ip)
         | None => None
         end.
Proof.
  intros Htoken Hsecret. unfold run.
  destruct (verify_recaptcha_posts env self token user_ip 0 [] Htoken Hsecret)
    as (verdict & -> & _).
  exists (recaptcha_payload self token user_ip). split; [reflexivity|].
  unfold recaptcha_payload.
  destruct user_ip as [ip|]; cbn [truthy]; [destruct (String.eqb ip "")|];
    cbn [negb]; repeat split.
Qed.

Lemma attestation_posts_secret_token_and_address_witness :
  truthy (PyStr "token") = true
  /\ recaptcha_secret guarded_service <> ""
  /\ exists data,
       trace (run low_score_env (verify_recaptcha (PyStr "token") (Some "1.2.3.4"))
                guarded_service)
       = [ActHttpPost "https://www.google.com/recaptcha/api/siteverify" data]
       /\ dict_get "secret" data = Some (PyStr "s3cret")
       /\ dict_get "response" data = Some (PyStr "token")
       /\ dict_get "remoteip" data = Some (PyStr "1.2.3.4").
Proof.
  split; [reflexivity|]. split; [discriminate|].
  apply (attestation_posts_secret_token_and_address low_score_env guarded_service
           (PyStr "token") (Some "1.2.3.4") eq_refl ltac:(discriminate)).
Defined.

(** ** The review pipeline *)

Section ReviewCases.
Context `{rt : Runtime}.
Variable settings : Settings.
Variable env : Env.

(** The three ways a review can go, with the window each leaves. *)
Lemma validate_review_cases (self : ProtectionService)
    (form_data : gmap string pyval) (request_ip : string) :
  let r := run env (validate_review settings form_data request_ip) self in
  let now := clock env 0 in
  let before := review_window self request_ip in
  let pruned := popleft_while_older (now - 86400) before in
  (~ passes_attestation env self form_data request_ip
   /\ final_self r = self
   /\ exists msg, outcome r = Returned (false, "CAPTCHA: " ++ msg))
  \/ (passes_attestation env self form_data request_ip
      /\ ~ under_limit 86400 (reviews_per_day settings) now before
      /\ review_window (final_self r) request_ip = pruned
      /\ _price_reports (final_self r) = _price_reports self
      /\ exists msg, outcome r = Returned (false, "Rate limit: " ++ msg))
  \/ (passes_attestation env self form_data request_ip
      /\ under_limit 86400 (reviews_per_day settings) now before
      /\ review_window (final_self r) request_ip = (pruned ++ [now])%list
      /\ _price_reports (final_self r) = _price_reports self
      /\ outcome r
         = match py_strip (default (PyStr "") (form_data !! "name")),
                 py_strip (default (PyStr "") (form_data !! "comment")) with
           | inl e, _ => Raised e
           | inr _, inl e => Raised e
           | inr name, inr comment =>
               if (len name <? 2)%nat then
                 Returned (false, "Nombre muy corto (mínimo 2 caracteres)")
               else if (len comment <? 10)%nat then
                 Returned (false, "Comentario muy corto (mínimo 10 caracteres)")
               else
                 match py_int (default PyNone (form_data !! "rating")) with
                 | inl _ => Returned (false, "Calificación inválida")
                 | inr rating_int =>
                     if negb ((1 <=? rating_int)%Z && (rating_int <=? 5)%Z) then
                       Returned (false, "Calificación debe estar entre 1 y 5")
                     else Returned (true, "Todas las validaciones pasaron")
                 end
           end).
Proof.
  intros r now before pruned. subst r. unfold passes_attestation, run.
  rewrite validate_review_run. cbv zeta.
  destruct (verify_recaptcha_frame env
              (default PyNone (form_data !! "g-recaptcha-response"))
              (Some request_ip) self 0 []) as ([valid msg] & posts & -> & _).
  cbn [outcome final_self ticks trace].
  destruct valid.
  2:{ left. split; [intros [m [=]]|]. split; [reflexivity|]. eexists; reflexivity. }
  right. rewrite check_review_rate_limit_run. cbv zeta.
  fold (review_window self request_ip). fold before. fold now. fold pruned.
  unfold under_limit. fold pruned.
  destruct (Z.leb_spec (reviews_per_day settings) (Z.of_nat (length pruned)))
    as [Hfull|Hroom]; cbn [outcome final_self ticks trace].
  - left. split; [eexists; reflexivity|]. split; [lia|]. split; [|split].
    + unfold review_window, window_of. cbn [set_reviews _reviews].
      rewrite lookup_insert_eq. reflexivity.
    + reflexivity.
    + eexists; reflexivity.
  - right. split; [eexists; reflexivity|]. split; [lia|]. split; [|split].
    + unfold review_window, window_of. cbn [set_reviews _reviews].
      rewrite lookup_insert_eq. reflexivity.
    + reflexivity.
    + reflexivity.
Qed.
End ReviewCases.

(** X8. A review is accepted exactly when it passes attestation, the
    review limiter admits it, and its content is acceptable: [name] and
    [comment] are strings of at least 2 and 10 characters after
    stripping, and [rating] converts to an integer from 1 to 5. The
    lengths count characters, not bytes, and stripping removes the white
    space of Unicode: the nine characters of "Está bien" are too few for
    a comment. *)
Theorem review_accepted_iff `{rt : Runtime} (settings : Settings) (env : Env)
    (self : ProtectionService) (form_data : gmap string pyval) (request_ip : string) :
  outcome (run env (validate_review settings form_data request_ip) self)
  = Returned (true, "Todas las validaciones pasaron")
  <-> passes_attestation env self form_data request_ip
      /\ under_limit 86400 (reviews_per_day settings) (clock env 0)
           (review_window self request_ip)
      /\ review_content_ok form_data.
Proof.
  pose proof (validate_review_cases settings env self form_data request_ip) as Hcases.
  cbv zeta in Hcases.
  destruct Hcases
    as [(Hno & _ & msg0 & Hout)
       |[(Hpass & Hfull & _ & _ & msg0 & Hout)|(Hpass & Hroom & _ & _ & Hout)]].
  - rewrite Hout. split; [discriminate|]. intros [Hpass _]. contradiction.
  - rewrite Hout. split; [discriminate|]. intros (_ & Hroom & _). contradiction.
  - rewrite Hout. unfold review_content_ok. split.
    + intros Hok. split; [exact Hpass|]. split; [exact Hroom|].
      destruct (form_data !! "name") as [[| | | |name|]|];
        destruct (form_data !! "comment") as [[| | | |comment|]|];
        cbn [default from_option id py_strip] in Hok; try discriminate.
      * destruct (Nat.ltb_spec (len (strip name)) 2); [discriminate|].
        destruct (Nat.ltb_spec (len (strip comment)) 10); [discriminate|].
        destruct (form_data !! "rating") as [v|];
          cbn [default from_option id] in Hok; [|discriminate].
        destruct (py_int v) as [e|rating] eqn:Hint; [discriminate|].
        destruct (Z.leb_spec 1 rating); destruct (Z.leb_spec rating 5);
          cbn [andb negb] in Hok; try discriminate.
        exists name, comment, v, rating. repeat split; try assumption; reflexivity.
      * destruct (Nat.ltb_spec (len (strip name)) 2); [discriminate|].
        cbn in Hok. discriminate.
    + intros (_ & _ & name & comment & v & rating & -> & -> & -> & Hint & Hn & Hc & Hlo & Hhi).
      cbn [default from_option id py_strip]. rewrite Hint.
      destruct (Nat.ltb_spec (len (strip name)) 2); [lia|].
      destruct (Nat.ltb_spec (len (strip comment)) 10); [lia|].
      destruct (Z.leb_spec 1 rating); [|lia]. destruct (Z.leb_spec rating 5); [|lia].
      reflexivity.
Qed.

Lemma review_accepted_iff_witness :
  let rt := DecimalRuntime.runtime in
  let accented := <["comment" := PyStr "Está bien"]> sample_review in
  passes_attestation sample_env (init default_settings) sample_review "1.2.3.4"
  /\ under_limit 86400 (reviews_per_day default_settings) (clock sample_env 0)
       (review_window (init default_settings) "1.2.3.4")
  /\ review_content_ok sample_review
  /\ outcome (run sample_env (validate_review default_settings sample_review "1.2.3.4")
                (init default_settings))
     = Returned (true, "Todas las validaciones pasaron")
  /\ ~ review_content_ok accented
  /\ outcome (run sample_env (validate_review default_settings accented "1.2.3.4")
                (init default_settings))
     <> Returned (true, "Todas las validaciones pasaron").
Proof.
  cbv zeta.
  assert (Hpass : passes_attestation sample_env (init default_settings) sample_review
                    "1.2.3.4") by (exists "Bypassed in development"; reflexivity).
  assert (Hroom : under_limit 86400 (reviews_per_day default_settings) (clock sample_env 0)
                    (review_window (init default_settings) "1.2.3.4"))
    by (vm_compute; reflexivity).
  assert (Hcontent : review_content_ok (rt := DecimalRuntime.runtime) sample_review).
  { exists " Ana ", "Buen servicio y precios", (PyInt 5), 5%Z.
    repeat split; try reflexivity; vm_compute; try discriminate; lia. }
  assert (Hshort : ~ review_content_ok (rt := DecimalRuntime.runtime)
                       (<["comment" := PyStr "Está bien"]> sample_review)).
  { intros (name & comment & v & rating & _ & Hcomment & _ & _ & _ & Hlen & _).
    rewrite lookup_insert_eq in Hcomment. injection Hcomment as <-.
    vm_compute in Hlen. lia. }
  split; [exact Hpass|]. split; [exact Hroom|]. split; [exact Hcontent|].
  split; [|split; [exact Hshort|]].
  - apply (review_accepted_iff (rt := DecimalRuntime.runtime) default_settings sample_env
             (init default_settings) sample_review "1.2.3.4").
    split; [exact Hpass|]. split; [exact Hroom|exact Hcontent].
  - intros Haccepted.
    apply (review_accepted_iff (rt := DecimalRuntime.runtime) default_settings sample_env
             (init default_settings) (<["comment" := PyStr "Está bien"]> sample_review)
             "1.2.3.4") in Haccepted.
    destruct Haccepted as (_ & _ & Hok). exact (Hshort Hok).
Defined.

(** The instance a review leaves when the rate limiter rejects it: the
    window of the identity pruned, everything else as it was. *)
Lemma rate_limited_review_state `{rt : Runtime} (settings : Settings) (env : Env)
    (self : ProtectionService) (form_data : gmap string pyval) (request_ip : string) :
  passes_attestation env self form_data request_ip ->
  ~ under_limit 86400 (reviews_per_day settings) (clock env 0)
      (review_window self request_ip) ->
  final_self (run env (validate_review settings form_data request_ip) self)
  = set_reviews self
      (<[request_ip := popleft_while_older (clock env 0 - 86400)
                         (review_window self request_ip)]> (_reviews self)).
Proof.
  intros [m Hpass] Hfull. revert Hpass. unfold run.
  rewrite validate_review_run. cbv zeta.
  destruct (verify_recaptcha_frame env
              (default PyNone (form_data !! "g-recaptcha-response"))
              (Some request_ip) self 0 []) as ([valid msg] & posts & -> & _).
  cbn [outcome final_self ticks trace]. intros [= -> ->].
  rewrite check_review_rate_limit_run. cbv zeta.
  unfold under_limit, review_window in Hfull. unfold review_window.
  destruct (Z.leb_spec (reviews_per_day settings)
              (Z.of_nat (length (popleft_while_older (clock env 0 - 86400)
                                   (window_of (_reviews self) request_ip)))))
    as [_|Hroom]; [|contradiction].
  reflexivity.
Qed.

(** X9. A review consumes a slot of the review window exactly when it
    passes attestation and the review limiter admits it; in particular a
    review rejected for its content (short name, short comment, bad
    rating) has consumed a slot, one rejected at attestation leaves the
    instance unchanged, and one rejected by the limiter leaves the
    window of its identity as the pruned window, with no entry appended,
    and the rest of the instance unchanged. *)
Theorem review_slot_consumed_iff_attested_and_admitted `{rt : Runtime}
    (settings : Settings) (env : Env) (self : ProtectionService)
    (form_data : gmap string pyval) (request_ip : string) :
  let r := run env (validate_review settings form_data request_ip) self in
  let now := clock env 0 in
  let before := review_window self request_ip in
  let after := review_window (final_self r) request_ip in
  (slot_consumed 86400 now before after
   <-> passes_attestation env self form_data request_ip
       /\ under_limit 86400 (reviews_per_day settings) now before)
  /\ (~ passes_attestation env self form_data request_ip -> final_self r = self)
  /\ (forall msg,
        In msg ["Nombre muy corto (mínimo 2 caracteres)";
                "Comentario muy corto (mínimo 10 caracteres)";
                "Calificación inválida";
                "Calificación debe estar entre 1 y 5"] ->
        outcome r = Returned (false, msg) ->
        slot_consumed 86400 now before after)
  /\ (passes_attestation env self form_data request_ip ->
      ~ under_limit 86400 (reviews_per_day settings) now before ->
      final_self r
      = set_reviews self
          (<[request_ip := popleft_while_older (now - 86400) before]> (_reviews self))
      /\ after = popleft_while_older (now - 86400) before
      /\ (length after <= length before)%nat).
Proof.
  intros r now before after. subst r now before after.
  pose proof (validate_review_cases settings env self form_data request_ip) as Hcases.
  cbv zeta in Hcases.
  destruct Hcases
    as [(Hno & Hself & msg0 & Hout)
       |[(Hpass & Hfull & Hwin & _ & msg0 & Hout)|(Hpass & Hroom & Hwin & _ & Hout)]].
  - rewrite Hself. split; [|split; [|split]].
    + split; [|intros [Hpass _]; contradiction].
      intros Hc. exfalso. revert Hc. apply unchanged_not_consumed. reflexivity.
    + intros _. reflexivity.
    + intros msg Hin Hmsg. rewrite Hout in Hmsg.
      destruct Hin as [<-|[<-|[<-|[<-|[]]]]]; discriminate.
    + intros Hpass. contradiction.
  - split; [|split; [|split]].
    + rewrite Hwin. split; [|intros [_ Hroom]; contradiction].
      intros Hc. exfalso. revert Hc. apply pruned_not_consumed.
    + intros Hno. contradiction.
    + intros msg Hin Hmsg. rewrite Hout in Hmsg.
      destruct Hin as [<-|[<-|[<-|[<-|[]]]]]; discriminate.
    + intros _ _. split; [|split].
      * apply rate_limited_review_state; assumption.
      * exact Hwin.
      * rewrite Hwin. apply popleft_length.
  - split; [|split; [|split]].
    + rewrite Hwin. split; [intros _; split; assumption|intros _; reflexivity].
    + intros Hno. contradiction.
    + intros msg _ _. rewrite Hwin. reflexivity.
    + intros _ Hfull. contradiction.
Qed.

Lemma review_slot_consumed_iff_attested_and_admitted_witness :
  let rt := DecimalRuntime.runtime in
  let short := <["name" := PyStr "A"]> sample_review in
  let r := run sample_env (validate_review default_settings short "1.2.3.4")
             (init default_settings) in
  outcome r = Returned (false, "Nombre muy corto (mínimo 2 caracteres)")
  /\ slot_consumed 86400 (clock sample_env 0)
       (review_window (init default_settings) "1.2.3.4")
       (review_window (final_self r) "1.2.3.4")
  /\ passes_attestation sample_env busy_reviewer sample_review "1.2.3.4"
  /\ ~ under_limit 86400 (reviews_per_day default_settings) (clock sample_env 0)
        (review_window busy_reviewer "1.2.3.4")
  /\ review_window
       (final_self (run sample_env (validate_review default_settings sample_review "1.2.3.4")
                      busy_reviewer)) "1.2.3.4"
     = popleft_while_older (clock sample_env 0 - 86400)
         (review_window busy_reviewer "1.2.3.4").
Proof.
  cbv zeta.
  assert (Hout : outcome (run sample_env
                            (validate_review (rt := DecimalRuntime.runtime) default_settings
                               (<["name" := PyStr "A"]> sample_review) "1.2.3.4")
                            (init default_settings))
                 = Returned (false, "Nombre muy corto (mínimo 2 caracteres)"))
    by (vm_compute; reflexivity).
  assert (Hpass : passes_attestation sample_env busy_reviewer sample_review "1.2.3.4")
    by (exists "Bypassed in development"; reflexivity).
  assert (Hfull : ~ under_limit 86400 (reviews_per_day default_settings)
                      (clock sample_env 0) (review_window busy_reviewer "1.2.3.4"))
    by (vm_compute; intros H; discriminate H).
  split; [exact Hout|]. split; [|split; [|split]].
  - destruct (review_slot_consumed_iff_attested_and_admitted (rt := DecimalRuntime.runtime)
                default_settings sample_env (init default_settings)
                (<["name" := PyStr "A"]> sample_review) "1.2.3.4")
      as (_ & _ & Hcontent & _).
    apply (Hcontent "Nombre muy corto (mínimo 2 caracteres)"); [left; reflexivity|exact Hout].
  - exact Hpass.
  - exact Hfull.
  - destruct (review_slot_consumed_iff_attested_and_admitted (rt := DecimalRuntime.runtime)
                default_settings sample_env busy_reviewer sample_review "1.2.3.4")
      as (_ & _ & _ & Hlimited).
    exact (proj1 (proj2 (Hlimited Hpass Hfull))).
Defined.

Lemma validate_price_report_keeps_reviews `{rt : Runtime} (settings : Settings)
    (env : Env) (self : ProtectionService) (form_data : gmap string pyval)
    (request_ip : string) :
  _reviews (final_self (run env (validate_price_report settings form_data request_ip) self))
  = _reviews self.
Proof.
  unfold run. rewrite validate_price_report_run. cbv zeta.
  destruct (verify_recaptcha_frame env
              (default PyNone (form_data !! "g-recaptcha-response"))
              (Some request_ip) self 0 []) as ([valid msg] & posts & -> & _).
  cbn [outcome final_self ticks trace]. destruct valid; [|reflexivity].
  rewrite check_price_report_rate_limit_run. cbv zeta.
  destruct (price_reports_per_hour settings <=? _)%Z;
    cbn [outcome final_self ticks trace]; [reflexivity|].
  destruct (py_float _) as [e|price]; cbn [final_self]; [reflexivity|].
  match goal with
  | |- context [run_from env (validate_price_of_form_value ?f ?p) ?s ?n ?a] =>
      destruct (validate_price_of_form_value_frame env f p s n a) as [result ->]
  end.
  destruct result as [[[[|] price_msg] info]|e]; reflexivity.
Qed.

(** X10. The two quotas are independent: a price report, whatever its
    fate, leaves every review window as it was, and a review leaves
    every price-report window as it was. *)
Theorem pipelines_keep_their_quotas_apart `{rt : Runtime} (settings : Settings)
    (env : Env) (self : ProtectionService) (form_data : gmap string pyval)
    (request_ip : string) :
  _reviews (final_self (run env (validate_price_report settings form_data request_ip) self))
  = _reviews self
  /\ _price_reports (final_self (run env (validate_review settings form_data request_ip) self))
     = _price_reports self.
Proof.
  split; [apply validate_price_report_keeps_reviews|].
  pose proof (validate_review_cases settings env self form_data request_ip) as Hcases.
  cbv zeta in Hcases.
  destruct Hcases as [(_ & -> & _)|[(_ & _ & _ & H & _)|(_ & _ & _ & H & _)]];
    [reflexivity|exact H|exact H].
Qed.

(** X11. A price report whose [fuel_type] is present but is not a string
    does not get a verdict: once past attestation and the rate limiter,
    with a price that converts, the pipeline raises [AttributeError],
    and the slot has been consumed. *)
Theorem non_string_fuel_type_raises_after_slot `{rt : Runtime} (settings : Settings)
    (env : Env) (self : ProtectionService) (form_data : gmap string pyval)
    (request_ip : string) (v : pyval) (price : Q) :
  passes_attestation env self form_data request_ip ->
  under_limit 3600 (price_reports_per_hour settings) (clock env 0)
    (price_window self request_ip) ->
  py_float (default (PyInt 0) (form_data !! "reported_price")) = inr price ->
  form_data !! "fuel_type" = Some v ->
  (forall s, v <> PyStr s) ->
  let r := run env (validate_price_report settings form_data request_ip) self in
  outcome r = Raised AttributeError
  /\ slot_consumed 3600 (clock env 0) (price_window self request_ip)
       (price_window (final_self r) request_ip).
Proof.
  intros [m Hpass] Hroom Hprice Hfuel Hnot r. subst r.
  split.
  - revert Hpass. unfold run. rewrite validate_price_report_run. cbv zeta.
    destruct (verify_recaptcha_frame env
                (default PyNone (form_data !! "g-recaptcha-response"))
                (Some request_ip) self 0 []) as ([valid msg] & posts & -> & _).
    cbn [outcome final_self ticks trace]. intros [= -> ->].
    rewrite check_price_report_rate_limit_run. cbv zeta.
    unfold under_limit, price_window in Hroom.
    destruct (Z.leb_spec (price_reports_per_hour settings)
                (Z.of_nat (length (popleft_while_older (clock env 0 - 3600)
                                     (window_of (_price_reports self) request_ip)))))
      as [Hfull|_]; [lia|].
    cbn [outcome final_self ticks trace]. rewrite Hprice, Hfuel.
    cbn [default from_option id].
    destruct v; try reflexivity. exfalso. eapply Hnot. reflexivity.
  - pose proof (validate_price_report_cases settings env self form_data request_ip)
      as Hcases.
    cbv zeta in Hcases.
    destruct Hcases as [(Hno & _)|[(_ & Hfull & _)|(_ & _ & Hwin & _)]].
    + exfalso. apply Hno. exists m. exact Hpass.
    + contradiction.
    + unfold slot_consumed. exact Hwin.
Qed.

Lemma non_string_fuel_type_raises_after_slot_witness :
  let rt := DecimalRuntime.runtime in
  let form := <["fuel_type" := PyNone]> sample_form in
  passes_attestation sample_env (init default_settings) form "1.2.3.4"
  /\ form !! "fuel_type" = Some PyNone
  /\ outcome (run sample_env (validate_price_report default_settings form "1.2.3.4")
                (init default_settings))
     = Raised AttributeError.
Proof.
  cbv zeta.
  assert (Hpass : passes_attestation sample_env (init default_settings)
                    (<["fuel_type" := PyNone]> sample_form) "1.2.3.4")
    by (exists "Bypassed in development"; reflexivity).
  split; [exact Hpass|]. split; [reflexivity|].
  apply (non_string_fuel_type_raises_after_slot (rt := DecimalRuntime.runtime)
           default_settings sample_env (init default_settings)
           (<["fuel_type" := PyNone]> sample_form) "1.2.3.4" PyNone 40).
  - exact Hpass.
  - vm_compute. reflexivity.
  - reflexivity.
  - reflexivity.
  - intros s. discriminate.
Defined.

(** X12. The computation on the samples raises only in one corner: no
    samples at all with a minimum of zero or less, where
    [statistics.mean] raises [StatisticsError]. In every other case it
    returns a verdict, and under the handler of
    [validate_price_dynamically] it returns a verdict in that corner
    too. *)
Theorem sample_computation_raises_only_without_samples `{rt : Runtime}
    (self : ProtectionService) (fuel_type : string) (price : Q) (prices : list Q) :
  (validate_against_samples self fuel_type price prices = Raise StatisticsError
   <-> prices = [] /\ (min_samples self <= 0)%Z)
  /\ (~ (prices = [] /\ (min_samples self <= 0)%Z) ->
      exists verdict, validate_against_samples self fuel_type price prices = Ret verdict)
  /\ exists verdict,
       try_except (validate_against_samples self fuel_type price prices)
         (fun _ => Ret (_validate_with_fallback self fuel_type price))
       = Ret verdict.
Proof.
  unfold validate_against_samples.
  destruct (Z.ltb_spec (Z.of_nat (length prices)) (min_samples self)) as [Hfew|Henough].
  - split; [|split].
    + split; [discriminate|]. intros [-> Hmin]. simpl in Hfew. lia.
    + intros _. eexists; reflexivity.
    + eexists; reflexivity.
  - destruct prices as [|p ps].
    + cbn [mean lift bind try_except]. split; [|split].
      * split; [intros _; split; [reflexivity|simpl in Henough; lia]|reflexivity].
      * intros Hnot. exfalso. apply Hnot. split; [reflexivity|simpl in Henough; lia].
      * eexists; reflexivity.
    + cbn [mean lift bind].
      destruct (Qle_bool _ price && Qle_bool price _); cbn [try_except];
        (split; [split; [discriminate|intros [[=] _]]|]);
        (split; [intros _|]); eexists; reflexivity.
Qed.

Lemma sample_computation_raises_only_without_samples_witness :
  let rt := DecimalRuntime.runtime in
  ~ ([10; 11]%Q = [] /\ (min_samples (init default_settings) <= 0)%Z)
  /\ exists verdict,
       validate_against_samples (init default_settings) "magna" 20 [10; 11]%Q = Ret verdict.
Proof.
  cbv zeta.
  assert (Hnot : ~ ([10; 11]%Q = [] /\ (min_samples (init default_settings) <= 0)%Z))
    by (intros [[=] _]).
  split; [exact Hnot|].
  destruct (sample_computation_raises_only_without_samples (rt := DecimalRuntime.runtime)
              (init default_settings) "magna" 20 [10; 11]%Q) as (_ & Hret & _).
  apply Hret. exact Hnot.
Defined.

(** X13. For samples with a non-negative mean, the market band contains
    the mean whenever the tolerance is not negative, and a wider
    tolerance accepts every price a narrower one accepts. *)
Theorem market_band_grows_with_tolerance `{rt : Runtime}
    (narrow wide : ProtectionService) (fuel_type : string) (price : Q)
    (prices : list Q) (m : Q) :
  mean prices = Some m ->
  (0 <= m)%Q ->
  (min_samples narrow <= Z.of_nat (length prices))%Z ->
  (min_samples wide <= Z.of_nat (length prices))%Z ->
  (0 <= price_tolerance narrow <= price_tolerance wide)%Q ->
  (exists msg info,
      validate_against_samples narrow fuel_type m prices = Ret (true, msg, info))
  /\ ((exists msg info,
         validate_against_samples narrow fuel_type price prices = Ret (true, msg, info)) ->
      exists msg info,
        validate_against_samples wide fuel_type price prices = Ret (true, msg, info)).
Proof.
  intros Hm Hpos Hn Hw [Htol0 Htol].
  assert (Hne : prices <> []) by (intros ->; discriminate).
  split.
  - destruct (market_band_verdict narrow fuel_type m prices Hn Hne)
      as (m' & msg & info & valid & Hm' & Hrun & Hiff).
    rewrite Hm in Hm'. injection Hm' as <-.
    assert (valid = true) as ->; [|eauto].
    apply Hiff. split; nra.
  - intros (msg1 & info1 & Hrun1).
    destruct (market_band_verdict narrow fuel_type price prices Hn Hne)
      as (m1 & msg & info & valid & Hm1 & Hrun & Hiff).
    rewrite Hm in Hm1. injection Hm1 as <-.
    rewrite Hrun in Hrun1. injection Hrun1 as -> _ _.
    destruct Hiff as [Hband _]. specialize (Hband eq_refl).
    destruct (market_band_verdict wide fuel_type price prices Hw Hne)
      as (m2 & msg2 & info2 & valid2 & Hm2 & Hrun2 & Hiff2).
    rewrite Hm in Hm2. injection Hm2 as <-.
    assert (valid2 = true) as ->; [|eauto].
    apply Hiff2. split; nra.
Qed.

Lemma market_band_grows_with_tolerance_witness :
  let rt := DecimalRuntime.runtime in
  let wide := init default_settings in
  let prices := [10; 10; 10; 10; 10]%Q in
  mean prices = Some (50 / 5)%Q
  /\ (0 <= 50 / 5)%Q
  /\ (min_samples narrow_service <= Z.of_nat (length prices))%Z
  /\ (min_samples wide <= Z.of_nat (length prices))%Z
  /\ (0 <= price_tolerance narrow_service <= price_tolerance wide)%Q
  /\ (price_tolerance narrow_service < price_tolerance wide)%Q
  /\ (exists msg info,
        validate_against_samples narrow_service "magna" (21 # 2) prices
        = Ret (true, msg, info))
  /\ (exists msg info,
        validate_against_samples wide "magna" (21 # 2) prices = Ret (true, msg, info))
  /\ (exists msg info,
        validate_against_samples narrow_service "magna" 11 prices = Ret (false, msg, info))
  /\ (exists msg info,
        validate_against_samples wide "magna" 11 prices = Ret (true, msg, info)).
Proof.
  cbv zeta.
  assert (Hmean : mean [10; 10; 10; 10; 10]%Q = Some (50 / 5)%Q) by reflexivity.
  assert (Hpos : (0 <= 50 / 5)%Q) by (vm_compute; discriminate).
  assert (Hnarrow : (min_samples narrow_service
                     <= Z.of_nat (length [10; 10; 10; 10; 10]%Q))%Z)
    by (vm_compute; discriminate).
  assert (Hwide : (min_samples (init default_settings)
                   <= Z.of_nat (length [10; 10; 10; 10; 10]%Q))%Z)
    by (vm_compute; discriminate).
  assert (Htol : (0 <= price_tolerance narrow_service
                  <= price_tolerance (init default_settings))%Q)
    by (split; vm_compute; discriminate).
  assert (Haccepted : exists msg info,
             validate_against_samples (rt := DecimalRuntime.runtime) narrow_service
               "magna" (21 # 2) [10; 10; 10; 10; 10]%Q
             = Ret (true, msg, info))
    by (eexists _, _; vm_compute; reflexivity).
  split; [exact Hmean|]. split; [exact Hpos|]. split; [exact Hnarrow|].
  split; [exact Hwide|]. split; [exact Htol|]. split; [reflexivity|].
  split; [exact Haccepted|]. split; [|split].
  - destruct (market_band_grows_with_tolerance (rt := DecimalRuntime.runtime)
                narrow_service (init default_settings) "magna" (21 # 2)
                [10; 10; 10; 10; 10]%Q (50 / 5)%Q Hmean Hpos Hnarrow Hwide Htol)
      as [_ Hgrows].
    exact (Hgrows Haccepted).
  - eexists _, _. vm_compute. reflexivity.
  - eexists _, _. vm_compute. reflexivity.
Defined.

(** ** The models *)

Lemma age_hours_monotone (created now later : Q) :
  (now <= later)%Q -> ((now - created) / 3600 <= (later - created) / 3600)%Q.
Proof.
  intros Hle. unfold Qdiv. apply Qmult_le_compat_r; [lra|].
  apply Qlt_le_weak, Qinv_lt_0_compat. reflexivity.
Qed.

(** X14. At one reading of the clock, a price is fresh exactly when its
    freshness score is at least 0.7; the score never increases as time
    passes; and both methods fail only on a row without creation time. *)
Theorem fresh_iff_score_at_least_07 (now later : Q) (self : GasPrice.t) :
  (now <= later)%Q ->
  (GasPrice.is_fresh now self = inr true
   <-> exists score, GasPrice.get_freshness_score now self = inr score /\ (7 # 10 <= score)%Q)
  /\ (forall s1 s2,
        GasPrice.get_freshness_score now self = inr s1 ->
        GasPrice.get_freshness_score later self = inr s2 ->
        (s2 <= s1)%Q)
  /\ (GasPrice.created_at self = None
      <-> GasPrice.get_freshness_score now self = inl TypeError)
  /\ (GasPrice.created_at self = None <-> GasPrice.is_fresh now self = inl TypeError).
Proof.
  intros Hle.
  unfold GasPrice.is_fresh, GasPrice.get_freshness_score, GasPrice.calculate_age_hours.
  destruct (GasPrice.created_at self) as [created|].
  2:{ split; [|split; [|split]].
      - split; [discriminate|]. intros (score & [=] & _).
      - intros s1 s2 [=].
      - split; reflexivity.
      - split; reflexivity. }
  pose proof (age_hours_monotone created now later Hle) as Hage.
  set (a := ((now - created) / 3600)%Q) in *.
  set (b := ((later - created) / 3600)%Q) in *.
  split; [|split; [|split]].
  - split.
    + intros [= H24]. apply Qle_bool_iff in H24. eexists. split; [reflexivity|].
      destruct (Qle_bool a 1); [lra|].
      destruct (Qle_bool a 6); [lra|].
      destruct (Qle_bool a 24) eqn:E; [lra|].
      apply Qle_bool_iff in H24. congruence.
    + intros (score & [= <-] & Hs). f_equal.
      destruct (Qle_bool a 1) eqn:E1; [apply Qle_bool_iff in E1; apply Qle_bool_iff; lra|].
      destruct (Qle_bool a 6) eqn:E6; [apply Qle_bool_iff in E6; apply Qle_bool_iff; lra|].
      destruct (Qle_bool a 24) eqn:E24; [reflexivity|].
      exfalso.
      destruct (Qle_bool a 48); [lra|].
      destruct (Qle_bool a 168); lra.
  - intros s1 s2 [= <-] [= <-].
    assert (Hspec : forall x y, if Qle_bool x y then (x <= y)%Q else (~ x <= y)%Q).
    { intros x y. destruct (Qle_bool x y) eqn:E.
      - apply Qle_bool_iff. exact E.
      - intros H. apply Qle_bool_iff in H. congruence. }
    pose proof (Hspec a 1%Q) as A1. pose proof (Hspec a 6%Q) as A6.
    pose proof (Hspec a 24%Q) as A24. pose proof (Hspec a 48%Q) as A48.
    pose proof (Hspec a 168%Q) as A168.
    pose proof (Hspec b 1%Q) as B1. pose proof (Hspec b 6%Q) as B6.
    pose proof (Hspec b 24%Q) as B24. pose proof (Hspec b 48%Q) as B48.
    pose proof (Hspec b 168%Q) as B168.
    destruct (Qle_bool a 1), (Qle_bool a 6), (Qle_bool a 24), (Qle_bool a 48),
      (Qle_bool a 168), (Qle_bool b 1), (Qle_bool b 6), (Qle_bool b 24),
      (Qle_bool b 48), (Qle_bool b 168); lra.
  - split; discriminate.
  - split; discriminate.
Qed.

Lemma fresh_iff_score_at_least_07_witness :
  (1700000000 <= 1700003600)%Q
  /\ GasPrice.is_fresh 1700000000 recent_price = inr true
  /\ GasPrice.get_freshness_score 1700000000 recent_price = inr 1%Q
  /\ GasPrice.get_freshness_score 1700003600 recent_price = inr (9 # 10)%Q
  /\ (9 # 10 <= 1)%Q.
Proof.
  assert (Hle : (1700000000 <= 1700003600)%Q) by (vm_compute; discriminate).
  assert (H1 : GasPrice.get_freshness_score 1700000000 recent_price = inr 1%Q)
    by reflexivity.
  assert (H2 : GasPrice.get_freshness_score 1700003600 recent_price = inr (9 # 10)%Q)
    by reflexivity.
  destruct (fresh_iff_score_at_least_07 1700000000 1700003600 recent_price Hle)
    as (Hfresh & Hmono & _).
  split; [exact Hle|]. split.
  - apply Hfresh. exists 1%Q. split; [exact H1|]. vm_compute. discriminate.
  - split; [exact H1|]. split; [exact H2|]. exact (Hmono _ _ H1 H2).
Defined.

(** X15. A review counts as recent exactly while fewer than 31 whole
    days have passed since its creation: the age in days is rounded
    down before it is compared with 30. *)
Theorem recent_iff_less_than_31_days (now : Q) (self : GasStationReview.t) :
  (GasStationReview.is_recent now self = inr true
   <-> exists created,
         GasStationReview.created_at self = Some created
         /\ (now - created < 31 * 86400)%Q)
  /\ (GasStationReview.is_recent now self = inr false
      <-> exists created,
            GasStationReview.created_at self = Some created
            /\ (31 * 86400 <= now - created)%Q).
Proof.
  unfold GasStationReview.is_recent, GasStationReview.calculate_age_days.
  destruct (GasStationReview.created_at self) as [created|].
  2:{ split; (split; [discriminate|intros (c & [=] & _)]). }
  set (x := ((now - created) / 86400)%Q).
  assert (Hx : (now - created == x * 86400)%Q) by (unfold x; field).
  assert (Hfloor : (Qfloor x <= 30)%Z <-> (x < 31)%Q).
  { split.
    - intros Hle. pose proof (Qlt_floor x) as Hlt.
      assert (inject_Z (Qfloor x + 1) <= inject_Z 31)%Q
        by (rewrite <- Zle_Qle; lia).
      change (inject_Z 31) with 31%Q in *. lra.
    - intros Hlt. pose proof (Qfloor_le x) as Hle.
      assert (inject_Z (Qfloor x) < inject_Z 31)%Q
        by (change (inject_Z 31) with 31%Q; lra).
      rewrite <- Zlt_Qlt in H. lia. }
  split; split.
  - intros Heq. destruct (Z.leb_spec (Qfloor x) 30) as [Hle|Hgt]; [|discriminate].
    exists created. split; [reflexivity|]. apply Hfloor in Hle. lra.
  - intros (c & [= <-] & Hlt). f_equal. apply Z.leb_le, Hfloor. lra.
  - intros Heq. destruct (Z.leb_spec (Qfloor x) 30) as [Hle|Hgt]; [discriminate|].
    exists created. split; [reflexivity|].
    destruct (Qlt_le_dec x 31) as [Hlt|Hge]; [apply Hfloor in Hlt; lia|]. lra.
  - intros (c & [= <-] & Hge). f_equal. apply Z.leb_gt.
    destruct (Z_lt_le_dec 30 (Qfloor x)) as [Hgt|Hle]; [exact Hgt|].
    apply Hfloor in Hle. lra.
Qed.

(** X16. A report is processed at most once: a call succeeds exactly on
    a pending report, marks it processed at the clock reading and leaves
    its other columns alone; any further call returns [False] and changes
    nothing. *)
Theorem report_processed_at_most_once (now later : Q) (self : UserPriceReport.t) :
  let first := UserPriceReport.process_report now self in
  (fst first = true <-> UserPriceReport.status self = Some "pending")
  /\ (fst first = true ->
      UserPriceReport.status (snd first) = Some "processed"
      /\ UserPriceReport.processed_at (snd first) = Some now
      /\ UserPriceReport.reported_price (snd first) = UserPriceReport.reported_price self
      /\ UserPriceReport.fuel_type (snd first) = UserPriceReport.fuel_type self)
  /\ (fst first = false -> snd first = self)
  /\ UserPriceReport.process_report later (snd first) = (false, snd first).
Proof.
  cbv zeta. unfold UserPriceReport.process_report.
  destruct (UserPriceReport.status self) as [s|] eqn:Hs.
  - destruct (String.eqb_spec s "pending") as [->|Hne]; cbn.
    + repeat split; try reflexivity; discriminate.
    + rewrite Hs. destruct (String.eqb_spec s "pending") as [->|_]; [contradiction|].
      cbn. repeat split; try reflexivity; try discriminate.
      intros [= ->]. contradiction.
  - cbn. rewrite Hs. cbn. repeat split; try reflexivity; discriminate.
Qed.

Lemma report_processed_at_most_once_witness :
  let first := UserPriceReport.process_report 1700000000 pending_report in
  fst first = true
  /\ UserPriceReport.status (snd first) = Some "processed"
  /\ UserPriceReport.process_report 1700000060 (snd first) = (false, snd first).
Proof.
  cbv zeta.
  destruct (report_processed_at_most_once 1700000000 1700000060 pending_report)
    as (Hiff & Hdone & _ & Hagain).
  assert (Hok : fst (UserPriceReport.process_report 1700000000 pending_report) = true)
    by (apply Hiff; reflexivity).
  split; [exact Hok|]. split; [exact (proj1 (Hdone Hok))|exact Hagain].
Defined.

(** X17. A station answers only for magna, premium and diesel, in any
    letter case; so every fuel type a station sells has a range in the
    default fallback table, and the fallback validation of a price for
    it is decided by that range. *)
Theorem sold_fuel_types_have_default_ranges `{rt : Runtime} (station : GasStation.t)
    (fuel_type : string) (price : Q) :
  GasStation.has_fuel_type station fuel_type = true ->
  In (lower fuel_type) ["magna"; "premium"; "diesel"]
  /\ GasStation.has_fuel_type station (lower fuel_type) = true
  /\ exists ranges,
       fallback_ranges (init default_settings) !! lower fuel_type = Some ranges
       /\ ((_validate_with_fallback (init default_settings) fuel_type price).1.1 = true
           <-> (range_min ranges <= price /\ price <= range_max ranges)%Q).
Proof.
  intros Hsold.
  pose proof (fallback_verdict (init default_settings) fuel_type price) as Hverdict.
  unfold GasStation.has_fuel_type in *. cbv zeta in *. rewrite lower_idempotent.
  cbn [init fallback_ranges default_settings fallback_price_ranges] in *.
  set (k := lower fuel_type) in *.
  destruct (decide (k = "magna")) as [Hk|Hmagna].
  { rewrite Hk in *. rewrite lookup_insert_eq in Hverdict.
    split; [left; reflexivity|]. split; [exact Hsold|].
    eexists. rewrite lookup_insert_eq. split; [reflexivity|exact Hverdict]. }
  destruct (decide (k = "premium")) as [Hk|Hpremium].
  { rewrite Hk in *.
    rewrite lookup_insert_ne, lookup_insert_eq in Hverdict by discriminate.
    split; [right; left; reflexivity|]. split; [exact Hsold|].
    eexists. rewrite lookup_insert_ne, lookup_insert_eq by discriminate.
    split; [reflexivity|exact Hverdict]. }
  destruct (decide (k = "diesel")) as [Hk|Hdiesel].
  { rewrite Hk in *.
    rewrite !lookup_insert_ne, lookup_insert_eq in Hverdict by discriminate.
    split; [right; right; left; reflexivity|]. split; [exact Hsold|].
    eexists. rewrite !lookup_insert_ne, lookup_insert_eq by discriminate.
    split; [reflexivity|exact Hverdict]. }
  rewrite !lookup_insert_ne, lookup_empty in Hsold by congruence.
  discriminate.
Qed.

Lemma sold_fuel_types_have_default_ranges_witness :
  let rt := DecimalRuntime.runtime in
  GasStation.has_fuel_type sample_station "Magna" = true
  /\ In (lower "Magna") ["magna"; "premium"; "diesel"]
  /\ exists ranges,
       fallback_ranges (init default_settings) !! lower "Magna" = Some ranges
       /\ ((_validate_with_fallback (init default_settings) "Magna" 16).1.1 = true
           <-> (range_min ranges <= 16 /\ 16 <= range_max ranges)%Q).
Proof.
  cbv zeta.
  assert (Hsold : GasStation.has_fuel_type sample_station "Magna" = true)
    by reflexivity.
  split; [exact Hsold|].
  destruct (sold_fuel_types_have_default_ranges (rt := DecimalRuntime.runtime)
              _ "Magna" 16%Q Hsold) as (Hin & _ & Hrange).
  split; [exact Hin|exact Hrange].
Defined.

(** ** The endpoints' dictionaries *)

Ltac form_lookup :=
  repeat first
    [ rewrite lookup_insert_eq
    | rewrite lookup_insert_ne by discriminate
    | rewrite lookup_empty ].

Lemma report_price_form_data_lookups (gas_station_id fuel_type : string) (reported_price : Q)
    (comments : option string) (pump_number : option Z)
    (reporter_name captcha_token : option string) :
  let form_data := report_price_form_data gas_station_id fuel_type reported_price
                     comments pump_number reporter_name captcha_token in
  form_data !! "gas_station_id" = Some (PyStr gas_station_id)
  /\ form_data !! "fuel_type" = Some (PyStr fuel_type)
  /\ form_data !! "reported_price" = Some (PyFloat reported_price)
  /\ form_data !! "comments" = Some (optional PyStr comments)
  /\ form_data !! "pump_number" = Some (optional PyInt pump_number)
  /\ form_data !! "reporter_name" = Some (optional PyStr reporter_name)
  /\ form_data !! "g-recaptcha-response" = Some (optional PyStr captcha_token).
Proof.
  cbv zeta. unfold report_price_form_data. repeat split; form_lookup; reflexivity.
Qed.

Lemma create_review_form_data_lookups (gas_station_id name : string) (rating : Z)
    (comment : string) (title captcha_token : option string) :
  let form_data := create_review_form_data gas_station_id name rating comment title
                     captcha_token in
  form_data !! "gas_station_id" = Some (PyStr gas_station_id)
  /\ form_data !! "name" = Some (PyStr name)
  /\ form_data !! "rating" = Some (PyInt rating)
  /\ form_data !! "comment" = Some (PyStr comment)
  /\ form_data !! "title" = Some (optional PyStr title)
  /\ form_data !! "g-recaptcha-response" = Some (optional PyStr captcha_token).
Proof.
  cbv zeta. unfold create_review_form_data. repeat split; form_lookup; reflexivity.
Qed.

(** X18. On the dictionary [report_price] builds, the report constructor
    raises [AttributeError] exactly when the reporter's name or the
    comments were left out; when both are given it returns a new report
    with the fuel type in lower case, the reported price, and the two
    texts stripped, blank ones stored as [None]. *)
Theorem report_record_needs_both_optional_texts `{rt : Runtime}
    (gas_station_id fuel_type : string) (reported_price : Q)
    (comments : option string) (pump_number : option Z)
    (reporter_name captcha_token : option string) (request_info : gmap string string) :
  let form_data := report_price_form_data gas_station_id fuel_type reported_price
                     comments pump_number reporter_name captcha_token in
  (UserPriceReport.create_from_form_data form_data request_info = Raise AttributeError
   <-> reporter_name = None \/ comments = None)
  /\ (forall name text,
        reporter_name = Some name ->
        comments = Some text ->
        UserPriceReport.create_from_form_data form_data request_info
        = Ret {| UserPriceReport.gas_station_id := PyStr gas_station_id;
                 UserPriceReport.fuel_type := lower fuel_type;
                 UserPriceReport.reported_price := reported_price;
                 UserPriceReport.reporter_ip := request_info !! "ip";
                 UserPriceReport.reporter_name := or_none (strip name);
                 UserPriceReport.comments := or_none (strip text);
                 UserPriceReport.pump_number := optional PyInt pump_number;
                 UserPriceReport.status := None;
                 UserPriceReport.processed_at := None |}).
Proof.
  cbv zeta.
  destruct (report_price_form_data_lookups gas_station_id fuel_type reported_price
              comments pump_number reporter_name captcha_token)
    as (Hid & Hfuel & Hprice & Hcomments & Hpump & Hname & _).
  cbv zeta in *. unfold UserPriceReport.create_from_form_data.
  rewrite Hid, Hfuel, Hprice, Hcomments, Hpump, Hname.
  cbn [default from_option id py_lower py_float py_strip lift bind optional].
  split.
  - destruct reporter_name as [name|], comments as [text|];
      cbn [default from_option id py_lower py_float py_strip lift bind optional];
      split; try discriminate; try (intros [?|?]; discriminate); auto.
  - intros name text -> ->.
    cbn [default from_option id py_lower py_float py_strip lift bind optional].
    reflexivity.
Qed.

Lemma report_record_needs_both_optional_texts_witness :
  let rt := DecimalRuntime.runtime in
  UserPriceReport.create_from_form_data
    (report_price_form_data "station-1" "Magna" 23 None None (Some "Ana") (Some "token"))
    {[ "ip" := "1.2.3.4" ]}
  = Raise AttributeError.
Proof.
  cbv zeta.
  destruct (report_record_needs_both_optional_texts (rt := DecimalRuntime.runtime)
              "station-1" "Magna" 23 None None (Some "Ana") (Some "token")
              {[ "ip" := "1.2.3.4" ]}) as [Hraise _].
  apply Hraise. right. reflexivity.
Defined.

(** X19. On the dictionary [report_price] builds, the price-report
    pipeline always returns a verdict: it never raises, it never answers
    "Precio inválido", and it accepts only with the message of the last
    gate. *)
Theorem report_price_form_always_gets_a_verdict `{rt : Runtime} (settings : Settings)
    (env : Env) (self : ProtectionService)
    (gas_station_id fuel_type : string) (reported_price : Q)
    (comments : option string) (pump_number : option Z)
    (reporter_name captcha_token : option string) (request_ip : string) :
  let form_data := report_price_form_data gas_station_id fuel_type reported_price
                     comments pump_number reporter_name captcha_token in
  exists (ok : bool) (reason : string),
    outcome (run env (validate_price_report settings form_data request_ip) self)
    = Returned (ok, reason)
    /\ reason <> "Precio inválido"
    /\ (ok = true <-> reason = "Todas las validaciones pasaron").
Proof.
  cbv zeta.
  destruct (report_price_form_data_lookups gas_station_id fuel_type reported_price
              comments pump_number reporter_name captcha_token)
    as (_ & Hfuel & Hprice & _ & _ & _ & _).
  cbv zeta in *. unfold run. rewrite validate_price_report_run. cbv zeta.
  rewrite Hfuel, Hprice.
  match goal with
  | |- context [run_from env (verify_recaptcha ?t ?u) self 0 []] =>
      destruct (verify_recaptcha_frame env t u self 0 []) as ([valid msg] & posts & -> & _)
  end.
  cbn [outcome final_self ticks trace].
  destruct valid.
  2:{ exists false, ("CAPTCHA: " ++ msg). split; [reflexivity|].
      split; [cbn; discriminate|]. split; [discriminate|cbn; discriminate]. }
  rewrite check_price_report_rate_limit_run. cbv zeta.
  destruct (price_reports_per_hour settings <=? _)%Z; cbn [outcome final_self ticks trace].
  { eexists false, _. split; [reflexivity|].
    split; [cbn; discriminate|]. split; [discriminate|cbn; discriminate]. }
  cbn [default from_option id py_float validate_price_of_form_value].
  rewrite validate_price_dynamically_run. cbn [outcome final_self ticks trace].
  destruct (_validate_with_fallback _ fuel_type reported_price) as [[[|] price_msg] info].
  - exists true, "Todas las validaciones pasaron". split; [reflexivity|].
    split; [discriminate|]. split; reflexivity.
  - exists false, ("Precio: " ++ price_msg). split; [reflexivity|].
    split; [cbn; discriminate|]. split; [discriminate|cbn; discriminate].
Qed.

(** X20. On the dictionary [create_review] builds, the review
    constructor raises [AttributeError] exactly when the title was left
    out; with a title, a review whose content the pipeline accepts is
    built with a name of at least two characters, a comment of at least
    ten, a rating from 1 to 5, the title stripped (blank stored as
    [None]) and the status approved. *)
Theorem review_record_needs_a_title `{rt : Runtime}
    (gas_station_id name : string) (rating : Z) (comment : string)
    (title captcha_token : option string) (request_info : gmap string string) :
  let form_data := create_review_form_data gas_station_id name rating comment title
                     captcha_token in
  (GasStationReview.create_from_form_data form_data request_info = Raise AttributeError
   <-> title = None)
  /\ (forall text,
        title = Some text ->
        review_content_ok form_data ->
        exists review,
          GasStationReview.create_from_form_data form_data request_info = Ret review
          /\ (2 <= len (GasStationReview.reviewer_name review))%nat
          /\ (10 <= len (GasStationReview.comment review))%nat
          /\ (1 <= GasStationReview.rating review <= 5)%Z
          /\ GasStationReview.title review = or_none (strip text)
          /\ GasStationReview.status review = Some "approved"
          /\ GasStationReview.reviewer_ip review = request_info !! "ip").
Proof.
  cbv zeta.
  destruct (create_review_form_data_lookups gas_station_id name rating comment title
              captcha_token) as (Hid & Hname & Hrating & Hcomment & Htitle & _).
  cbv zeta in *. unfold GasStationReview.create_from_form_data, review_content_ok.
  rewrite Hid, Hname, Hrating, Hcomment, Htitle.
  cbn [default from_option id py_int py_strip lift bind optional].
  split.
  - destruct title as [text|];
      cbn [default from_option id py_int py_strip lift bind optional];
      split; try discriminate; auto.
  - intros text -> (name' & comment' & v & rating' & [= <-] & [= <-] & [= <-] & Hint & Hn & Hc & Hr).
    cbn [py_int] in Hint. injection Hint as <-.
    cbn [default from_option id py_int py_strip lift bind optional].
    eexists. split; [reflexivity|].
    cbn [GasStationReview.reviewer_name GasStationReview.comment GasStationReview.rating
         GasStationReview.title GasStationReview.status GasStationReview.reviewer_ip].
    repeat split; try assumption; lia.
Qed.

Lemma review_record_needs_a_title_witness :
  let rt := DecimalRuntime.runtime in
  let form_data := create_review_form_data "station-1" " Ana " 5 "Buen servicio y precios"
                     (Some "  ") (Some "token") in
  review_content_ok form_data
  /\ exists review,
       GasStationReview.create_from_form_data form_data {[ "ip" := "1.2.3.4" ]} = Ret review
       /\ (2 <= len (GasStationReview.reviewer_name review))%nat
       /\ (10 <= len (GasStationReview.comment review))%nat
       /\ (1 <= GasStationReview.rating review <= 5)%Z
       /\ GasStationReview.title review = or_none (strip "  ")
       /\ GasStationReview.status review = Some "approved"
       /\ GasStationReview.reviewer_ip review = ({[ "ip" := "1.2.3.4" ]} : gmap string string) !! "ip".
Proof.
  cbv zeta.
  assert (Hok : review_content_ok (rt := DecimalRuntime.runtime)
                  (create_review_form_data "station-1" " Ana " 5 "Buen servicio y precios"
                     (Some "  ") (Some "token"))).
  { exists " Ana ", "Buen servicio y precios", (PyInt 5), 5%Z.
    repeat split; try reflexivity; vm_compute; try discriminate; lia. }
  split; [exact Hok|].
  destruct (review_record_needs_a_title (rt := DecimalRuntime.runtime)
              "station-1" " Ana " 5 "Buen servicio y precios" (Some "  ") (Some "token")
              {[ "ip" := "1.2.3.4" ]}) as [_ Hbuilt].
  exact (Hbuilt "  " eq_refl Hok).
Defined.

(** ** The station's price list *)

Lemma find_app_last {A : Type} (f : A -> bool) (l : list A) (x : A) :
  find f (l ++ [x])%list
  = match find f l with
    | Some y => Some y
    | None => if f x then Some x else None
    end.
Proof.
  induction l as [|y l IH]; simpl; [reflexivity|]. destruct (f y); [reflexivity|exact IH].
Qed.

Lemma collect_current_spec (isoformat : Q -> string) (prices : list GasPrice.t) :
  forall (acc m : gmap string pyval),
    GasStation.collect_current isoformat prices acc = inr m ->
    forall fuel_type,
      match last_current fuel_type prices with
      | Some p =>
          exists created,
            GasPrice.created_at p = Some created
            /\ m !! fuel_type = Some (GasStation.price_entry isoformat p created)
      | None => m !! fuel_type = acc !! fuel_type
      end.
Proof.
  unfold last_current.
  induction prices as [|p rest IH]; intros acc m Hrun fuel_type.
  - injection Hrun as <-. reflexivity.
  - cbn [rev]. rewrite find_app_last. cbn [GasStation.collect_current] in Hrun.
    destruct (default false (GasPrice.is_current p)) eqn:Hcurrent.
    + destruct (GasPrice.created_at p) as [created|] eqn:Hcreated; [|discriminate].
      specialize (IH _ _ Hrun fuel_type).
      destruct (find _ (rev rest)) as [q|]; [exact IH|].
      cbn [andb]. rewrite IH.
      destruct (String.eqb_spec (GasPrice.fuel_type p) fuel_type) as [<-|Hne].
      * exists created. split; [exact Hcreated|]. apply lookup_insert_eq.
      * apply lookup_insert_ne. exact Hne.
    + specialize (IH _ _ Hrun fuel_type).
      destruct (find _ (rev rest)) as [q|]; [exact IH|]. exact IH.
Qed.

Lemma collect_current_raises (isoformat : Q -> string) (prices : list GasPrice.t) :
  forall acc : gmap string pyval,
    (exists e, GasStation.collect_current isoformat prices acc = inl e)
    <-> Exists (fun p => GasPrice.is_current p = Some true /\ GasPrice.created_at p = None)
          prices.
Proof.
  induction prices as [|p rest IH]; intros acc; cbn [GasStation.collect_current].
  - split; [intros [e [=]]|intros H; inversion H].
  - destruct (GasPrice.is_current p) as [[|]|] eqn:Hcurrent; cbn [default from_option id].
    + destruct (GasPrice.created_at p) as [created|] eqn:Hcreated.
      * rewrite IH. split; [intros H; right; exact H|].
        intros H. inversion H as [? ? [_ Hnone]|? ? Hrest]; subst; [congruence|exact Hrest].
      * split; [intros _; left; split; assumption|intros _; eexists; reflexivity].
    + rewrite IH. split; [intros H; right; exact H|].
      intros H. inversion H as [? ? [Hc _]|? ? Hrest]; subst; [congruence|exact Hrest].
    + rewrite IH. split; [intros H; right; exact H|].
      intros H. inversion H as [? ? [Hc _]|? ? Hrest]; subst; [congruence|exact Hrest].
Qed.

(** X21. The station's price listing keeps, for each fuel type, the last
    current price of that type in the order of its price list, and no
    entry for a fuel type without current price; it fails exactly when
    some current price has no creation time. *)
Theorem current_prices_list_the_last_of_each_fuel (isoformat : Q -> string)
    (self : GasStation.t) :
  ((exists e, GasStation.get_current_prices isoformat self = inl e)
   <-> Exists (fun p => GasPrice.is_current p = Some true /\ GasPrice.created_at p = None)
         (GasStation.prices self))
  /\ forall current_prices,
       GasStation.get_current_prices isoformat self = inr current_prices ->
       forall fuel_type,
         match last_current fuel_type (GasStation.prices self) with
         | Some p =>
             exists created,
               GasPrice.created_at p = Some created
               /\ current_prices !! fuel_type
                  = Some (GasStation.price_entry isoformat p created)
         | None => current_prices !! fuel_type = None
         end.
Proof.
  unfold GasStation.get_current_prices. split.
  - apply collect_current_raises.
  - intros m Hrun fuel_type.
    pose proof (collect_current_spec isoformat _ _ _ Hrun fuel_type) as Hspec.
    destruct (last_current fuel_type (GasStation.prices self)); [exact Hspec|].
    rewrite Hspec. apply lookup_empty.
Qed.

Lemma current_prices_list_the_last_of_each_fuel_witness :
  exists current_prices,
    GasStation.get_current_prices DecimalRuntime.decimal_repr sample_station
    = inr current_prices
    /\ current_prices !! "magna"
       = Some (GasStation.price_entry DecimalRuntime.decimal_repr official_price 1699999000)
    /\ current_prices !! "diesel" = None.
Proof.
  destruct (GasStation.get_current_prices DecimalRuntime.decimal_repr sample_station)
    as [e|m] eqn:Hrun; [discriminate Hrun|].
  exists m. split; [reflexivity|].
  destruct (current_prices_list_the_last_of_each_fuel DecimalRuntime.decimal_repr
              sample_station) as [_ Hlast].
  split.
  - destruct (Hlast m Hrun "magna") as (created & [= <-] & Hentry). exact Hentry.
  - exact (Hlast m Hrun "diesel").
Defined.
